(** * tech-debt-estimator: the metrics engine and the debt aggregator

    A shallow embedding of [tech_debt_estimator/metrics.py] and
    [tech_debt_estimator/analyzer.py].

    Conventions of the model.
    - Text is ASCII: a Python [str] is a [string], a character an [ascii].
      Files are read with [errors='ignore'], so what the scanners see is
      always a decoded text; [\s], [str.strip] and [\w] are given their
      ASCII meaning.
    - A Python [int] is a [Z]; hours are exact rationals [Q]: every hour
      figure of the analyzer is an integer or an integer multiple of [0.5].
    - The file system is a tree of [node]s; a directory lists its entries in
      the order the platform hands them to [os.walk].
    - An operation that can raise returns [exc]; [try ... except Exception]
      is [try_except].
    - The scanners and [analyze] are first given as what a call returns;
      the two errors that no [try] of the program covers, and with them
      the calls that raise, come after them ([analyze_call] and the like). *)

From Stdlib Require Import List Bool Arith ZArith QArith Lia.
From Stdlib Require Import Ascii String DecimalString.
From Stdlib Require Import Sorting.Sorted Sorting.Permutation.
Import ListNotations.

Local Close Scope Q_scope.
Local Open Scope string_scope.
Local Open Scope list_scope.
Local Open Scope nat_scope.

(** ** Exceptions *)

Inductive exn : Type :=
| OSError
| ValueError
| OverflowError.

Inductive exc (A : Type) : Type :=
| Ok (a : A)
| Raise (e : exn).

Arguments Ok {A} a.
Arguments Raise {A} e.

Definition ret {A} (a : A) : exc A := Ok a.

Definition bind {A B} (c : exc A) (k : A -> exc B) : exc B :=
  match c with
  | Ok a => k a
  | Raise e => Raise e
  end.

Declare Scope exc_scope.
Delimit Scope exc_scope with exc.
Notation "x <- c ;; k" := (bind c (fun x => k))
  (at level 100, c at next level, right associativity) : exc_scope.

(** [try: c  except Exception: d] *)
Definition try_except {A} (c : exc A) (d : A) : A :=
  match c with
  | Ok a => a
  | Raise _ => d
  end.

Definition raises {A} (c : exc A) : bool :=
  match c with
  | Ok _ => false
  | Raise _ => true
  end.

(** ** Python strings *)

Module Str.

Definition nl : ascii := "010"%char.
Definition cr : ascii := "013"%char.
Definition dquote : ascii := "034"%char.
Definition squote : ascii := "039"%char.

Definition NL : string := String nl EmptyString.

(** Three double quotes and three single quotes. *)
Definition DQ3 : string := String dquote (String dquote (String dquote EmptyString)).
Definition SQ3 : string := String squote (String squote (String squote EmptyString)).

(** [str.isspace] on one ASCII character: TAB, LF, VT, FF, CR, the four
    separators FS..US and the space. *)
Definition is_space (c : ascii) : bool :=
  let n := nat_of_ascii c in
  ((9 <=? n) && (n <=? 13)) || ((28 <=? n) && (n <=? 32)).

(** [\w] on one ASCII character. *)
Definition is_word (c : ascii) : bool :=
  let n := nat_of_ascii c in
  ((48 <=? n) && (n <=? 57)) || ((65 <=? n) && (n <=? 90))
  || ((97 <=? n) && (n <=? 122)) || (n =? 95).

Fixpoint lstrip (s : string) : string :=
  match s with
  | EmptyString => EmptyString
  | String c s' => if is_space c then lstrip s' else s
  end.

Fixpoint rstrip (s : string) : string :=
  match s with
  | EmptyString => EmptyString
  | String c s' =>
      match rstrip s' with
      | EmptyString => if is_space c then EmptyString else String c EmptyString
      | r => String c r
      end
  end.

Definition strip (s : string) : string := rstrip (lstrip s).

Definition is_empty (s : string) : bool :=
  match s with
  | EmptyString => true
  | String _ _ => false
  end.

Definition startswith (s p : string) : bool := String.prefix p s.

(** [sub in s] *)
Fixpoint contains (s sub : string) : bool :=
  String.prefix sub s ||
  match s with
  | EmptyString => false
  | String _ s' => contains s' sub
  end.

Definition endswith (s suf : string) : bool :=
  let n := String.length s in
  let m := String.length suf in
  (m <=? n) && String.eqb (String.substring (n - m) m s) suf.

Definition lower_char (c : ascii) : ascii :=
  let n := nat_of_ascii c in
  if (65 <=? n) && (n <=? 90) then ascii_of_nat (n + 32) else c.

Fixpoint lower (s : string) : string :=
  match s with
  | EmptyString => EmptyString
  | String c s' => String (lower_char c) (lower s')
  end.

(** [s.replace(old, new)] for a non-empty [old]: occurrences are replaced
    left to right, without overlap.  [skip] counts the characters of the
    occurrence being consumed. *)
Fixpoint replace_from (skip : nat) (old new s : string) : string :=
  match s with
  | EmptyString => EmptyString
  | String c s' =>
      match skip with
      | S k => replace_from k old new s'
      | O =>
          if String.prefix old s
          then (new ++ replace_from (String.length old - 1) old new s')%string
          else String c (replace_from 0 old new s')
      end
  end.

Definition replace (s old new : string) : string := replace_from 0 old new s.

(** [sep.join(l)] *)
Definition join (sep : string) (l : list string) : string := String.concat sep l.

(** Universal newlines of a text-mode [open]: CR LF and a lone CR are
    read as LF. *)
Fixpoint universal_newlines (s : string) : string :=
  match s with
  | EmptyString => EmptyString
  | String c s' =>
      if Ascii.eqb c cr then
        match s' with
        | String c' s'' =>
            if Ascii.eqb c' nl then String nl (universal_newlines s'')
            else String nl (universal_newlines s')
        | EmptyString => String nl EmptyString
        end
      else String c (universal_newlines s')
  end.

(** [splitlines_keep cur s]: the lines of [s], each with its final LF,
    [cur] being the part already read of the current line. *)
Fixpoint splitlines_keep (cur : string) (s : string) : list string :=
  match s with
  | EmptyString => if is_empty cur then [] else [cur]
  | String c s' =>
      if Ascii.eqb c nl then (cur ++ NL)%string :: splitlines_keep EmptyString s'
      else splitlines_keep (cur ++ String c EmptyString)%string s'
  end.

(** [f.readlines()] on the text of a file. *)
Definition readlines (text : string) : list string :=
  splitlines_keep EmptyString (universal_newlines text).

(** [s * n] *)
Fixpoint repeat_str (s : string) (n : nat) : string :=
  match n with
  | O => EmptyString
  | S n' => (s ++ repeat_str s n')%string
  end.

End Str.

(** ** The file system

    A file holds its decoded text ([None] when [open] fails on it) and its
    modification time; a directory holds its entries in listing order, with
    a flag telling whether it can be listed.  Times are microseconds, the
    resolution of [datetime]. *)

#[warnings="-register-all"]
Inductive node : Type :=
| File (content : option string) (mtime : Z)
| Dir (listable : bool) (mtime : Z) (entries : list (string * node)).

Definition is_dir (n : node) : bool :=
  match n with
  | Dir _ _ _ => true
  | File _ _ => false
  end.

Definition node_mtime (n : node) : Z :=
  match n with
  | File _ m => m
  | Dir _ m _ => m
  end.

(** [os.scandir]: fails on anything but a directory that can be listed. *)
Definition scandir (n : option node) : exc (list (string * node)) :=
  match n with
  | Some (Dir true _ es) => Ok es
  | _ => Raise OSError
  end.

(** [open(filepath, 'r', encoding='utf-8', errors='ignore')] followed by
    [f.readlines()]. *)
Definition open_readlines (n : node) : exc (list string) :=
  match n with
  | File (Some text) _ => Ok (Str.readlines text)
  | _ => Raise OSError
  end.

(** The entry called [name] of a directory: what [os.path.join(d, name)]
    resolves to. *)
Fixpoint lookup_entry (name : string) (es : list (string * node)) : option node :=
  match es with
  | [] => None
  | (k, n) :: es' => if String.eqb k name then Some n else lookup_entry name es'
  end.

Definition child (d : option node) (name : string) : option node :=
  match d with
  | Some (Dir _ _ es) => lookup_entry name es
  | _ => None
  end.

(** [os.path.join(a, b)] for a [b] that is a plain entry name. *)
Definition path_join (a b : string) : string :=
  if Str.is_empty a then b
  else if Str.endswith a "/" then (a ++ b)%string
  else (a ++ "/" ++ b)%string.

(** Induction on a tree, with the property at hand for every entry of a
    directory. *)
Section NodeInduction.
Variable P : node -> Prop.
Hypothesis P_File : forall content mtime, P (File content mtime).
Hypothesis P_Dir :
  forall listable mtime entries,
    Forall (fun e => P (snd e)) entries -> P (Dir listable mtime entries).

Fixpoint node_nested_ind (n : node) : P n :=
  match n with
  | File content mtime => P_File content mtime
  | Dir listable mtime entries =>
      P_Dir listable mtime entries
        ((fix all (es : list (string * node)) : Forall (fun e => P (snd e)) es :=
            match es with
            | [] => Forall_nil _
            | e :: es' => Forall_cons e (node_nested_ind (snd e)) (all es')
            end) entries)
  end.
End NodeInduction.

(** *** datetime

    A [datetime] is a number of microseconds counted from 1970-01-01
    00:00:00 on the local calendar; the type holds the years 1 to 9999.
    The modification time kept in a [node] is the time stamp of the file
    system, [os.path.getmtime], which [datetime.fromtimestamp] converts,
    when it can, to a [datetime]. *)

Definition MICROS_PER_DAY : Z := 86400 * 1000000.

(** [datetime.min] and [datetime.max]: 0001-01-01 00:00:00 and 9999-12-31
    23:59:59.999999, which are 719162 days before and 2932897 days, less a
    microsecond, after 1970-01-01. *)
Definition DATETIME_MIN : Z := - (719162 * MICROS_PER_DAY).
Definition DATETIME_MAX : Z := 2932897 * MICROS_PER_DAY - 1.

Definition datetime_in_range (t : Z) : bool :=
  (DATETIME_MIN <=? t)%Z && (t <=? DATETIME_MAX)%Z.

(** [timedelta(days=days)], in microseconds: the days of a [timedelta]
    have a magnitude of 999999999 at most. *)
Definition timedelta_days (days : Z) : exc Z :=
  if (Z.abs days <=? 999999999)%Z then Ok (days * MICROS_PER_DAY)%Z
  else Raise OverflowError.

(** [t - delta] for a [datetime] [t] and a [timedelta] [delta]. *)
Definition datetime_minus (t delta : Z) : exc Z :=
  if datetime_in_range (t - delta) then Ok (t - delta)%Z else Raise OverflowError.

(** [datetime.fromtimestamp] on a system whose local time is UTC.  CPython
    converts the time one day earlier as well, to tell a repeated hour, so
    that the first day of the year 1 is refused with the rest. *)
Definition utc_fromtimestamp (timestamp : Z) : exc Z :=
  if datetime_in_range (timestamp - MICROS_PER_DAY) && datetime_in_range timestamp
  then Ok timestamp
  else Raise ValueError.

(** The state of the operating system an analysis runs in. *)
Record os_state : Type := {
  os_abspath : string -> string;        (* os.path.abspath *)
  os_tree : string -> option node;      (* what a path resolves to *)
  os_now : Z;                           (* datetime.now(), read by the scanners *)
  os_fromtimestamp : Z -> exc Z;        (* datetime.fromtimestamp, in the local zone *)
  os_timestamp : string                 (* datetime.now().isoformat(), read last *)
}.

(** *** os.walk *)

(** One triple yielded by [os.walk]: the directory, the same directory
    relative to the top (the empty string for the top itself), and its
    non-directory entries. *)
Record walk_entry : Type := {
  w_root : string;
  w_rel : string;
  w_files : list (string * node)
}.

Definition mem_str (x : string) (l : list string) : bool :=
  existsb (String.eqb x) l.

Definition nondirs (es : list (string * node)) : list (string * node) :=
  filter (fun e => negb (is_dir (snd e))) es.

(** [os.walk(top)], top-down, with the caller's pruning
    [dirs[:] = [d for d in dirs if d not in excluded]].  A directory that
    cannot be listed is skipped silently ([onerror] is [None]). *)
Fixpoint walk_node (excluded : list string) (root rel : string) (n : node)
  : list walk_entry :=
  match n with
  | Dir true _ es =>
      {| w_root := root; w_rel := rel; w_files := nondirs es |} ::
      (fix walk_dirs (l : list (string * node)) : list walk_entry :=
         match l with
         | [] => []
         | (name, sub) :: l' =>
             (if is_dir sub && negb (mem_str name excluded)
              then walk_node excluded (path_join root name) (path_join rel name) sub
              else []) ++ walk_dirs l'
         end) es
  | _ => []
  end.

Definition os_walk (os : os_state) (excluded : list string) (repo_path : string)
  : list walk_entry :=
  match os_tree os repo_path with
  | Some n => walk_node excluded repo_path EmptyString n
  | None => []
  end.

(** A file met during a walk: [os.path.join(root, file)], the same path
    relative to the top ([os.path.relpath(filepath, repo_path)]), and the
    file itself. *)
Record walked : Type := {
  filepath : string;
  rel_path : string;
  file_node : node
}.

(** [for root, dirs, files in os.walk(...): for file in files: if sel(file)] *)
Definition walked_files (sel : string -> bool) (ws : list walk_entry) : list walked :=
  flat_map (fun w =>
    map (fun e => {| filepath := path_join (w_root w) (fst e);
                     rel_path := path_join (w_rel w) (fst e);
                     file_node := snd e |})
        (filter (fun e => sel (fst e)) (w_files w))) ws.

(** ** metrics.py *)

(** [re.compile(r'\.py$')] and [re.compile(r'\.(js|ts|jsx|tsx)$')], used
    with [search]: [$] matches at the end and before a final newline. *)
Definition re_search_suffix (suf s : string) : bool :=
  Str.endswith s suf || Str.endswith s (suf ++ Str.NL).

Definition PYTHON_PATTERN (s : string) : bool := re_search_suffix ".py" s.

Definition JS_PATTERN (s : string) : bool :=
  re_search_suffix ".js" s || re_search_suffix ".ts" s
  || re_search_suffix ".jsx" s || re_search_suffix ".tsx" s.

Definition CODE_PATTERNS : list (string -> bool) := [PYTHON_PATTERN; JS_PATTERN].

Definition is_code_file (filepath : string) : bool :=
  existsb (fun pattern => pattern filepath) CODE_PATTERNS.

(** *** get_lines_of_code *)

(** One turn of the loop over the lines: the state is
    [(in_multiline_comment, code_lines)]. *)
Definition loc_step (st : bool * Z) (line : string) : bool * Z :=
  let '(in_multiline_comment, code_lines) := st in
  let stripped := Str.strip line in
  if Str.is_empty stripped then st
  else if Str.contains stripped Str.DQ3 || Str.contains stripped Str.SQ3
       then (negb in_multiline_comment, code_lines)
  else if in_multiline_comment then st
  else if Str.startswith stripped "#" || Str.startswith stripped "//" then st
  else (in_multiline_comment, (code_lines + 1)%Z).

Definition count_code_lines (lines : list string) : Z :=
  snd (fold_left loc_step lines (false, 0%Z)).

Definition get_lines_of_code (f : node) : Z :=
  try_except (lines <- open_readlines f ;; ret (count_code_lines lines))%exc 0%Z.

(** *** sorted

    Python's [sorted] is stable, so its result is determined by the key:
    equal keys keep their order of arrival.  [before x y] tells whether [x],
    arriving before [y], stays in front of it. *)

Section PySorted.
Context {A : Type}.
Variable before : A -> A -> bool.

Fixpoint insert_stable (x : A) (l : list A) : list A :=
  match l with
  | [] => [x]
  | y :: l' => if before x y then x :: l else y :: insert_stable x l'
  end.

Definition stable_sort (l : list A) : list A :=
  fold_right insert_stable [] l.
End PySorted.

(** [sorted(l, key=key)] and [sorted(l, key=key, reverse=True)], for a key
    compared by [leb]. *)
Definition sorted_by {A K} (leb : K -> K -> bool) (key : A -> K) (l : list A) : list A :=
  stable_sort (fun x y => leb (key x) (key y)) l.

Definition sorted_by_reverse {A K} (leb : K -> K -> bool) (key : A -> K) (l : list A)
  : list A :=
  stable_sort (fun x y => leb (key y) (key x)) l.

(** *** Dictionaries of lists

    A [defaultdict(list)] in insertion order: [d[k].append(v)]. *)
Fixpoint dict_append {V} (k : string) (v : V) (d : list (string * list V))
  : list (string * list V) :=
  match d with
  | [] => [(k, [v])]
  | (k', vs) :: d' =>
      if String.eqb k' k then (k', vs ++ [v]) :: d'
      else (k', vs) :: dict_append k v d'
  end.

(** *** find_complex_files *)

Definition COMPLEX_EXCLUDED : list string :=
  [".git"; "node_modules"; "venv"; ".venv"; "__pycache__"; "dist"; "build"].

Definition EXCLUDED : list string :=
  [".git"; "node_modules"; "venv"; ".venv"; "__pycache__"].

Definition complex_candidates (os : os_state) (repo_path : string) (threshold : Z)
  : list (string * Z) :=
  flat_map (fun f =>
      let loc := get_lines_of_code (file_node f) in
      if (loc >? threshold)%Z then [(rel_path f, loc)] else [])
    (walked_files is_code_file (os_walk os COMPLEX_EXCLUDED repo_path)).

Definition find_complex_files (os : os_state) (repo_path : string) (threshold : Z)
  : list (string * Z) :=
  sorted_by_reverse Z.leb snd (complex_candidates os repo_path threshold).

(** *** find_duplicate_blocks *)

Record duplicate : Type := {
  dup_hash : string;
  dup_count : nat;
  dup_locations : list (string * nat)
}.

Section Hashing.
(** [hashlib.md5(text.encode()).hexdigest()] *)
Variable md5_hexdigest : string -> string.

Definition hash_line_block (lines : list string) : string :=
  let block_text :=
    Str.join Str.NL
      (map Str.strip (filter (fun line => negb (Str.is_empty (Str.strip line))) lines)) in
  md5_hexdigest block_text.

(** [for i in range(len(lines) - block_size + 1)]: the hash of
    [lines[i:i + block_size]] with its line number [i + 1]. *)
Definition file_blocks (block_size : nat) (rel : string) (lines : list string)
  : list (string * (string * nat)) :=
  map (fun i => (hash_line_block (firstn block_size (skipn i lines)), (rel, i + 1)))
      (seq 0 (List.length lines + 1 - block_size)).

(** Every [hashes[block_hash].append((rel_path, i + 1))] of the scan, in
    order. *)
Definition scanned_blocks (os : os_state) (repo_path : string) (block_size : nat)
  : list (string * (string * nat)) :=
  flat_map (fun f =>
      try_except
        (lines <- open_readlines (file_node f) ;;
         ret (file_blocks block_size (rel_path f) lines))%exc
        [])
    (walked_files is_code_file (os_walk os EXCLUDED repo_path)).

Definition index_blocks (blocks : list (string * (string * nat)))
  : list (string * list (string * nat)) :=
  fold_left (fun hashes b => dict_append (fst b) (snd b) hashes) blocks [].

Definition duplicates_of (hashes : list (string * list (string * nat)))
  : list duplicate :=
  flat_map (fun item =>
      let '(block_hash, occurrences) := item in
      if 1 <? List.length occurrences
      then [{| dup_hash := block_hash;
               dup_count := List.length occurrences;
               dup_locations := occurrences |}]
      else [])
    hashes.

Definition find_duplicate_blocks (os : os_state) (repo_path : string) (block_size : nat)
  : list duplicate :=
  let hashes := index_blocks (scanned_blocks os repo_path block_size) in
  firstn 20 (sorted_by_reverse Nat.leb dup_count (duplicates_of hashes)).
End Hashing.

(** *** find_stale_files *)

Section Stale.
(** [mtime.strftime('%Y-%m-%d')] *)
Variable strftime_ymd : Z -> string.

(** The loop of [find_stale_files], with its [try ... except Exception: pass]
    around the conversion of the time stamp.  The cutoff is taken here as a
    number of microseconds: whether [datetime] can hold it is the matter of
    [find_stale_files_call]. *)
Definition stale_candidates (os : os_state) (repo_path : string) (months : Z)
  : list (string * string) :=
  let cutoff_date := (os_now os - 30 * months * MICROS_PER_DAY)%Z in
  flat_map (fun f =>
      try_except
        (mtime <- os_fromtimestamp os (node_mtime (file_node f)) ;;
         ret (if (mtime <? cutoff_date)%Z
              then [(rel_path f, strftime_ymd mtime)]
              else []))%exc
        [])
    (walked_files is_code_file (os_walk os EXCLUDED repo_path)).

Definition find_stale_files (os : os_state) (repo_path : string) (months : Z)
  : list (string * string) :=
  sorted_by String.leb snd (stale_candidates os repo_path months).
End Stale.

(** *** find_untested_code *)

Definition is_test_path (filepath : string) : bool :=
  Str.contains (Str.lower filepath) "test" || Str.contains (Str.lower filepath) "spec".

(** [set.add] *)
Definition set_add (x : string) (s : list string) : list string :=
  if mem_str x s then s else s ++ [x].

(** The first loop: [(source_files, test_files)]. *)
Definition partition_files (fs : list walked) : list string * list string :=
  fold_left (fun acc f =>
      let '(source_files, test_files) := acc in
      if is_test_path (filepath f)
      then (source_files, set_add (rel_path f) test_files)
      else (set_add (rel_path f) source_files, test_files))
    fs ([], []).

Definition has_test (test_files : list string) (source_file : string) : bool :=
  existsb (fun test_file =>
      Str.contains test_file (Str.replace source_file ".py" "")
      || Str.contains test_file (Str.replace source_file ".js" ""))
    test_files.

Definition find_untested_code (os : os_state) (repo_path : string) : list string :=
  let '(source_files, test_files) :=
    partition_files (walked_files is_code_file (os_walk os EXCLUDED repo_path)) in
  let untested := filter (fun source_file => negb (has_test test_files source_file))
                         source_files in
  sorted_by String.leb (fun x => x) untested.

(** *** find_undocumented_code *)

(** [python_def_pattern.match(line)]: white space if any, the keyword
    [def] or [class], white space, a word (the third group, which is what
    the function returns), white space if any, and an opening parenthesis
    or a colon.  The character classes that follow one another are
    disjoint, so the greedy match is the only one. *)
Fixpoint span_word (s : string) : string * string :=
  match s with
  | EmptyString => (EmptyString, EmptyString)
  | String c s' =>
      if Str.is_word c
      then let '(w, r) := span_word s' in (String c w, r)
      else (EmptyString, s)
  end.

Definition strip_prefix (p s : string) : option string :=
  if String.prefix p s
  then Some (String.substring (String.length p) (String.length s - String.length p) s)
  else None.

Definition keyword_rest (s : string) : option string :=
  match strip_prefix "def" s with
  | Some r => Some r
  | None => strip_prefix "class" s
  end.

Definition python_def_pattern (line : string) : option string :=
  match keyword_rest (Str.lstrip line) with
  | None => None
  | Some after_kw =>
      match after_kw with
      | String c _ =>
          if Str.is_space c then
            let '(name, after_name) := span_word (Str.lstrip after_kw) in
            if Str.is_empty name then None
            else
              match Str.lstrip after_name with
              | String d _ =>
                  if Ascii.eqb d "("%char || Ascii.eqb d ":"%char
                  then Some name else None
              | EmptyString => None
              end
          else None
      | EmptyString => None
      end
  end.

(** The literal texts that the two branches of the pattern ask for after
    the first quote character: an opening brace, a double quote, [3] and a
    closing brace; or an opening brace and three single quotes. *)
Definition DOC_TAIL_1 : string :=
  String "{"%char (String Str.dquote (String "3"%char (String "}"%char EmptyString))).

Definition DOC_TAIL_2 : string := String "{"%char Str.SQ3.

(** [docstring_pattern.match(line)].  The pattern has two branches, both
    anchored at the start of the line and both opening with white space and one
    quote character, double or single.  In the first branch the opening
    brace that follows is not the start of a repetition (a double quote
    comes next, not a number), so it is a literal, as are the three
    characters after it.  In the second branch the first brace is a literal
    too, then comes a single quote repeated by [{3}]. *)
Definition docstring_pattern (line : string) : bool :=
  match Str.lstrip line with
  | String q rest =>
      (Ascii.eqb q Str.dquote || Ascii.eqb q Str.squote)
      && (String.prefix DOC_TAIL_1 rest || String.prefix DOC_TAIL_2 rest)
  | EmptyString => false
  end.

(** [for j in range(i + 1, min(i + 5, len(lines)))]: the blank lines are
    skipped and the first other line decides. *)
Fixpoint has_docstring (following : list string) : bool :=
  match following with
  | [] => false
  | next :: following' =>
      if Str.is_empty (Str.strip next) then has_docstring following'
      else docstring_pattern next
  end.

Fixpoint undocumented_names (lines : list string) : list string :=
  match lines with
  | [] => []
  | line :: rest =>
      match python_def_pattern line with
      | Some item_name =>
          if has_docstring (firstn 4 rest)
          then undocumented_names rest
          else item_name :: undocumented_names rest
      | None => undocumented_names rest
      end
  end.

Definition find_undocumented_code (os : os_state) (repo_path : string)
  : list (string * list string) :=
  fold_left (fun undocumented f =>
      try_except
        (lines <- open_readlines (file_node f) ;;
         ret (fold_left (fun d item_name => dict_append (rel_path f) item_name d)
                        (undocumented_names lines) undocumented))%exc
        undocumented)
    (walked_files (fun file => Str.endswith file ".py")
                  (os_walk os EXCLUDED repo_path))
    [].

(** *** analyze_dependency_age *)

Record dependency_age : Type := {
  has_requirements : bool;
  has_lock_file : bool;
  lock_file_age_days : option Z;
  deprecated_packages : list string
}.

Definition DEPENDENCY_FILES : list string :=
  ["requirements.txt"; "setup.py"; "pyproject.toml"; "Pipfile.lock";
   "package-lock.json"; "yarn.lock"].

(** [(datetime.now() - mtime).days] *)
Definition age_in_days (os : os_state) (mtime : Z) : Z :=
  ((os_now os - mtime) / MICROS_PER_DAY)%Z.

Definition dependency_step (os : os_state) (repo_path : string)
  (result : dependency_age) (fname : string) : dependency_age :=
  match child (os_tree os repo_path) fname with
  | Some n =>
      let result :=
        {| has_requirements := has_requirements result;
           has_lock_file := if Str.contains fname "lock" then true else false;
           lock_file_age_days := lock_file_age_days result;
           deprecated_packages := deprecated_packages result |} in
      let result :=
        if Str.contains fname "requirements" || Str.contains fname "pyproject"
           || Str.contains fname "setup"
        then {| has_requirements := true;
                has_lock_file := has_lock_file result;
                lock_file_age_days := lock_file_age_days result;
                deprecated_packages := deprecated_packages result |}
        else result in
      try_except
        (mtime <- os_fromtimestamp os (node_mtime n) ;;
         let age_days := age_in_days os mtime in
         ret (match lock_file_age_days result with
              | Some old =>
                  if (age_days <? old)%Z
                  then {| has_requirements := has_requirements result;
                          has_lock_file := has_lock_file result;
                          lock_file_age_days := Some age_days;
                          deprecated_packages := deprecated_packages result |}
                  else result
              | None =>
                  {| has_requirements := has_requirements result;
                     has_lock_file := has_lock_file result;
                     lock_file_age_days := Some age_days;
                     deprecated_packages := deprecated_packages result |}
              end))%exc
        result
  | None => result
  end.

Definition analyze_dependency_age (os : os_state) (repo_path : string) : dependency_age :=
  fold_left (dependency_step os repo_path) DEPENDENCY_FILES
    {| has_requirements := false;
       has_lock_file := false;
       lock_file_age_days := None;
       deprecated_packages := [] |}.

(** ** analyzer.py *)

Inductive Severity : Type :=
| CRITICAL
| HIGH
| MEDIUM
| LOW.

(** [severity.value] *)
Definition severity_value (s : Severity) : Z :=
  match s with
  | CRITICAL => 4
  | HIGH => 3
  | MEDIUM => 2
  | LOW => 1
  end.

Definition severity_eqb (a b : Severity) : bool :=
  (severity_value a =? severity_value b)%Z.

(** The values kept in a [details] dictionary. *)
Inductive pyval : Type :=
| PInt (z : Z)
| PBool (b : bool)
| PNone
| PList (l : list string).

Record DebtCategory : Type := {
  name : string;
  estimated_hours : Q;
  severity : Severity;
  affected_files : list string;
  recommendations : list string;
  details : list (string * pyval)
}.

Record DebtResult : Type := {
  repo_path : string;
  total_hours : Q;
  categories : list (string * DebtCategory);
  analyzed_at : string;
  summary : string
}.

(** The order of Python on the tuples [(severity.value, estimated_hours)]. *)
Definition key_leb (a b : Z * Q) : bool :=
  if (fst a =? fst b)%Z then Qle_bool (snd a) (snd b) else (fst a <? fst b)%Z.

Definition category_key (x : string * DebtCategory) : Z * Q :=
  (severity_value (severity (snd x)), estimated_hours (snd x)).

Definition sorted_categories (self : DebtResult) : list (string * DebtCategory) :=
  sorted_by_reverse key_leb category_key (categories self).

(** *** Formatting *)

(** [str(n)] *)
Definition str_of_Z (z : Z) : string := NilZero.string_of_int (Z.to_int z).

Definition str_of_nat (n : nat) : string := str_of_Z (Z.of_nat n).

(** [f'{q:.1f}']: the nearest tenth, ties to even. *)
Definition tenths (q : Q) : Z :=
  let n := (10 * Qnum q)%Z in
  let d := Zpos (Qden q) in
  let fl := (n / d)%Z in
  match (2 * (n mod d) ?= d)%Z with
  | Lt => fl
  | Gt => (fl + 1)%Z
  | Eq => if Z.even fl then fl else (fl + 1)%Z
  end.

Definition format_1f (q : Q) : string :=
  let t := tenths q in
  ((if (t <? 0)%Z then "-" else "")
   ++ str_of_Z (Z.abs t / 10) ++ "." ++ str_of_Z (Z.abs t mod 10))%string.

(** *** TechnicalDebtAnalyzer *)

Definition REFACTOR_HOURS_PER_FILE : Q := 10.
Definition DUP_HOURS_PER_BLOCK : Q := 3.
Definition TEST_HOURS_PER_FILE : Q := 4.
Definition DOC_HOURS_PER_ITEM : Q := 0.5.
Definition STALE_HOURS_PER_FILE : Q := 6.
Definition DEPENDENCY_BASE_HOURS : Q := 5.

Definition COMPLEXITY_THRESHOLD : Z := 500.
Definition STALE_MONTHS : Z := 12.

(** [len(l)] as a number of hours. *)
Definition len_Q {A} (l : list A) : Q := inject_Z (Z.of_nat (List.length l)).

(** The four tiers of a count: [> c] CRITICAL, [> h] HIGH, [> m] MEDIUM,
    else LOW. *)
Definition severity_of_count (n c h m : nat) : Severity :=
  if c <? n then CRITICAL
  else if h <? n then HIGH
  else if m <? n then MEDIUM
  else LOW.

Definition _analyze_complexity (os : os_state) (repo_path : string) : DebtCategory :=
  let complex_files := find_complex_files os repo_path COMPLEXITY_THRESHOLD in
  let affected_files :=
    map (fun x => (fst x ++ " (" ++ str_of_Z (snd x) ++ " lines)")%string)
        (firstn 10 complex_files) in
  let estimated_hours := (len_Q complex_files * REFACTOR_HOURS_PER_FILE)%Q in
  let severity := severity_of_count (List.length complex_files) 20 10 5 in
  let recommendations :=
    [("Refactor " ++ str_of_nat (List.length complex_files)
      ++ " overly complex files (>500 LOC)")%string;
     "Break down large functions into smaller units";
     "Extract utility functions and helper methods";
     "Consider splitting large modules into submodules"] in
  {| name := "Complexity Debt";
     estimated_hours := estimated_hours;
     severity := severity;
     affected_files := affected_files;
     recommendations := recommendations;
     details := [("file_count", PInt (Z.of_nat (List.length complex_files)))] |}.

(** [len(set(loc[0] for loc in locations))] *)
Definition count_distinct (l : list string) : nat :=
  List.length (nodup string_dec l).

Section Analyzer.
Variable md5_hexdigest : string -> string.
Variable strftime_ymd : Z -> string.

Definition _analyze_duplication (os : os_state) (repo_path : string) : DebtCategory :=
  let duplicates := find_duplicate_blocks md5_hexdigest os repo_path 5 in
  let duplicate_count := List.length duplicates in
  let total_blocks := fold_left Nat.add (map dup_count duplicates) 0 in
  let estimated_hours := (len_Q duplicates * DUP_HOURS_PER_BLOCK)%Q in
  let affected_files :=
    map (fun dup =>
           (str_of_nat (count_distinct (map fst (dup_locations dup)))
            ++ " files (" ++ str_of_nat (dup_count dup) ++ " occurrences)")%string)
        (firstn 5 duplicates) in
  let severity := severity_of_count duplicate_count 30 15 5 in
  let recommendations :=
    [("Extract " ++ str_of_nat duplicate_count
      ++ " duplicated code blocks into shared utilities")%string;
     "Implement DRY principle across codebase";
     "Use code generation or templates where applicable";
     "Regular duplication scanning in CI/CD"] in
  {| name := "Duplication Debt";
     estimated_hours := estimated_hours;
     severity := severity;
     affected_files := firstn 5 affected_files;
     recommendations := recommendations;
     details := [("duplicate_blocks", PInt (Z.of_nat duplicate_count));
                 ("total_occurrences", PInt (Z.of_nat total_blocks))] |}.

Definition _analyze_tests (os : os_state) (repo_path : string) : DebtCategory :=
  let untested_files := find_untested_code os repo_path in
  let estimated_hours := (len_Q untested_files * TEST_HOURS_PER_FILE)%Q in
  let affected_files := firstn 10 untested_files in
  let severity := severity_of_count (List.length untested_files) 50 25 10 in
  let recommendations :=
    [("Add tests for " ++ str_of_nat (List.length untested_files)
      ++ " untested source files")%string;
     "Set minimum code coverage threshold (80%+)";
     "Implement test-driven development practices";
     "Add pre-commit hooks to check test coverage"] in
  {| name := "Test Coverage Debt";
     estimated_hours := estimated_hours;
     severity := severity;
     affected_files := affected_files;
     recommendations := recommendations;
     details := [("untested_files", PInt (Z.of_nat (List.length untested_files)))] |}.

Definition _analyze_documentation (os : os_state) (repo_path : string) : DebtCategory :=
  let undocumented := find_undocumented_code os repo_path in
  let total_undocumented :=
    fold_left Nat.add (map (fun item => List.length (snd item)) undocumented) 0 in
  let estimated_hours :=
    (inject_Z (Z.of_nat total_undocumented) * DOC_HOURS_PER_ITEM)%Q in
  let affected_files :=
    map (fun item =>
           (fst item ++ " (" ++ str_of_nat (List.length (snd item))
            ++ " undocumented)")%string)
        (firstn 5 undocumented) in
  let severity := severity_of_count total_undocumented 100 50 20 in
  let recommendations :=
    [("Add docstrings to " ++ str_of_nat total_undocumented
      ++ " functions/classes")%string;
     "Document public API endpoints";
     "Create architecture decision records (ADRs)";
     "Enforce documentation in code review process"] in
  {| name := "Documentation Debt";
     estimated_hours := estimated_hours;
     severity := severity;
     affected_files := affected_files;
     recommendations := recommendations;
     details := [("undocumented_count", PInt (Z.of_nat total_undocumented))] |}.

Definition _analyze_stale_code (os : os_state) (repo_path : string) : DebtCategory :=
  let stale_files := find_stale_files strftime_ymd os repo_path STALE_MONTHS in
  let estimated_hours := (len_Q stale_files * STALE_HOURS_PER_FILE)%Q in
  let affected_files :=
    map (fun x => (fst x ++ " (last: " ++ snd x ++ ")")%string)
        (firstn 10 stale_files) in
  let severity := severity_of_count (List.length stale_files) 30 15 5 in
  let recommendations :=
    [("Audit " ++ str_of_nat (List.length stale_files) ++ " stale code files")%string;
     "Remove or archive dead code branches";
     "Consolidate overlapping functionality";
     "Establish code maintenance policy"] in
  {| name := "Stale Code Debt";
     estimated_hours := estimated_hours;
     severity := severity;
     affected_files := affected_files;
     recommendations := recommendations;
     details := [("stale_files", PInt (Z.of_nat (List.length stale_files)))] |}.

(** [x and x > bound] for an [x] that is [None] or an [int]. *)
Definition truthy_gt (x : option Z) (bound : Z) : bool :=
  match x with
  | Some d => negb (d =? 0)%Z && (d >? bound)%Z
  | None => false
  end.

Definition dependency_details (d : dependency_age) : list (string * pyval) :=
  [("has_requirements", PBool (has_requirements d));
   ("has_lock_file", PBool (has_lock_file d));
   ("lock_file_age_days",
    match lock_file_age_days d with Some a => PInt a | None => PNone end);
   ("deprecated_packages", PList (deprecated_packages d))].

Definition _analyze_dependencies (os : os_state) (repo_path : string) : DebtCategory :=
  let dep_analysis := analyze_dependency_age os repo_path in
  let estimated_hours := DEPENDENCY_BASE_HOURS in
  let affected_files :=
    (if has_requirements dep_analysis
     then ["requirements.txt / setup.py / pyproject.toml"] else [])
    ++ (if has_lock_file dep_analysis
        then
          let age_days :=
            match lock_file_age_days dep_analysis with
            | Some d => d
            | None => 0%Z
            end in
          [("Lock files (" ++ str_of_Z age_days ++ " days old)")%string]
        else []) in
  let severity :=
    if truthy_gt (lock_file_age_days dep_analysis) 180 then HIGH
    else if truthy_gt (lock_file_age_days dep_analysis) 90 then MEDIUM
    else LOW in
  let '(severity, estimated_hours) :=
    if negb (has_requirements dep_analysis)
    then (CRITICAL, (estimated_hours + 3)%Q)
    else (severity, estimated_hours) in
  let recommendations :=
    ["Update all dependencies to latest stable versions";
     "Implement dependency audit process";
     "Use tools like Dependabot for automated updates";
     "Document breaking changes during dependency upgrades"] in
  {| name := "Dependency Debt";
     estimated_hours := estimated_hours;
     severity := severity;
     affected_files := affected_files;
     recommendations := recommendations;
     details := dependency_details dep_analysis |}.

Definition _get_timestamp (os : os_state) : string := os_timestamp os.

(** [categories.values()] *)
Definition values {V} (d : list (string * V)) : list V := map snd d.

(** [sum(...)]: the additions start from [0]. *)
Definition sum_hours (l : list Q) : Q := fold_left Qplus l 0%Q.

Definition count_severity (s : Severity) (categories : list (string * DebtCategory))
  : nat :=
  List.length (filter (fun cat => severity_eqb (severity cat) s) (values categories)).

Definition _generate_summary (categories : list (string * DebtCategory))
  (total_hours : Q) : string :=
  let critical_count := count_severity CRITICAL categories in
  let high_count := count_severity HIGH categories in
  let summary :=
    ("Total technical debt: " ++ format_1f total_hours ++ " developer-hours")%string in
  let summary :=
    if 0 <? critical_count
    then (summary ++ " (" ++ str_of_nat critical_count ++ " CRITICAL areas)")%string
    else summary in
  if 0 <? high_count
  then (summary ++ " (" ++ str_of_nat high_count ++ " HIGH areas)")%string
  else summary.

(** What [analyze] returns.  Nothing raises in the analysis itself once the
    five walks have started; the calls that do not get that far are told
    apart by [analyze_call]. *)
Definition analyze (os : os_state) (repo_path : string) : exc DebtResult :=
  let repo_path := os_abspath os repo_path in
  let categories :=
    [("Complexity Debt", _analyze_complexity os repo_path);
     ("Duplication Debt", _analyze_duplication os repo_path);
     ("Test Coverage Debt", _analyze_tests os repo_path);
     ("Documentation Debt", _analyze_documentation os repo_path);
     ("Stale Code Debt", _analyze_stale_code os repo_path);
     ("Dependency Debt", _analyze_dependencies os repo_path)] in
  let total_hours := sum_hours (map estimated_hours (values categories)) in
  let result :=
    {| repo_path := repo_path;
       total_hours := total_hours;
       categories := categories;
       analyzed_at := _get_timestamp os;
       summary := _generate_summary categories total_hours |} in
  ret result.
End Analyzer.

(** ** The errors that reach the caller

    The scanners and [analyze] above give what a call returns when it
    returns.  Two errors are handled by no [try] of the program, and a call
    that meets one raises it instead of returning.
    - [os.walk] hands its top directory to [os.scandir] and handles
      [OSError] alone: a path that the operating system does not take as a
      path at all, one with a NUL character, is answered with [ValueError]
      at the first step of the loop.  A path that is missing, is a file or
      cannot be listed is an [OSError], and the walk is then empty.
    - [find_stale_files] computes
      [datetime.now() - timedelta(days=30 * months)] before its walk: the
      [timedelta] and the subtraction raise [OverflowError] out of their
      ranges. *)

Definition NUL : string := String "000"%char EmptyString.

Definition refused (path : string) : bool := Str.contains path NUL.

(** The first [os.scandir] of [os.walk(repo_path)]. *)
Definition os_walk_call (repo_path : string) : exc unit :=
  if refused repo_path then Raise ValueError else Ok tt.

Definition find_complex_files_call (os : os_state) (repo_path : string) (threshold : Z)
  : exc (list (string * Z)) :=
  (started <- os_walk_call repo_path ;;
   ret (find_complex_files os repo_path threshold))%exc.

Section Calls.
Variable md5_hexdigest : string -> string.
Variable strftime_ymd : Z -> string.

Definition find_duplicate_blocks_call (os : os_state) (repo_path : string)
  (block_size : nat) : exc (list duplicate) :=
  (started <- os_walk_call repo_path ;;
   ret (find_duplicate_blocks md5_hexdigest os repo_path block_size))%exc.

Definition find_stale_files_call (os : os_state) (repo_path : string) (months : Z)
  : exc (list (string * string)) :=
  (delta <- timedelta_days (30 * months) ;;
   cutoff_date <- datetime_minus (os_now os) delta ;;
   started <- os_walk_call repo_path ;;
   ret (find_stale_files strftime_ymd os repo_path months))%exc.

Definition find_untested_code_call (os : os_state) (repo_path : string)
  : exc (list string) :=
  (started <- os_walk_call repo_path ;;
   ret (find_untested_code os repo_path))%exc.

Definition find_undocumented_code_call (os : os_state) (repo_path : string)
  : exc (list (string * list string)) :=
  (started <- os_walk_call repo_path ;;
   ret (find_undocumented_code os repo_path))%exc.

(** [analyze] runs its six analyses in the order of the mapping; the first
    five call their scanner, and [analyze_dependency_age] walks nothing
    ([os.path.exists] answers [False] where [os.stat] raises). *)
Definition analyze_call (os : os_state) (repo_path : string) : exc DebtResult :=
  let top := os_abspath os repo_path in
  (complex_files <- find_complex_files_call os top COMPLEXITY_THRESHOLD ;;
   duplicates <- find_duplicate_blocks_call os top 5 ;;
   untested_files <- find_untested_code_call os top ;;
   undocumented <- find_undocumented_code_call os top ;;
   stale_files <- find_stale_files_call os top STALE_MONTHS ;;
   analyze md5_hexdigest strftime_ymd os repo_path)%exc.
End Calls.

(** ** Vocabulary of the properties *)

(** *** Lines, as the line classifier sees them *)

Definition blank_line (line : string) : bool := Str.is_empty (Str.strip line).

Definition delimiter_line (line : string) : bool :=
  negb (blank_line line)
  && (Str.contains (Str.strip line) Str.DQ3 || Str.contains (Str.strip line) Str.SQ3).

Definition comment_line (line : string) : bool :=
  Str.startswith (Str.strip line) "#" || Str.startswith (Str.strip line) "//".

(** The flag when a line is reached: the parity of the delimiter lines
    read before it. *)
Definition inside_after (pre : list string) : bool :=
  Nat.odd (List.length (filter delimiter_line pre)).

(** A line counts as code when it is outside a multi-line region and is
    neither blank, nor a delimiter line, nor a comment. *)
Definition counts_as_code (inside : bool) (line : string) : bool :=
  negb inside && negb (blank_line line) && negb (delimiter_line line)
  && negb (comment_line line).

(** *** Orders *)

Definition descending {A} (key : A -> Z) (l : list A) : Prop :=
  StronglySorted (fun x y => (key x >= key y)%Z) l.

Definition strictly_descending {A} (key : A -> Z) (l : list A) : Prop :=
  StronglySorted (fun x y => (key x > key y)%Z) l.

(** The files that [find_complex_files] meets, each with its count of
    code lines. *)
Definition measured_files (os : os_state) (repo_path : string) : list (string * Z) :=
  map (fun f => (rel_path f, get_lines_of_code (file_node f)))
      (walked_files is_code_file (os_walk os COMPLEX_EXCLUDED repo_path)).

(** Two files of two code lines each. *)
Definition two_lines : string := ("x = 1" ++ Str.NL ++ "y = 2" ++ Str.NL)%string.

Definition ties_os : os_state :=
  {| os_abspath := fun p => p;
     os_tree := fun p =>
       if String.eqb p "/repo"
       then Some (Dir true 0 [("a.py", File (Some two_lines) 0);
                              ("b.py", File (Some two_lines) 0)])
       else None;
     os_now := 0;
     os_fromtimestamp := utc_fromtimestamp;
     os_timestamp := "2024-01-01T00:00:00" |}.

(** *** Duplicate groups *)

(** What is recorded under a fingerprint: the locations of the blocks
    that hash to it, in the order of the scan. *)
Definition occurrences {V} (h : string) (blocks : list (string * V)) : list V :=
  map snd (filter (fun b => String.eqb (fst b) h) blocks).

(** [d.get(k, [])] *)
Fixpoint dict_get {V} (k : string) (d : list (string * list V)) : list V :=
  match d with
  | [] => []
  | (k', vs) :: d' => if String.eqb k' k then vs else dict_get k d'
  end.

(** The dictionary after every block of a scan has been recorded. *)
Definition record_all {V} (blocks : list (string * V)) (d : list (string * list V))
  : list (string * list V) :=
  fold_left (fun hashes b => dict_append (fst b) (snd b) hashes) blocks d.

Definition descending_count (l : list duplicate) : Prop :=
  StronglySorted (fun a b => dup_count a >= dup_count b) l.

(** A directory with one file: three lines, five times over. *)
Definition three_lines : string :=
  ("x = 1" ++ Str.NL ++ "y = 2" ++ Str.NL ++ "z = 3" ++ Str.NL)%string.

Definition repeated_os : os_state :=
  {| os_abspath := fun p => p;
     os_tree := fun p =>
       if String.eqb p "/repo"
       then Some (Dir true 0
                    [("duplication.py", File (Some (Str.repeat_str three_lines 5)) 0)])
       else None;
     os_now := 0;
     os_fromtimestamp := utc_fromtimestamp;
     os_timestamp := "2024-01-01T00:00:00" |}.

(** *** Dependency files *)

Definition exists_under (os : os_state) (repo_path fname : string) : bool :=
  match child (os_tree os repo_path) fname with
  | Some _ => true
  | None => false
  end.

(** The checked file names that exist, in the order of the check. *)
Definition existing_files (os : os_state) (repo_path : string) : list string :=
  filter (exists_under os repo_path) DEPENDENCY_FILES.

(** The [datetime] at which a checked file was modified: nothing when the
    file does not exist, and nothing when its time stamp cannot be
    converted. *)
Definition modified_at (os : os_state) (repo_path fname : string) : option Z :=
  match child (os_tree os repo_path) fname with
  | Some n =>
      match os_fromtimestamp os (node_mtime n) with
      | Ok mtime => Some mtime
      | Raise _ => None
      end
  | None => None
  end.

(** The ages in days of the checked files that have one. *)
Definition ages_of (os : os_state) (repo_path : string) (fnames : list string) : list Z :=
  flat_map (fun fname =>
      match modified_at os repo_path fname with
      | Some mtime => [age_in_days os mtime]
      | None => []
      end)
    fnames.

(** The order of the check, as the specification gives it. *)
Definition CHECK_ORDER : list string :=
  ["requirements.txt"; "setup.py"; "pyproject.toml"; "Pipfile.lock";
   "package-lock.json"; "yarn.lock"].

Definition checked_existing (os : os_state) (repo_path : string) : list string :=
  filter (exists_under os repo_path) CHECK_ORDER.

(** [d] whole days, of 86400 seconds, lie between the [datetime] [mtime] and
    the [datetime] [now]. *)
Definition whole_days_between (mtime now d : Z) : Prop :=
  (d * 86400000000 <= now - mtime < (d + 1) * 86400000000)%Z.

(** The three manifests. *)
Definition MANIFESTS : list string := ["requirements.txt"; "setup.py"; "pyproject.toml"].

Definition is_manifest (fname : string) : bool :=
  Str.contains fname "requirements" || Str.contains fname "pyproject"
  || Str.contains fname "setup".

(** [m] is the least element of [l], or nothing when [l] is empty. *)
Definition is_minimum (m : option Z) (l : list Z) : Prop :=
  match m with
  | Some x => In x l /\ Forall (fun y => (x <= y)%Z) l
  | None => l = []
  end.

(** One comparison of the running minimum with the age of a file. *)
Definition merge_age (acc : option Z) (age_days : Z) : option Z :=
  match acc with
  | Some old => if (age_days <? old)%Z then Some age_days else Some old
  | None => Some age_days
  end.

(** A directory that holds [requirements.txt] and nothing else. *)
Definition requirements_only_os : os_state :=
  {| os_abspath := fun p => p;
     os_tree := fun p =>
       if String.eqb p "/repo"
       then Some (Dir true 0 [("requirements.txt", File (Some "click>=8.0") 0)])
       else None;
     os_now := 3 * MICROS_PER_DAY;
     os_fromtimestamp := utc_fromtimestamp;
     os_timestamp := "2024-01-04T00:00:00" |}.

(** A directory that holds [requirements.txt] alone, stamped one
    microsecond after the last [datetime]. *)
Definition year_10000_os : os_state :=
  {| os_abspath := fun p => p;
     os_tree := fun p =>
       if String.eqb p "/repo"
       then Some (Dir true 0
                    [("requirements.txt", File (Some "click>=8.0") (DATETIME_MAX + 1))])
       else None;
     os_now := 3 * MICROS_PER_DAY;
     os_fromtimestamp := utc_fromtimestamp;
     os_timestamp := "2024-01-04T00:00:00" |}.

(** *** Ranking *)

(** [x] ranks at least as high as [y]: a higher severity, or the same
    severity and at least as many hours. *)
Definition ranks_before (x y : string * DebtCategory) : Prop :=
  (severity_value (severity (snd x)) > severity_value (severity (snd y)))%Z
  \/ (severity_value (severity (snd x)) = severity_value (severity (snd y))
      /\ (estimated_hours (snd y) <= estimated_hours (snd x))%Q).

(** The sort key with the hours in lowest terms, so that equal keys are
    equal terms. *)
Definition ranking_key (x : string * DebtCategory) : Z * Q :=
  (severity_value (severity (snd x)), Qred (estimated_hours (snd x))).

(** The categories whose key equals [k] in the order of Python. *)
Definition has_key (k : Z * Q) (x : string * DebtCategory) : bool :=
  key_leb (category_key x) k && key_leb k (category_key x).

Definition plain_category (n : string) (h : Q) (s : Severity) : DebtCategory :=
  {| name := n; estimated_hours := h; severity := s;
     affected_files := []; recommendations := []; details := [] |}.

Definition plain_result (cats : list (string * DebtCategory)) : DebtResult :=
  {| repo_path := "/repo"; total_hours := 0; categories := cats;
     analyzed_at := "2024-01-01T00:00:00"; summary := "" |}.

Definition two_categories : list (string * DebtCategory) :=
  [("Stale Code Debt", plain_category "Stale Code Debt" 12 LOW);
   ("Dependency Debt", plain_category "Dependency Debt" 8 CRITICAL)].

(** *** Test files *)

(** The files that [find_untested_code] meets. *)
Definition scanned_files (os : os_state) (repo_path : string) : list walked :=
  walked_files is_code_file (os_walk os EXCLUDED repo_path).

Definition ascending (l : list string) : Prop :=
  StronglySorted (fun a b => String.leb a b = true) l.

(** A repository kept under a directory called [tests]. *)
Definition under_tests_os : os_state :=
  {| os_abspath := fun p => p;
     os_tree := fun p =>
       if String.eqb p "/home/dev/tests/project"
       then Some (Dir true 0
                    [("main.py", File (Some two_lines) 0);
                     ("src", Dir true 0 [("util.js", File (Some two_lines) 0)])])
       else None;
     os_now := 0;
     os_fromtimestamp := utc_fromtimestamp;
     os_timestamp := "2024-01-01T00:00:00" |}.

(** The same repository, reached by its relative name from the directory
    [/home/dev/tests]. *)
Definition relative_name_os : os_state :=
  {| os_abspath := fun p =>
       if Str.startswith p "/" then p else ("/home/dev/tests/" ++ p)%string;
     os_tree := fun p =>
       if String.eqb p "project" || String.eqb p "/home/dev/tests/project"
       then Some (Dir true 0
                    [("main.py", File (Some two_lines) 0);
                     ("src", Dir true 0 [("util.js", File (Some two_lines) 0)])])
       else None;
     os_now := 0;
     os_fromtimestamp := utc_fromtimestamp;
     os_timestamp := "2024-01-01T00:00:00" |}.

(** *** Runs of the analyzer *)

(** [q] is [k] half hours, none of them negative. *)
Definition half_hours (q : Q) (k : Z) : Prop := (0 <= k)%Z /\ (q == inject_Z k / 2)%Q.

(** A number that the binary64 format holds exactly: [m * 2 ^ e] with
    [|m| < 2 ^ 53] and [-1074 <= e <= 971]. *)
Definition binary64 (q : Q) : Prop :=
  exists m e : Z,
    (Z.abs m < 2 ^ 53)%Z /\ (-1074 <= e <= 971)%Z /\ (q == inject_Z m * 2 ^ e)%Q.

(** Stand-ins for the two library functions, for the runs below: a digest
    that is the text itself, and a date that is the number of the day. *)
Definition text_digest (text : string) : string := text.

Definition day_number (mtime : Z) : string := str_of_Z (mtime / MICROS_PER_DAY).

(** A function with a docstring, and a function without. *)
Definition documented_source : string :=
  ("def hello():" ++ Str.NL
   ++ "    " ++ Str.DQ3 ++ "Say hello." ++ Str.DQ3 ++ Str.NL
   ++ "    print(1)" ++ Str.NL)%string.

Definition undocumented_source : string :=
  ("def function_without_docstring():" ++ Str.NL ++ "    pass" ++ Str.NL)%string.

Definition docstring_os : os_state :=
  {| os_abspath := fun p => p;
     os_tree := fun p =>
       if String.eqb p "/repo"
       then Some (Dir true 0 [("simple.py", File (Some documented_source) 0);
                              ("undocumented.py", File (Some undocumented_source) 0)])
       else None;
     os_now := 0;
     os_fromtimestamp := utc_fromtimestamp;
     os_timestamp := "2024-01-01T00:00:00" |}.

(** A system in which no path resolves to anything. *)
Definition empty_os : os_state :=
  {| os_abspath := fun p => p;
     os_tree := fun _ => None;
     os_now := 0;
     os_fromtimestamp := utc_fromtimestamp;
     os_timestamp := "2024-01-01T00:00:00" |}.

(** [True] for a path that resolves to a directory that can be listed. *)
Definition readable_directory (os : os_state) (path : string) : bool :=
  match os_tree os path with
  | Some (Dir true _ _) => true
  | _ => false
  end.

(** A clock that reads a [datetime], and not one of the first 360 days of
    the year 1. *)
Definition ordinary_clock (os : os_state) : Prop :=
  (DATETIME_MIN + 360 * 86400000000 <= os_now os <= DATETIME_MAX)%Z.

(** Two trees with the same entries, the same contents and the same
    modification times, whatever the order in which the directories list
    their entries. *)
#[warnings="-register-all"]
Inductive same_entries : node -> node -> Prop :=
| same_File (content : option string) (mtime : Z) :
    same_entries (File content mtime) (File content mtime)
| same_Dir (listable : bool) (mtime : Z) (es1 es es2 : list (string * node)) :
    Permutation es1 es ->
    Forall2 (fun e1 e2 => fst e1 = fst e2 /\ same_entries (snd e1) (snd e2)) es es2 ->
    same_entries (Dir listable mtime es1) (Dir listable mtime es2).

(** Induction on [same_entries], with the property at hand for the entries
    of the two directories. *)
Section SameEntriesInduction.
Variable P : node -> node -> Prop.
Hypothesis P_File : forall content mtime, P (File content mtime) (File content mtime).
Hypothesis P_Dir :
  forall listable mtime es1 es es2,
    Permutation es1 es ->
    Forall2 (fun e1 e2 => fst e1 = fst e2 /\ same_entries (snd e1) (snd e2)) es es2 ->
    Forall2 (fun e1 e2 => fst e1 = fst e2 /\ P (snd e1) (snd e2)) es es2 ->
    P (Dir listable mtime es1) (Dir listable mtime es2).

Fixpoint same_entries_nested_ind (n1 n2 : node) (H : same_entries n1 n2) {struct H}
  : P n1 n2 :=
  match H with
  | same_File content mtime => P_File content mtime
  | same_Dir listable mtime es1 es es2 Hperm Hall =>
      P_Dir listable mtime es1 es es2 Hperm Hall
        ((fix all (l1 l2 : list (string * node))
               (Hl : Forall2 (fun e1 e2 => fst e1 = fst e2
                                           /\ same_entries (snd e1) (snd e2)) l1 l2)
               {struct Hl}
            : Forall2 (fun e1 e2 => fst e1 = fst e2 /\ P (snd e1) (snd e2)) l1 l2 :=
            match Hl with
            | Forall2_nil _ => Forall2_nil _
            | Forall2_cons e1 e2 (conj Hname Hsame) Hrest =>
                Forall2_cons e1 e2
                  (conj Hname (same_entries_nested_ind (snd e1) (snd e2) Hsame))
                  (all _ _ Hrest)
            end) es es2 Hall)
  end.
End SameEntriesInduction.

(** The directory at [top] is the same for two states of the system. *)
Definition same_directory (os1 os2 : os_state) (top : string) : Prop :=
  match os_tree os1 top, os_tree os2 top with
  | Some n1, Some n2 => same_entries n1 n2
  | None, None => True
  | _, _ => False
  end.

(** The names that the directory at [top] lists. *)
Definition listed_names (os : os_state) (top : string) : list string :=
  match os_tree os top with
  | Some (Dir _ _ es) => map fst es
  | _ => []
  end.

(** Two categories that agree on everything but the files they name. *)
Definition same_figures (c1 c2 : string * DebtCategory) : Prop :=
  fst c1 = fst c2
  /\ name (snd c1) = name (snd c2)
  /\ estimated_hours (snd c1) = estimated_hours (snd c2)
  /\ severity (snd c1) = severity (snd c2)
  /\ recommendations (snd c1) = recommendations (snd c2)
  /\ details (snd c1) = details (snd c2).

(** Two results that agree on everything but the files they name and the
    time of the analysis. *)
Definition same_analysis (r1 r2 : DebtResult) : Prop :=
  repo_path r1 = repo_path r2
  /\ Forall2 same_figures (categories r1) (categories r2)
  /\ total_hours r1 = total_hours r2
  /\ summary r1 = summary r2.

(** A repository seen by two runs: the directories list their entries in
    another order, the timestamps differ, and so does the rest of the file
    system. *)
Definition first_run_os : os_state :=
  {| os_abspath := fun p => p;
     os_tree := fun p =>
       if String.eqb p "/repo"
       then Some (Dir true 0
                    [("a.py", File (Some two_lines) 0);
                     ("b.py", File (Some two_lines) 0);
                     ("src", Dir true 0 [("c.py", File (Some two_lines) 0);
                                         ("d.js", File (Some two_lines) 0)]);
                     ("requirements.txt", File (Some "click>=8.0") 0)])
       else None;
     os_now := 400 * MICROS_PER_DAY;
     os_fromtimestamp := utc_fromtimestamp;
     os_timestamp := "2024-01-01T10:00:00.000001" |}.

Definition second_run_os : os_state :=
  {| os_abspath := fun p => p;
     os_tree := fun p =>
       if String.eqb p "/repo"
       then Some (Dir true 0
                    [("requirements.txt", File (Some "click>=8.0") 0);
                     ("b.py", File (Some two_lines) 0);
                     ("src", Dir true 0 [("d.js", File (Some two_lines) 0);
                                         ("c.py", File (Some two_lines) 0)]);
                     ("a.py", File (Some two_lines) 0)])
       else if String.eqb p "/elsewhere"
       then Some (Dir true 0 [("b.py", File (Some two_lines) 0)])
       else None;
     os_now := 400 * MICROS_PER_DAY;
     os_fromtimestamp := utc_fromtimestamp;
     os_timestamp := "2024-01-01T10:00:00.000907" |}.

(** *** The fixture of the test suite *)

Definition complex_source : string :=
  ("def function1():" ++ Str.NL ++ Str.repeat_str ("    pass" ++ Str.NL) 600)%string.

Definition sample_repo : node :=
  Dir true 0
    [("complex.py", File (Some complex_source) 0);
     ("simple.py",
      File (Some (Str.DQ3 ++ "Module docstring." ++ Str.DQ3 ++ Str.NL ++ Str.NL
                  ++ documented_source)%string) 0);
     ("undocumented.py", File (Some undocumented_source) 0);
     ("tests",
      Dir true 0
        [("test_simple.py",
          File (Some ("def test_hello():" ++ Str.NL ++ "    assert True" ++ Str.NL)%string)
               0)]);
     ("untested.py",
      File (Some ("def some_function():" ++ Str.NL ++ "    pass" ++ Str.NL)%string) 0)].

Definition sample_os : os_state :=
  {| os_abspath := fun p => p;
     os_tree := fun p => if String.eqb p "/tmp/sample" then Some sample_repo else None;
     os_now := 0;
     os_fromtimestamp := utc_fromtimestamp;
     os_timestamp := "2024-01-01T00:00:00" |}.

(** ** Vocabulary of the further properties *)

(** *** File names *)

Definition CODE_EXTENSIONS : list string := [".py"; ".js"; ".ts"; ".jsx"; ".tsx"].

(** [s] ends with [suffix], or with [suffix] and one final newline. *)
Definition has_extension (s suffix : string) : Prop :=
  exists stem, s = (stem ++ suffix)%string \/ s = (stem ++ suffix ++ Str.NL)%string.

(** *** Stale files *)

(** The files that [find_stale_files] meets. *)
Definition dated_files (os : os_state) (repo_path : string) : list walked :=
  walked_files is_code_file (os_walk os EXCLUDED repo_path).

(** [now - timedelta(days=30 * months)] *)
Definition cutoff_date (os : os_state) (months : Z) : Z :=
  (os_now os - 30 * months * MICROS_PER_DAY)%Z.

(** Whether that [datetime] can be computed. *)
Definition cutoff_in_range (os : os_state) (months : Z) : bool :=
  (Z.abs (30 * months) <=? 999999999)%Z
  && (DATETIME_MIN <=? os_now os - 30 * months * 86400000000)%Z
  && (os_now os - 30 * months * 86400000000 <=? DATETIME_MAX)%Z.

(** The [datetime] at which a file of the walk was modified, when its
    time stamp can be converted. *)
Definition modified_of (os : os_state) (f : walked) : option Z :=
  match os_fromtimestamp os (node_mtime (file_node f)) with
  | Ok mtime => Some mtime
  | Raise _ => None
  end.

Definition is_stale (os : os_state) (months : Z) (f : walked) : bool :=
  match modified_of os f with
  | Some mtime => (mtime <? cutoff_date os months)%Z
  | None => false
  end.

Definition ascending_dates (l : list (string * string)) : Prop :=
  StronglySorted (fun a b => String.leb (snd a) (snd b) = true) l.

(** *** Walks *)

(** [base] followed by the directory names [names], joined one by one. *)
Fixpoint join_all (base : string) (names : list string) : string :=
  match names with
  | [] => base
  | n :: ns => join_all (path_join base n) ns
  end.

(** [listing dirs n es]: going down from [n] through the directories
    called [dirs], each of which can be listed, one arrives at a directory
    that can be listed and whose entries are [es]. *)
Fixpoint listing (dirs : list string) (n : node) (es : list (string * node)) : Prop :=
  match n with
  | Dir true _ es0 =>
      match dirs with
      | [] => es = es0
      | d :: ds => exists sub, In (d, sub) es0 /\ listing ds sub es
      end
  | _ => False
  end.

Definition not_excluded (excluded : list string) (dirs : list string) : Prop :=
  Forall (fun d => mem_str d excluded = false) dirs.

(** *** Blocks *)

(** The text that [hash_line_block] hashes: the lines of the block that
    are not blank, stripped. *)
Definition normal_lines (lines : list string) : list string :=
  map Str.strip (filter (fun line => negb (blank_line line)) lines).

(** The block of [block_size] lines that starts at the 1-based line
    [line_no]. *)
Definition block_at (block_size line_no : nat) (lines : list string) : list string :=
  firstn block_size (skipn (line_no - 1) lines).

(** Two files that hold nothing but blank lines, six and seven of them. *)
Definition blank_os : os_state :=
  {| os_abspath := fun p => p;
     os_tree := fun p =>
       if String.eqb p "/repo"
       then Some (Dir true 0 [("a.py", File (Some (Str.repeat_str Str.NL 6)) 0)])
       else None;
     os_now := 0;
     os_fromtimestamp := utc_fromtimestamp;
     os_timestamp := "2024-01-01T00:00:00" |}.

(** *** Categories *)

Definition CATEGORY_NAMES : list string :=
  ["Complexity Debt"; "Duplication Debt"; "Test Coverage Debt";
   "Documentation Debt"; "Stale Code Debt"; "Dependency Debt"].

(** What every category of a result satisfies. *)
Definition well_formed (key : string) (c : DebtCategory) : Prop :=
  name c = key
  /\ (0 <= estimated_hours c)%Q
  /\ List.length (recommendations c) = 4
  /\ List.length (affected_files c) <= 10.

(** A JavaScript project: a lock file and no Python manifest. *)
Definition lock_only_os : os_state :=
  {| os_abspath := fun p => p;
     os_tree := fun p =>
       if String.eqb p "/repo"
       then Some (Dir true 0 [("package-lock.json", File (Some "{}") 0);
                              ("index.js", File (Some two_lines) 0)])
       else None;
     os_now := 3 * MICROS_PER_DAY;
     os_fromtimestamp := utc_fromtimestamp;
     os_timestamp := "2024-01-04T00:00:00" |}.

(** *** Undocumented declarations *)

(** The Python files that [find_undocumented_code] meets. *)
Definition python_files (os : os_state) (top : string) : list walked :=
  walked_files (fun file => Str.endswith file ".py") (os_walk os EXCLUDED top).

(** Every declaration reported for a file, with the relative path of the
    file; nothing for a file that cannot be read. *)
Definition reported_of (f : walked) : list (string * string) :=
  try_except
    (lines <- open_readlines (file_node f) ;;
     ret (map (fun item_name => (rel_path f, item_name)) (undocumented_names lines)))%exc
    [].

Definition reported (os : os_state) (top : string) : list (string * string) :=
  flat_map reported_of (python_files os top).

(** A name made of word characters, one at least. *)
Definition identifier (s : string) : Prop :=
  s <> EmptyString /\ Forall (fun c => Str.is_word c = true) (list_ascii_of_string s).

(** Whether a line is a declaration that [find_undocumented_code] looks
    at. *)
Definition declares (line : string) : bool :=
  match python_def_pattern line with
  | Some _ => true
  | None => false
  end.

(** An empty repository. *)
Definition empty_directory_os : os_state :=
  {| os_abspath := fun p => p;
     os_tree := fun p => if String.eqb p "/repo" then Some (Dir true 0 []) else None;
     os_now := 0;
     os_fromtimestamp := utc_fromtimestamp;
     os_timestamp := "2024-01-01T00:00:00" |}.

(** * Properties *)

(** ** The embedding on the fixture of the test suite *)

Example readlines_keeps_newlines :
  Str.readlines ("x = 1" ++ Str.NL ++ "y = 2" ++ String Str.cr Str.NL ++ "z")%string =
  [("x = 1" ++ Str.NL)%string; ("y = 2" ++ Str.NL)%string; "z"].
Proof. reflexivity. Qed.

Example replace_every_occurrence : Str.replace "a.py.pyc" ".py" "" = "ac".
Proof. reflexivity. Qed.

Example def_pattern_matches :
  python_def_pattern ("    class Foo_1 :" ++ Str.NL)%string = Some "Foo_1"
  /\ python_def_pattern "define x(" = None
  /\ python_def_pattern "def x y(" = None.
Proof. repeat split. Qed.

Example sample_complex_files :
  find_complex_files sample_os "/tmp/sample" 500 = [("complex.py", 601%Z)].
Proof. vm_compute. reflexivity. Qed.

Example sample_untested_code :
  find_untested_code sample_os "/tmp/sample" = ["complex.py"; "undocumented.py"].
Proof. vm_compute. reflexivity. Qed.

Example sample_severities :
  match analyze text_digest day_number sample_os "/tmp/sample" with
  | Ok result => map (fun c => severity (snd c)) (sorted_categories result)
  | Raise _ => []
  end = [CRITICAL; LOW; LOW; LOW; LOW; LOW].
Proof. vm_compute. reflexivity. Qed.

(** ** The line classifier *)

Lemma loc_step_cases (inside : bool) (n : Z) (line : string) :
  loc_step (inside, n) line =
  (if delimiter_line line then negb inside else inside,
   (n + (if counts_as_code inside line then 1 else 0))%Z).
Proof.
  unfold loc_step, counts_as_code, delimiter_line, comment_line, blank_line.
  destruct (Str.is_empty (Str.strip line)); simpl.
  - rewrite andb_false_r. simpl. now rewrite Z.add_0_r.
  - destruct (Str.contains (Str.strip line) Str.DQ3 || Str.contains (Str.strip line) Str.SQ3);
      simpl.
    + rewrite andb_false_r. simpl. now rewrite Z.add_0_r.
    + destruct inside; simpl.
      * now rewrite Z.add_0_r.
      * destruct (Str.startswith (Str.strip line) "#" || Str.startswith (Str.strip line) "//");
          simpl; [now rewrite Z.add_0_r | reflexivity].
Qed.

Lemma inside_after_snoc (pre : list string) (line : string) :
  inside_after (pre ++ [line]) =
  if delimiter_line line then negb (inside_after pre) else inside_after pre.
Proof.
  unfold inside_after. rewrite filter_app, length_app. simpl.
  destruct (delimiter_line line); simpl.
  - rewrite Nat.add_1_r, Nat.odd_succ, <- Nat.negb_odd. reflexivity.
  - now rewrite Nat.add_0_r.
Qed.

Lemma loc_flag_parity (pre : list string) :
  fst (fold_left loc_step pre (false, 0%Z)) = inside_after pre.
Proof.
  induction pre as [|line pre IH] using rev_ind; [reflexivity|].
  rewrite fold_left_app, inside_after_snoc. simpl.
  destruct (fold_left loc_step pre (false, 0%Z)) as [b n]. simpl in IH. subst b.
  now rewrite loc_step_cases.
Qed.

(** C7.  In [get_lines_of_code], when a line is reached the flag is the
    parity of the delimiter lines read so far: a non-blank line that holds
    a triple quote, however many of them, toggles the flag once and is not
    counted; a line read while the flag is set is not counted; outside,
    blank lines and lines that start with [#] or [//] once trimmed are not
    counted; every other line adds one.  A file that cannot be read counts
    zero. *)
Theorem C7_line_classifier :
  (forall (pre : list string) (line : string),
     let st := fold_left loc_step pre (false, 0%Z) in
     fst st = inside_after pre /\
     fold_left loc_step (pre ++ [line]) (false, 0%Z) =
       (if delimiter_line line then negb (inside_after pre) else inside_after pre,
        (snd st + (if counts_as_code (inside_after pre) line then 1 else 0))%Z))
  /\ (forall (text : string) (mtime : Z),
        get_lines_of_code (File (Some text) mtime) =
        snd (fold_left loc_step (Str.readlines text) (false, 0%Z)))
  /\ (forall mtime : Z, get_lines_of_code (File None mtime) = 0%Z)
  /\ fold_left loc_step
       [(Str.DQ3 ++ "doc" ++ Str.DQ3 ++ Str.NL)%string; ("x = 1" ++ Str.NL)%string]
       (false, 0%Z) = (true, 0%Z).
Proof.
  repeat split.
  - apply loc_flag_parity.
  - rewrite fold_left_app. simpl.
    pose proof (loc_flag_parity pre) as H.
    destruct (fold_left loc_step pre (false, 0%Z)) as [b n]. simpl in H. subst b.
    now rewrite loc_step_cases.
Qed.

(** ** sorted *)

Section StableSortFacts.
Context {A : Type}.
Variable before : A -> A -> bool.

Lemma insert_stable_perm (x : A) (l : list A) :
  Permutation (x :: l) (insert_stable before x l).
Proof.
  induction l as [|y l IH]; simpl; [reflexivity|].
  destruct (before x y); [reflexivity|].
  rewrite perm_swap. now apply perm_skip.
Qed.

Lemma stable_sort_perm (l : list A) : Permutation l (stable_sort before l).
Proof.
  induction l as [|x l IH]; simpl; [constructor|].
  rewrite <- insert_stable_perm. now apply perm_skip.
Qed.

Lemma stable_sort_length (l : list A) :
  List.length (stable_sort before l) = List.length l.
Proof. symmetry. apply Permutation_length, stable_sort_perm. Qed.

Lemma stable_sort_In (x : A) (l : list A) : In x (stable_sort before l) <-> In x l.
Proof.
  split; apply Permutation_in;
    [symmetry|]; apply stable_sort_perm.
Qed.

(** Equal keys keep their order of arrival: a class of elements that
    may all stay in front of one another comes out as it went in. *)
Lemma insert_stable_filter (p : A -> bool) (x : A) (l : list A) :
  (forall y, p x = true -> p y = true -> before x y = true) ->
  filter p (insert_stable before x l) = filter p (x :: l).
Proof.
  intros Hp. induction l as [|y l IH]; [reflexivity|].
  simpl insert_stable. destruct (before x y) eqn:Hxy; [reflexivity|].
  simpl in *. rewrite IH.
  destruct (p x) eqn:Hx; [|reflexivity].
  destruct (p y) eqn:Hy; [|reflexivity].
  rewrite (Hp y eq_refl Hy) in Hxy. discriminate.
Qed.

Lemma stable_sort_stable (p : A -> bool) (l : list A) :
  (forall x y, p x = true -> p y = true -> before x y = true) ->
  filter p (stable_sort before l) = filter p l.
Proof.
  intros Hp. induction l as [|x l IH]; [reflexivity|].
  simpl stable_sort. rewrite insert_stable_filter by (intros; now apply Hp).
  simpl. now rewrite IH.
Qed.

Hypothesis before_total : forall x y, before x y = true \/ before y x = true.
Hypothesis before_trans :
  forall x y z, before x y = true -> before y z = true -> before x z = true.

Lemma insert_stable_sorted (x : A) (l : list A) :
  StronglySorted (fun a b => before a b = true) l ->
  StronglySorted (fun a b => before a b = true) (insert_stable before x l).
Proof.
  induction 1 as [|y l Hs IH Hy]; simpl.
  - repeat constructor.
  - destruct (before x y) eqn:Hxy.
    + constructor; [now constructor|].
      constructor; [exact Hxy|].
      eapply Forall_impl; [|exact Hy]. intros z Hz. eapply before_trans; eauto.
    + constructor; [exact IH|].
      eapply Permutation_Forall; [apply insert_stable_perm|].
      constructor; [|exact Hy].
      destruct (before_total x y) as [H|H]; [congruence|exact H].
Qed.

Lemma stable_sort_sorted (l : list A) :
  StronglySorted (fun a b => before a b = true) (stable_sort before l).
Proof.
  induction l as [|x l IH]; simpl; [constructor|].
  now apply insert_stable_sorted.
Qed.
End StableSortFacts.

Lemma StronglySorted_weaken {A} (R S : A -> A -> Prop) (l : list A) :
  (forall x y, R x y -> S x y) -> StronglySorted R l -> StronglySorted S l.
Proof.
  intros HRS. induction 1 as [|x l Hs IH Hx]; constructor; [exact IH|].
  eapply Forall_impl; [|exact Hx]. intros y. apply HRS.
Qed.

Lemma In_firstn {A} (x : A) (n : nat) (l : list A) : In x (firstn n l) -> In x l.
Proof.
  intros H. rewrite <- (firstn_skipn n l). apply in_or_app. now left.
Qed.

Lemma StronglySorted_firstn {A} (R : A -> A -> Prop) (n : nat) (l : list A) :
  StronglySorted R l -> StronglySorted R (firstn n l).
Proof.
  intros Hs. revert n. induction Hs as [|x l Hs IH Hx]; intros [|n]; simpl;
    try constructor; [apply IH|].
  rewrite Forall_forall in *. intros y Hy. apply Hx. eapply In_firstn, Hy.
Qed.

Lemma sorted_by_reverse_Z_descending {A} (key : A -> Z) (l : list A) :
  descending key (sorted_by_reverse Z.leb key l).
Proof.
  unfold descending, sorted_by_reverse.
  eapply StronglySorted_weaken; [|apply stable_sort_sorted].
  - intros x y H. simpl in H. apply Z.leb_le in H. lia.
  - intros x y. simpl. rewrite !Z.leb_le. lia.
  - intros x y z. simpl. rewrite !Z.leb_le. lia.
Qed.

Lemma flat_map_if {A B} (p : A -> bool) (g : A -> B) (l : list A) :
  flat_map (fun x => if p x then [g x] else []) l = map g (filter p l).
Proof.
  induction l as [|x l IH]; simpl; [reflexivity|].
  destruct (p x); simpl; now rewrite IH.
Qed.

(** ** find_complex_files *)

Lemma complex_candidates_filter (os : os_state) (repo_path : string) (threshold : Z) :
  complex_candidates os repo_path threshold =
  filter (fun x => (snd x >? threshold)%Z) (measured_files os repo_path).
Proof.
  unfold complex_candidates, measured_files.
  rewrite (flat_map_if (fun f => (get_lines_of_code (file_node f) >? threshold)%Z)
             (fun f => (rel_path f, get_lines_of_code (file_node f)))).
  generalize (walked_files is_code_file (os_walk os COMPLEX_EXCLUDED repo_path)).
  induction l as [|f l IH]; simpl; [reflexivity|].
  destruct (get_lines_of_code (file_node f) >? threshold)%Z; simpl; now rewrite IH.
Qed.

(** C4, as the claim has it, fails: two files with the same count of code
    lines are both returned, so the counts are not strictly descending. *)
Lemma C4_counterexample :
  find_complex_files ties_os "/repo" 1 = [("a.py", 2%Z); ("b.py", 2%Z)]
  /\ ~ strictly_descending snd (find_complex_files ties_os "/repo" 1).
Proof.
  assert (E : find_complex_files ties_os "/repo" 1 = [("a.py", 2%Z); ("b.py", 2%Z)])
    by (vm_compute; reflexivity).
  split; [exact E|].
  rewrite E. unfold strictly_descending. intros H.
  inversion H as [|? ? _ Hall]; subst.
  inversion Hall as [|? ? Hgt _]; subst. simpl in Hgt. lia.
Qed.

(** C4, amended.  [find_complex_files] returns the files met by the walk
    whose count of code lines is greater than the threshold, all of them
    and no other, in descending order of count; files with the same count
    stay in the order of the walk. *)
Theorem C4_find_complex_files (os : os_state) (repo_path : string) (threshold : Z) :
  let result := find_complex_files os repo_path threshold in
  descending snd result
  /\ Forall (fun x => (snd x > threshold)%Z) result
  /\ Permutation result
       (filter (fun x => (snd x >? threshold)%Z) (measured_files os repo_path))
  /\ (forall n : Z,
        filter (fun x => (snd x =? n)%Z) result =
        filter (fun x => (snd x =? n)%Z)
          (filter (fun x => (snd x >? threshold)%Z) (measured_files os repo_path))).
Proof.
  cbv zeta. unfold find_complex_files. rewrite complex_candidates_filter.
  set (cands := filter _ (measured_files os repo_path)).
  assert (HP : Permutation (sorted_by_reverse Z.leb snd cands) cands)
    by (symmetry; apply stable_sort_perm).
  repeat split.
  - apply sorted_by_reverse_Z_descending.
  - eapply Permutation_Forall; [symmetry; exact HP|].
    apply Forall_forall. intros x Hx. apply filter_In in Hx.
    destruct Hx as [_ Hx]. apply Z.gtb_lt in Hx. lia.
  - exact HP.
  - intros n. apply stable_sort_stable.
    intros x y Hx Hy. apply Z.eqb_eq in Hx, Hy. apply Z.leb_le. lia.
Qed.

(** ** find_duplicate_blocks *)

Section DictFacts.
Context {V : Type}.

Lemma dict_append_get (k h : string) (v : V) (d : list (string * list V)) :
  dict_get h (dict_append k v d) =
  if String.eqb k h then dict_get h d ++ [v] else dict_get h d.
Proof.
  induction d as [|[k' vs] d IH]; simpl.
  - now destruct (String.eqb k h).
  - destruct (String.eqb_spec k' k) as [->|Hk]; simpl.
    + now destruct (String.eqb k h).
    + destruct (String.eqb_spec k' h) as [->|Hh].
      * destruct (String.eqb_spec k h); [congruence|reflexivity].
      * exact IH.
Qed.

Lemma dict_append_keys (k : string) (v : V) (d : list (string * list V)) (x : string) :
  In x (map fst (dict_append k v d)) -> x = k \/ In x (map fst d).
Proof.
  induction d as [|[k' vs] d IH]; simpl.
  - intros [H|[]]. now left.
  - destruct (String.eqb k' k); simpl; [tauto|].
    intros [H|H]; [tauto|]. destruct (IH H); tauto.
Qed.

Lemma dict_append_NoDup (k : string) (v : V) (d : list (string * list V)) :
  NoDup (map fst d) -> NoDup (map fst (dict_append k v d)).
Proof.
  induction d as [|[k' vs] d IH]; simpl; intros Hd.
  - repeat constructor. intros [].
  - inversion Hd as [|? ? Hnin Hd']; subst.
    destruct (String.eqb_spec k' k) as [->|Hk]; simpl; [now constructor|].
    constructor; [|now apply IH].
    intros Hin. apply dict_append_keys in Hin. destruct Hin; congruence.
Qed.

Lemma dict_get_of_In (h : string) (occ : list V) (d : list (string * list V)) :
  NoDup (map fst d) -> In (h, occ) d -> dict_get h d = occ.
Proof.
  induction d as [|[k' vs] d IH]; simpl; [tauto|].
  intros Hd [H|H]; inversion Hd as [|? ? Hnin Hd']; subst.
  - inversion H; subst. now rewrite String.eqb_refl.
  - destruct (String.eqb_spec k' h) as [->|Hk]; [|now apply IH].
    exfalso. apply Hnin. change h with (fst (h, occ)). now apply in_map.
Qed.

Lemma In_of_dict_get (h : string) (d : list (string * list V)) :
  dict_get h d <> [] -> In (h, dict_get h d) d.
Proof.
  induction d as [|[k' vs] d IH]; simpl; [tauto|].
  destruct (String.eqb_spec k' h) as [->|Hk]; intros H; [now left|right; now apply IH].
Qed.

Lemma record_all_get (h : string) (blocks : list (string * V))
  (d : list (string * list V)) :
  dict_get h (record_all blocks d) = dict_get h d ++ occurrences h blocks.
Proof.
  revert d. induction blocks as [|[k v] blocks IH]; intros d; simpl.
  - now rewrite app_nil_r.
  - unfold record_all in *. simpl. rewrite IH, dict_append_get.
    unfold occurrences. simpl.
    destruct (String.eqb k h); simpl; [now rewrite <- app_assoc|reflexivity].
Qed.

Lemma record_all_NoDup (blocks : list (string * V)) (d : list (string * list V)) :
  NoDup (map fst d) -> NoDup (map fst (record_all blocks d)).
Proof.
  revert d. induction blocks as [|[k v] blocks IH]; intros d Hd; [exact Hd|].
  apply IH. now apply dict_append_NoDup.
Qed.

Lemma occurrences_two (h : string) (a b : V) (blocks : list (string * V)) :
  In (h, a) blocks -> In (h, b) blocks -> a <> b ->
  2 <= List.length (occurrences h blocks).
Proof.
  intros Ha Hb Hab.
  assert (Ia : In a (occurrences h blocks)).
  { unfold occurrences. change a with (snd (h, a)). apply in_map.
    apply filter_In. split; [exact Ha|apply String.eqb_refl]. }
  assert (Ib : In b (occurrences h blocks)).
  { unfold occurrences. change b with (snd (h, b)). apply in_map.
    apply filter_In. split; [exact Hb|apply String.eqb_refl]. }
  destruct (occurrences h blocks) as [|x [|y l]]; simpl in *; try tauto; [|lia].
  destruct Ia as [<-|[]], Ib as [<-|[]]. congruence.
Qed.
End DictFacts.

Section DuplicateFacts.
Variable md5_hexdigest : string -> string.

Lemma index_blocks_item (blocks : list (string * (string * nat)))
  (h : string) (occ : list (string * nat)) :
  In (h, occ) (index_blocks blocks) -> occ = occurrences h blocks.
Proof.
  intros Hin. change (index_blocks blocks) with (record_all blocks []) in Hin.
  rewrite <- (dict_get_of_In h occ (record_all blocks [])); trivial.
  - now rewrite record_all_get.
  - apply record_all_NoDup. constructor.
Qed.

Lemma index_blocks_has (blocks : list (string * (string * nat))) (h : string) :
  occurrences h blocks <> [] ->
  In (h, occurrences h blocks) (index_blocks blocks).
Proof.
  intros Hne. change (index_blocks blocks) with (record_all blocks []).
  pose proof (record_all_get h blocks []) as E. simpl in E.
  rewrite <- E. apply In_of_dict_get. now rewrite E.
Qed.

Lemma duplicates_of_In (hashes : list (string * list (string * nat))) (d : duplicate) :
  In d (duplicates_of hashes) <->
  exists occ, In (dup_hash d, occ) hashes /\ 2 <= List.length occ
              /\ dup_count d = List.length occ /\ dup_locations d = occ.
Proof.
  unfold duplicates_of. rewrite in_flat_map. split.
  - intros [[h occ] [Hin Hd]].
    destruct (Nat.ltb_spec 1 (List.length occ)) as [Hlt|Hge]; [|destruct Hd].
    destruct Hd as [<-|[]]. simpl. exists occ. repeat split; trivial.
  - intros (occ & Hin & Hlen & Hc & Hl). exists (dup_hash d, occ). split; [exact Hin|].
    destruct (Nat.ltb_spec 1 (List.length occ)) as [Hlt|Hge]; [|lia].
    left. destruct d; simpl in *. now subst.
Qed.

Lemma sorted_by_reverse_count_descending (l : list duplicate) :
  descending_count (sorted_by_reverse Nat.leb dup_count l).
Proof.
  unfold descending_count, sorted_by_reverse.
  eapply StronglySorted_weaken; [|apply stable_sort_sorted].
  - intros x y H. simpl in H. apply Nat.leb_le in H. lia.
  - intros x y. simpl. rewrite !Nat.leb_le. lia.
  - intros x y z. simpl. rewrite !Nat.leb_le. lia.
Qed.

Lemma find_duplicate_blocks_groups (os : os_state) (repo_path : string)
  (block_size : nat) (d : duplicate) :
  In d (find_duplicate_blocks md5_hexdigest os repo_path block_size) ->
  2 <= dup_count d
  /\ dup_count d = List.length (dup_locations d)
  /\ dup_locations d =
     occurrences (dup_hash d) (scanned_blocks md5_hexdigest os repo_path block_size).
Proof.
  unfold find_duplicate_blocks. intros Hin.
  apply In_firstn in Hin. apply stable_sort_In in Hin.
  apply duplicates_of_In in Hin. destruct Hin as (occ & Hin & Hlen & Hc & Hl).
  apply index_blocks_item in Hin. subst occ.
  rewrite Hc, Hl. repeat split; trivial.
Qed.

Lemma find_duplicate_blocks_some (os : os_state) (repo_path : string)
  (block_size : nat) (h : string) (a b : string * nat) :
  In (h, a) (scanned_blocks md5_hexdigest os repo_path block_size) ->
  In (h, b) (scanned_blocks md5_hexdigest os repo_path block_size) ->
  a <> b ->
  exists d, In d (find_duplicate_blocks md5_hexdigest os repo_path block_size).
Proof.
  intros Ha Hb Hab. unfold find_duplicate_blocks.
  set (blocks := scanned_blocks md5_hexdigest os repo_path block_size) in *.
  pose proof (occurrences_two h a b blocks Ha Hb Hab) as Hlen.
  assert (Hin : In {| dup_hash := h;
                      dup_count := List.length (occurrences h blocks);
                      dup_locations := occurrences h blocks |}
                   (duplicates_of (index_blocks blocks))).
  { apply duplicates_of_In. exists (occurrences h blocks). simpl.
    repeat split; trivial. apply index_blocks_has.
    destruct (occurrences h blocks); simpl in *; [lia|discriminate]. }
  apply (stable_sort_In (fun x y => Nat.leb (dup_count y) (dup_count x))) in Hin.
  fold (sorted_by_reverse Nat.leb dup_count (duplicates_of (index_blocks blocks))) in Hin.
  destruct (sorted_by_reverse Nat.leb dup_count (duplicates_of (index_blocks blocks)))
    as [|d l]; [destruct Hin|].
  exists d. now left.
Qed.
End DuplicateFacts.

(** C5.  [find_duplicate_blocks] returns at most 20 groups, in descending
    order of count; each group has a count of at least 2, which is the
    number of its locations, and its locations are all the (file, line)
    pairs recorded under its fingerprint.  On a file made of three lines
    repeated five times it returns, for a block size of 5, a group whose
    count is at least 2. *)
Theorem C5_find_duplicate_blocks (md5_hexdigest : string -> string) :
  (forall (os : os_state) (repo_path : string) (block_size : nat),
     let result := find_duplicate_blocks md5_hexdigest os repo_path block_size in
     List.length result <= 20
     /\ descending_count result
     /\ Forall (fun d =>
          2 <= dup_count d
          /\ dup_count d = List.length (dup_locations d)
          /\ dup_locations d =
             occurrences (dup_hash d)
               (scanned_blocks md5_hexdigest os repo_path block_size))
          result)
  /\ exists d, In d (find_duplicate_blocks md5_hexdigest repeated_os "/repo" 5)
               /\ 2 <= dup_count d.
Proof.
  split.
  - intros os repo_path block_size. cbv zeta. repeat split.
    + apply firstn_le_length.
    + apply StronglySorted_firstn, sorted_by_reverse_count_descending.
    + apply Forall_forall. intros d Hd.
      now apply find_duplicate_blocks_groups.
  - set (h := hash_line_block md5_hexdigest
                (firstn 5 (Str.readlines (Str.repeat_str three_lines 5)))).
    destruct (find_duplicate_blocks_some md5_hexdigest repeated_os "/repo" 5 h
                ("duplication.py", 1) ("duplication.py", 4)) as [d Hd].
    + vm_compute. left. reflexivity.
    + vm_compute. do 3 right. left. reflexivity.
    + discriminate.
    + exists d. split; [exact Hd|].
      now apply (find_duplicate_blocks_groups md5_hexdigest repeated_os "/repo" 5).
Qed.

(** ** analyze_dependency_age *)

Lemma last_cons_default {A} (x d d' : A) (l : list A) :
  last (x :: l) d = last (x :: l) d'.
Proof.
  revert x. induction l as [|y l IH]; intros x; [reflexivity|].
  change (last (y :: l) d = last (y :: l) d'). apply IH.
Qed.

Lemma dependency_step_present (os : os_state) (repo_path : string)
  (result : dependency_age) (fname : string) (n : node) :
  child (os_tree os repo_path) fname = Some n ->
  let result' := dependency_step os repo_path result fname in
  has_requirements result' = has_requirements result || is_manifest fname
  /\ has_lock_file result' = Str.contains fname "lock"
  /\ lock_file_age_days result' =
     match modified_at os repo_path fname with
     | Some mtime => merge_age (lock_file_age_days result) (age_in_days os mtime)
     | None => lock_file_age_days result
     end.
Proof.
  intros Hc. unfold dependency_step, is_manifest, modified_at. rewrite Hc. cbv zeta.
  destruct (os_fromtimestamp os (node_mtime n)) as [mtime|e]; cbn [bind try_except ret];
    destruct (Str.contains fname "requirements" || Str.contains fname "pyproject"
              || Str.contains fname "setup"); simpl;
    destruct (lock_file_age_days result) as [old|]; simpl;
    try destruct (age_in_days os mtime <? old)%Z; simpl;
    rewrite ?orb_true_r, ?orb_false_r;
    repeat split; now destruct (Str.contains fname "lock").
Qed.

Lemma dependency_step_absent (os : os_state) (repo_path : string)
  (result : dependency_age) (fname : string) :
  child (os_tree os repo_path) fname = None ->
  dependency_step os repo_path result fname = result.
Proof. intros Hc. unfold dependency_step. now rewrite Hc. Qed.

Lemma dependency_fold (os : os_state) (repo_path : string) (fnames : list string)
  (result : dependency_age) :
  let final := fold_left (dependency_step os repo_path) fnames result in
  let present := filter (exists_under os repo_path) fnames in
  has_requirements final = has_requirements result || existsb is_manifest present
  /\ has_lock_file final =
     last (map (fun f => Str.contains f "lock") present) (has_lock_file result)
  /\ lock_file_age_days final =
     fold_left merge_age (ages_of os repo_path fnames) (lock_file_age_days result).
Proof.
  revert result. induction fnames as [|fname fnames IH]; intros result; cbv zeta.
  - simpl. now rewrite orb_false_r.
  - simpl fold_left. simpl filter. simpl ages_of.
    destruct (child (os_tree os repo_path) fname) as [n|] eqn:Hc.
    + assert (He : exists_under os repo_path fname = true)
        by (unfold exists_under; now rewrite Hc).
      rewrite He.
      destruct (dependency_step_present os repo_path result fname n Hc) as (Hr & Hl & Ha).
      destruct (IH (dependency_step os repo_path result fname)) as (IHr & IHl & IHa).
      rewrite IHr, IHl, IHa, Hr, Hl, Ha. simpl existsb. simpl map.
      repeat split.
      * now rewrite orb_assoc.
      * simpl. destruct (map _ (filter (exists_under os repo_path) fnames)) as [|b l];
          [reflexivity|apply last_cons_default].
      * destruct (modified_at os repo_path fname); [rewrite fold_left_app|]; reflexivity.
    + assert (He : exists_under os repo_path fname = false)
        by (unfold exists_under; now rewrite Hc).
      assert (Hm : modified_at os repo_path fname = None)
        by (unfold modified_at; now rewrite Hc).
      rewrite He, Hm.
      rewrite (dependency_step_absent os repo_path result fname Hc). apply IH.
Qed.

Lemma merge_age_fold_from (l : list Z) (old : Z) :
  exists x, fold_left merge_age l (Some old) = Some x
            /\ (x = old \/ In x l) /\ (x <= old)%Z /\ Forall (fun y => (x <= y)%Z) l.
Proof.
  revert old. induction l as [|a l IH]; intros old; simpl.
  - exists old. repeat split; auto; lia.
  - destruct (Z.ltb_spec a old) as [Hlt|Hge].
    + destruct (IH a) as (x & E & Hin & Hle & Hall). exists x.
      repeat split; trivial; [destruct Hin; subst; auto|lia|]. constructor; trivial.
    + destruct (IH old) as (x & E & Hin & Hle & Hall). exists x.
      repeat split; trivial; [destruct Hin; subst; auto|]. constructor; [lia|trivial].
Qed.

Lemma merge_age_fold_minimum (l : list Z) :
  is_minimum (fold_left merge_age l None) l.
Proof.
  destruct l as [|a l]; simpl; [reflexivity|].
  destruct (merge_age_fold_from l a) as (x & E & Hin & Hle & Hall).
  rewrite E. simpl. split; [destruct Hin; subst; auto|]. now constructor.
Qed.

Lemma last_map_default {A B} (g : A -> B) (l : list A) (d : A) :
  last (map g l) (g d) = g (last l d).
Proof.
  induction l as [|x l IH]; simpl; [reflexivity|].
  destruct l; simpl in *; [reflexivity|exact IH].
Qed.

Lemma ages_of_In (os : os_state) (repo_path : string) (fnames : list string) (a : Z) :
  In a (ages_of os repo_path fnames) <->
  exists fname mtime,
    In fname fnames /\ modified_at os repo_path fname = Some mtime
    /\ a = age_in_days os mtime.
Proof.
  unfold ages_of. rewrite in_flat_map. split.
  - intros (fname & Hin & Ha).
    destruct (modified_at os repo_path fname) as [mtime|] eqn:E; [|destruct Ha].
    destruct Ha as [<-|[]]. now exists fname, mtime.
  - intros (fname & mtime & Hin & E & ->). exists fname. split; [exact Hin|].
    rewrite E. now left.
Qed.

Lemma age_in_days_whole (os : os_state) (mtime d : Z) :
  whole_days_between mtime (os_now os) d <-> d = age_in_days os mtime.
Proof.
  unfold whole_days_between, age_in_days, MICROS_PER_DAY.
  change (86400 * 1000000)%Z with 86400000000%Z.
  pose proof (Z.div_mod (os_now os - mtime) 86400000000 ltac:(lia)) as Hd.
  pose proof (Z.mod_pos_bound (os_now os - mtime) 86400000000 ltac:(lia)) as Hm.
  split; [intros H|intros ->]; nia.
Qed.

Lemma has_requirements_manifests (os : os_state) (top : string) :
  has_requirements (analyze_dependency_age os top) =
  existsb (exists_under os top) MANIFESTS.
Proof.
  unfold analyze_dependency_age.
  set (init := {| has_requirements := false; has_lock_file := false;
                  lock_file_age_days := None; deprecated_packages := [] |}).
  destruct (dependency_fold os top DEPENDENCY_FILES init) as (Hr & _ & _).
  rewrite Hr. unfold DEPENDENCY_FILES, MANIFESTS. cbn [filter existsb has_requirements init].
  destruct (exists_under os top "requirements.txt"),
           (exists_under os top "setup.py"),
           (exists_under os top "pyproject.toml"),
           (exists_under os top "Pipfile.lock"),
           (exists_under os top "package-lock.json"),
           (exists_under os top "yarn.lock"); reflexivity.
Qed.

(** What [analyze_dependency_age] returns, field by field. *)
Lemma analyze_dependency_age_fields (os : os_state) (repo_path : string) :
  let result := analyze_dependency_age os repo_path in
  has_lock_file result =
    Str.contains (last (filter (exists_under os repo_path) DEPENDENCY_FILES) EmptyString)
                 "lock"
  /\ is_minimum (lock_file_age_days result) (ages_of os repo_path DEPENDENCY_FILES).
Proof.
  cbv zeta. unfold analyze_dependency_age.
  set (init := {| has_requirements := false; has_lock_file := false;
                  lock_file_age_days := None; deprecated_packages := [] |}).
  pose proof (dependency_fold os repo_path DEPENDENCY_FILES init) as H.
  cbv zeta in H.
  set (final := fold_left (dependency_step os repo_path) DEPENDENCY_FILES init) in *.
  destruct H as (_ & Hl & Ha).
  change (has_lock_file init) with (Str.contains EmptyString "lock") in Hl.
  change (lock_file_age_days init) with (@None Z) in Ha.
  rewrite (last_map_default (fun f => Str.contains f "lock")) in Hl.
  split; [exact Hl|]. rewrite Ha. apply merge_age_fold_minimum.
Qed.

(** C6, as the claim has it, fails: a checked file whose time stamp
    [datetime] cannot hold exists, and no age is recorded for it. *)
Lemma C6_counterexample :
  existing_files year_10000_os "/repo" = ["requirements.txt"]
  /\ lock_file_age_days (analyze_dependency_age year_10000_os "/repo") = None.
Proof. split; reflexivity. Qed.

(** C6, amended.  [analyze_dependency_age] leaves [has_lock_file] at what
    the last existing file of the check order (requirements.txt, setup.py,
    pyproject.toml, Pipfile.lock, package-lock.json, yarn.lock) says: true
    exactly when the name of that file contains [lock], false when no
    checked file exists.  [lock_file_age_days] is the least age in whole
    days among the existing checked files whose time stamp can be
    converted, the others being skipped, and [None] when there is none.
    [has_requirements] tells whether a manifest exists.  With
    [requirements.txt] as the only existing file the result has
    [has_requirements] true and [has_lock_file] false. *)
Theorem C6_analyze_dependency_age (os : os_state) (repo_path : string) :
  let result := analyze_dependency_age os repo_path in
  has_lock_file result =
    Str.contains (last (checked_existing os repo_path) EmptyString) "lock"
  /\ match lock_file_age_days result with
     | Some d =>
         (exists fname mtime,
            In fname CHECK_ORDER /\ modified_at os repo_path fname = Some mtime
            /\ whole_days_between mtime (os_now os) d)
         /\ (forall fname mtime d',
               In fname CHECK_ORDER -> modified_at os repo_path fname = Some mtime ->
               whole_days_between mtime (os_now os) d' -> (d <= d')%Z)
     | None =>
         forall fname, In fname CHECK_ORDER -> modified_at os repo_path fname = None
     end
  /\ has_requirements result = existsb (exists_under os repo_path) MANIFESTS
  /\ (checked_existing os repo_path = ["requirements.txt"] ->
      has_requirements result = true /\ has_lock_file result = false).
Proof.
  cbv zeta.
  destruct (analyze_dependency_age_fields os repo_path) as [Hl Hm].
  change (filter (exists_under os repo_path) DEPENDENCY_FILES)
    with (checked_existing os repo_path) in Hl.
  change DEPENDENCY_FILES with CHECK_ORDER in Hm.
  pose proof (has_requirements_manifests os repo_path) as Hr.
  split; [exact Hl|]. split; [|split; [exact Hr|]].
  - destruct (lock_file_age_days (analyze_dependency_age os repo_path)) as [d|];
      unfold is_minimum in Hm.
    + destruct Hm as [Hin Hall]. split.
      * apply ages_of_In in Hin. destruct Hin as (fname & mtime & Hf & E & ->).
        exists fname, mtime. split; [exact Hf|split; [exact E|]].
        now apply age_in_days_whole.
      * intros fname mtime d' Hf E Hd. apply age_in_days_whole in Hd. subst d'.
        rewrite Forall_forall in Hall. apply Hall. apply ages_of_In.
        now exists fname, mtime.
    + intros fname Hf. destruct (modified_at os repo_path fname) as [mtime|] eqn:E;
        [|reflexivity].
      assert (Hin : In (age_in_days os mtime) (ages_of os repo_path CHECK_ORDER))
        by (apply ages_of_In; now exists fname, mtime).
      rewrite Hm in Hin. destruct Hin.
  - intros Honly. rewrite Hl, Honly. split; [|reflexivity].
    rewrite Hr. unfold MANIFESTS. cbn [existsb].
    assert (He : exists_under os repo_path "requirements.txt" = true).
    { assert (Hin : In "requirements.txt" (checked_existing os repo_path))
        by (rewrite Honly; now left).
      apply filter_In in Hin. tauto. }
    now rewrite He.
Qed.

(** C6 on a directory that holds only [requirements.txt]. *)
Lemma C6_requirements_only :
  checked_existing requirements_only_os "/repo" = ["requirements.txt"]
  /\ has_requirements (analyze_dependency_age requirements_only_os "/repo") = true
  /\ has_lock_file (analyze_dependency_age requirements_only_os "/repo") = false.
Proof.
  split; [reflexivity|].
  apply (C6_analyze_dependency_age requirements_only_os "/repo").
  reflexivity.
Defined.

(** ** sorted_categories *)

Lemma key_leb_total (a b : Z * Q) : key_leb a b = true \/ key_leb b a = true.
Proof.
  unfold key_leb. rewrite (Z.eqb_sym (fst b) (fst a)).
  destruct (Z.eqb_spec (fst a) (fst b)) as [E|N].
  - rewrite !Qle_bool_iff.
    destruct (Qlt_le_dec (snd b) (snd a)) as [H|H]; [right|left]; trivial.
    now apply Qlt_le_weak.
  - rewrite !Z.ltb_lt. lia.
Qed.

Lemma key_leb_trans (a b c : Z * Q) :
  key_leb a b = true -> key_leb b c = true -> key_leb a c = true.
Proof.
  unfold key_leb.
  destruct (Z.eqb_spec (fst a) (fst b)) as [E1|N1];
    destruct (Z.eqb_spec (fst b) (fst c)) as [E2|N2];
    destruct (Z.eqb_spec (fst a) (fst c)) as [E3|N3];
    rewrite ?Qle_bool_iff, ?Z.ltb_lt; try lia.
  intros H1 H2. eapply Qle_trans; eauto.
Qed.

Lemma key_leb_antisym (a b : Z * Q) :
  key_leb a b = true -> key_leb b a = true ->
  fst a = fst b /\ (snd a == snd b)%Q.
Proof.
  unfold key_leb. rewrite (Z.eqb_sym (fst b) (fst a)).
  destruct (Z.eqb_spec (fst a) (fst b)) as [E|N].
  - rewrite !Qle_bool_iff. intros H1 H2. split; [exact E|now apply Qle_antisym].
  - rewrite !Z.ltb_lt. lia.
Qed.

Lemma key_leb_ranking (x y : string * DebtCategory) :
  key_leb (ranking_key x) (ranking_key y) = key_leb (category_key x) (category_key y).
Proof.
  unfold key_leb, ranking_key, category_key. simpl.
  destruct (severity_value (severity (snd x)) =? severity_value (severity (snd y)))%Z;
    [|reflexivity].
  apply Bool.eq_true_iff_eq. rewrite !Qle_bool_iff, !Qred_correct. reflexivity.
Qed.

Lemma StronglySorted_map {A B} (f : A -> B) (R : B -> B -> Prop) (l : list A) :
  StronglySorted (fun x y => R (f x) (f y)) l -> StronglySorted R (map f l).
Proof.
  induction 1 as [|x l Hs IH Hx]; simpl; constructor; [exact IH|].
  apply Forall_map. exact Hx.
Qed.

(** Two sorted lists with the same elements are the same list, when the
    order is antisymmetric on these elements. *)
Lemma sorted_perm_unique {A} (R : A -> A -> Prop) (l1 l2 : list A) :
  (forall x y, In x l1 -> In y l1 -> R x y -> R y x -> x = y) ->
  StronglySorted R l1 -> StronglySorted R l2 -> Permutation l1 l2 -> l1 = l2.
Proof.
  revert l2. induction l1 as [|x t1 IH]; intros l2 Hanti H1 H2 HP.
  - apply Permutation_nil in HP. now subst.
  - destruct l2 as [|y t2]; [symmetry in HP; now apply Permutation_nil in HP|].
    inversion H1 as [|? ? Hs1 Hx]; subst. inversion H2 as [|? ? Hs2 Hy]; subst.
    assert (Exy : x = y).
    { assert (Ix : In x (y :: t2)) by (eapply Permutation_in; [exact HP|now left]).
      assert (Iy : In y (x :: t1))
        by (eapply Permutation_in; [symmetry; exact HP|now left]).
      destruct Ix as [->|Ix]; [reflexivity|].
      destruct Iy as [->|Iy]; [reflexivity|].
      rewrite Forall_forall in Hx, Hy.
      apply Hanti; [now left|now right|now apply Hx|now apply Hy]. }
    subst y. f_equal. apply IH; trivial.
    + intros a b Ha Hb. apply Hanti; now right.
    + now apply Permutation_cons_inv in HP.
Qed.

Lemma sorted_categories_keys_sorted (self : DebtResult) :
  StronglySorted (fun a b => key_leb b a = true)
    (map ranking_key (sorted_categories self)).
Proof.
  apply StronglySorted_map. unfold sorted_categories, sorted_by_reverse.
  eapply StronglySorted_weaken; [|apply stable_sort_sorted].
  - intros x y H. simpl in H. now rewrite key_leb_ranking.
  - intros x y. apply key_leb_total.
  - intros x y z H1 H2. simpl in *. eapply key_leb_trans; eauto.
Qed.

(** C8.  [sorted_categories] returns the pairs of the mapping, ordered by
    severity first and, within one severity, by hours, the greater first.
    The order of insertion in the mapping has no part in it: the same
    pairs inserted in another order come out with the same sequence of
    keys.  (Pairs with one and the same key come out in the order they
    went in.) *)
Theorem C8_sorted_categories (self : DebtResult) :
  Permutation (sorted_categories self) (categories self)
  /\ StronglySorted ranks_before (sorted_categories self)
  /\ (forall other : DebtResult,
        Permutation (categories self) (categories other) ->
        map ranking_key (sorted_categories self) =
        map ranking_key (sorted_categories other))
  /\ (forall k : Z * Q,
        filter (has_key k) (sorted_categories self) =
        filter (has_key k) (categories self)).
Proof.
  assert (HP : forall r, Permutation (sorted_categories r) (categories r))
    by (intros r; symmetry; apply stable_sort_perm).
  split; [apply HP|]. split; [|split].
  - unfold sorted_categories, sorted_by_reverse.
    eapply StronglySorted_weaken; [|apply stable_sort_sorted].
    + intros x y H. simpl in H. unfold key_leb, category_key, ranks_before in *.
      simpl in H.
      destruct (Z.eqb_spec (severity_value (severity (snd y)))
                           (severity_value (severity (snd x)))) as [E|N].
      * right. split; [now symmetry|now apply Qle_bool_iff].
      * left. apply Z.ltb_lt in H. lia.
    + intros x y. apply key_leb_total.
    + intros x y z H1 H2. simpl in *. eapply key_leb_trans; eauto.
  - intros other Hsame.
    apply (sorted_perm_unique (fun a b => key_leb b a = true)).
    + intros a b Ha Hb Hab Hba.
      apply in_map_iff in Ha, Hb. destruct Ha as (x & <- & _), Hb as (y & <- & _).
      destruct (key_leb_antisym _ _ Hab Hba) as [Hs Hq]. unfold ranking_key in *.
      simpl in *. f_equal; [now symmetry|].
      rewrite !Qred_correct in Hq. symmetry. now apply Qred_complete.
    + apply sorted_categories_keys_sorted.
    + apply sorted_categories_keys_sorted.
    + apply Permutation_map.
      rewrite (HP self), (HP other). exact Hsame.
  - intros k. unfold sorted_categories, sorted_by_reverse.
    apply stable_sort_stable. unfold has_key. intros x y Hx Hy.
    apply andb_true_iff in Hx, Hy. destruct Hx as [_ Hx], Hy as [Hy _].
    eapply key_leb_trans; eauto.
Qed.

(** C8 on two categories inserted in one order and in the other. *)
Lemma C8_insertion_order :
  Permutation two_categories (rev two_categories)
  /\ map ranking_key (sorted_categories (plain_result two_categories)) =
     map ranking_key (sorted_categories (plain_result (rev two_categories))).
Proof.
  assert (HP : Permutation two_categories (rev two_categories)) by apply perm_swap.
  split; [exact HP|].
  exact (proj1 (proj2 (proj2 (C8_sorted_categories (plain_result two_categories))))
           (plain_result (rev two_categories)) HP).
Defined.

(** ** find_untested_code *)

(** *** Strings *)

Lemma append_assoc (a b c : string) : ((a ++ b) ++ c = a ++ (b ++ c))%string.
Proof. induction a as [|x a IH]; simpl; [reflexivity|now rewrite IH]. Qed.

Lemma prefix_append (a t : string) : String.prefix a (a ++ t) = true.
Proof.
  induction a as [|x a IH]; simpl; [now destruct t|].
  destruct (ascii_dec x x) as [_|N]; [exact IH|congruence].
Qed.

Lemma prefix_append_l (sub a t : string) :
  String.prefix sub a = true -> String.prefix sub (a ++ t) = true.
Proof.
  revert a. induction sub as [|x sub IH]; intros a; simpl.
  - intros _. now destruct (a ++ t)%string.
  - destruct a as [|y a]; simpl; [discriminate|].
    destruct (ascii_dec x y); [apply IH|discriminate].
Qed.

Lemma contains_append_l (a t sub : string) :
  Str.contains a sub = true -> Str.contains (a ++ t) sub = true.
Proof.
  induction a as [|x a IH]; simpl.
  - rewrite orb_false_r. intros H. destruct sub; [|discriminate].
    now destruct t.
  - intros H. apply orb_true_iff in H. apply orb_true_iff.
    destruct H as [H|H]; [left|right; now apply IH].
    now apply (prefix_append_l sub (String x a) t).
Qed.

Lemma lower_append (a t : string) :
  Str.lower (a ++ t) = (Str.lower a ++ Str.lower t)%string.
Proof. induction a as [|x a IH]; simpl; [reflexivity|now rewrite IH]. Qed.

Lemma is_test_path_append (a t : string) :
  is_test_path a = true -> is_test_path (a ++ t) = true.
Proof.
  unfold is_test_path. rewrite lower_append, !orb_true_iff.
  intros [H|H]; [left|right]; now apply contains_append_l.
Qed.

Lemma path_join_extends (a b : string) : exists t, path_join a b = (a ++ t)%string.
Proof.
  unfold path_join. destruct a as [|x a]; simpl; [now exists b|].
  destruct (Str.endswith (String x a) "/"); eexists; reflexivity.
Qed.

(** *** The walk stays under its top *)

Lemma walk_node_roots (excluded : list string) (n : node) :
  forall (root rel : string) (w : walk_entry),
    In w (walk_node excluded root rel n) -> exists t, w_root w = (root ++ t)%string.
Proof.
  induction n as [content mtime|listable mtime entries IH] using node_nested_ind;
    intros root rel w Hw; [destruct Hw|].
  destruct listable; [|destruct Hw].
  simpl in Hw. destruct Hw as [<-|Hw].
  - exists EmptyString. simpl. clear. induction root; simpl; congruence.
  - induction entries as [|[name sub] entries IHe]; [destruct Hw|].
    inversion IH as [|? ? Hsub Hrest]; subst.
    apply in_app_or in Hw. destruct Hw as [Hw|Hw]; [|now apply IHe].
    destruct (is_dir sub && negb (mem_str name excluded)); [|destruct Hw].
    simpl in Hsub. destruct (Hsub _ _ _ Hw) as [t Ht].
    destruct (path_join_extends root name) as [t' Ht'].
    exists (t' ++ t)%string. now rewrite Ht, Ht', append_assoc.
Qed.

Lemma walked_files_In (sel : string -> bool) (ws : list walk_entry) (f : walked) :
  In f (walked_files sel ws) ->
  exists w name, In w ws /\ filepath f = path_join (w_root w) name.
Proof.
  unfold walked_files. rewrite in_flat_map. intros (w & Hw & Hf).
  apply in_map_iff in Hf. destruct Hf as (e & <- & _).
  exists w, (fst e). now split.
Qed.

Lemma scanned_files_under (os : os_state) (repo_path : string) (f : walked) :
  In f (scanned_files os repo_path) ->
  exists t, filepath f = (repo_path ++ t)%string.
Proof.
  unfold scanned_files, os_walk. intros Hf.
  apply walked_files_In in Hf. destruct Hf as (w & name & Hw & ->).
  destruct (os_tree os repo_path) as [n|]; [|destruct Hw].
  apply walk_node_roots in Hw. destruct Hw as [t ->].
  destruct (path_join_extends (repo_path ++ t) name) as [t' ->].
  exists (t ++ t')%string. apply append_assoc.
Qed.

(** *** The partition *)

Lemma set_add_In (x y : string) (s : list string) :
  In y (set_add x s) <-> y = x \/ In y s.
Proof.
  unfold set_add. destruct (mem_str x s) eqn:E.
  - split; [tauto|]. intros [->|H]; [|exact H].
    unfold mem_str in E. apply existsb_exists in E. destruct E as (z & Hz & Ez).
    apply String.eqb_eq in Ez. now subst.
  - rewrite in_app_iff. simpl. intuition congruence.
Qed.

Lemma partition_files_spec (fs : list walked) (x : string) :
  (In x (fst (partition_files fs)) <->
   exists f, In f fs /\ rel_path f = x /\ is_test_path (filepath f) = false)
  /\ (In x (snd (partition_files fs)) <->
      exists f, In f fs /\ rel_path f = x /\ is_test_path (filepath f) = true).
Proof.
  unfold partition_files.
  induction fs as [|f fs IH] using rev_ind.
  - simpl. split; split; try tauto; intros (f & [] & _).
  - rewrite fold_left_app. simpl.
    destruct (fold_left _ fs ([], [])) as [source_files test_files].
    simpl in IH. destruct IH as [IHs IHt].
    destruct (is_test_path (filepath f)) eqn:E; simpl;
      rewrite ?set_add_In, ?IHs, ?IHt; split; split.
    all: try (intros (g & Hg & Hr & Ht); apply in_app_or in Hg;
              destruct Hg as [Hg|[<-|[]]]; [eauto|try congruence; eauto]).
    all: try (intros [->|(g & Hg & Hr & Ht)];
              [exists f; split; [apply in_or_app; right; now left|now split]
              |exists g; split; [apply in_or_app; now left|now split]]).
    all: intros (g & Hg & Hr & Ht); exists g; split;
      [apply in_or_app; now left|now split].
Qed.

(** *** The order of strings *)

Lemma ascii_compare_N (a b : ascii) :
  Ascii.compare a b = N.compare (N_of_ascii a) (N_of_ascii b).
Proof. reflexivity. Qed.

Lemma string_compare_trans (s1 s2 s3 : string) :
  String.compare s1 s2 = Lt -> String.compare s2 s3 = Lt -> String.compare s1 s3 = Lt.
Proof.
  revert s2 s3. induction s1 as [|x s1 IH]; intros [|y s2] [|z s3]; simpl;
    try discriminate; trivial.
  rewrite !ascii_compare_N.
  destruct (N.compare_spec (N_of_ascii x) (N_of_ascii y)) as [E1|L1|G1];
    try discriminate;
    destruct (N.compare_spec (N_of_ascii y) (N_of_ascii z)) as [E2|L2|G2];
    try discriminate;
    destruct (N.compare_spec (N_of_ascii x) (N_of_ascii z)) as [E3|L3|G3];
    trivial; try lia.
  apply IH.
Qed.

Lemma string_leb_trans (s1 s2 s3 : string) :
  String.leb s1 s2 = true -> String.leb s2 s3 = true -> String.leb s1 s3 = true.
Proof.
  unfold String.leb.
  destruct (String.compare s1 s2) eqn:E1; try discriminate.
  - apply String.compare_eq_iff in E1. subst s1. trivial.
  - destruct (String.compare s2 s3) eqn:E2; try discriminate; intros _ _.
    + apply String.compare_eq_iff in E2. subst s3. now rewrite E1.
    + now rewrite (string_compare_trans s1 s2 s3 E1 E2).
Qed.

Lemma sorted_by_leb_ascending (l : list string) :
  ascending (sorted_by String.leb (fun x => x) l).
Proof.
  unfold ascending, sorted_by. apply stable_sort_sorted.
  - intros x y. apply String.leb_total.
  - intros x y z. apply string_leb_trans.
Qed.

Lemma find_untested_code_sources (os : os_state) (repo_path : string) (x : string) :
  In x (find_untested_code os repo_path) ->
  In x (fst (partition_files (scanned_files os repo_path))).
Proof.
  unfold find_untested_code. fold (scanned_files os repo_path).
  destruct (partition_files (scanned_files os repo_path)) as [source_files test_files].
  intros H. apply stable_sort_In in H. apply filter_In in H. tauto.
Qed.

(** C10, as the claim has it, fails: called with a relative name from a
    directory called [tests], [find_untested_code] reports both files,
    though the absolute path of each of them contains [test]. *)
Lemma C10_counterexample :
  find_untested_code relative_name_os "project" = ["main.py"; "src/util.js"]
  /\ is_test_path (os_abspath relative_name_os "project") = true
  /\ is_test_path (os_abspath relative_name_os "project/main.py") = true
  /\ is_test_path (os_abspath relative_name_os "project/src/util.js") = true.
Proof. repeat split; reflexivity. Qed.

(** C10, amended.  In [find_untested_code] the path that decides whether a
    file is a test file is the one the walk builds, which starts with the
    path of the repository as it was passed: it is the absolute path only
    when that argument is.  A file whose path, in lower case, contains
    [test] or [spec] goes to the test files and never to the result.  When
    the path passed itself contains [test] or [spec] the result is empty;
    so it is for a repository kept under such a directory once the
    absolute path is passed, which is what [analyze] does, and its count of
    untested files is then 0.  The result is always in ascending
    lexicographic order. *)
Theorem C10_find_untested_code (os : os_state) (repo_path : string) :
  let result := find_untested_code os repo_path in
  (forall f, In f (scanned_files os repo_path) ->
     String.prefix repo_path (filepath f) = true
     /\ (is_test_path (filepath f) = true ->
         In (rel_path f) (snd (partition_files (scanned_files os repo_path)))))
  /\ (forall x, In x result ->
        exists f, In f (scanned_files os repo_path) /\ rel_path f = x
                  /\ is_test_path (filepath f) = false)
  /\ (is_test_path repo_path = true -> result = [])
  /\ (is_test_path (os_abspath os repo_path) = true ->
      forall (md5_hexdigest : string -> string) (strftime_ymd : Z -> string)
             (analysis : DebtResult) (category : DebtCategory),
        analyze md5_hexdigest strftime_ymd os repo_path = Ok analysis ->
        In ("Test Coverage Debt", category) (categories analysis) ->
        details category = [("untested_files", PInt 0)]
        /\ (estimated_hours category == 0)%Q)
  /\ ascending result.
Proof.
  cbv zeta.
  assert (Hsrc : forall top x, In x (find_untested_code os top) ->
            exists f, In f (scanned_files os top) /\ rel_path f = x
                      /\ is_test_path (filepath f) = false).
  { intros top x Hx. apply find_untested_code_sources in Hx.
    now apply (partition_files_spec (scanned_files os top) x). }
  assert (Hempty : forall top, is_test_path top = true -> find_untested_code os top = []).
  { intros top Hroot.
    destruct (find_untested_code os top) as [|x l] eqn:E; [reflexivity|].
    destruct (Hsrc top x) as (f & Hf & _ & Hn); [rewrite E; now left|].
    destruct (scanned_files_under os top f Hf) as [t Ht].
    rewrite Ht, (is_test_path_append top t Hroot) in Hn. discriminate. }
  split; [|split; [exact (Hsrc repo_path)|split; [exact (Hempty repo_path)|split]]].
  - intros f Hf. split.
    + destruct (scanned_files_under os repo_path f Hf) as [t ->].
      apply prefix_append.
    + intros Ht. apply (partition_files_spec (scanned_files os repo_path) (rel_path f)).
      exists f. now repeat split.
  - intros Hroot md5_hexdigest strftime_ymd analysis category Hrun Hin.
    unfold analyze, ret in Hrun.
    apply (f_equal (fun r => match r with Ok a => categories a | Raise _ => [] end))
      in Hrun.
    cbv beta iota in Hrun. cbn [categories] in Hrun. rewrite <- Hrun in Hin. clear Hrun.
    destruct Hin as [H|[H|[H|[H|[H|[H|[]]]]]]];
      apply pair_equal_spec in H; destruct H as [Hname Hcat]; try discriminate Hname.
    rewrite <- Hcat. unfold _analyze_tests. rewrite (Hempty _ Hroot). split; reflexivity.
  - unfold find_untested_code. fold (scanned_files os repo_path).
    destruct (partition_files (scanned_files os repo_path)) as [source_files test_files].
    apply sorted_by_leb_ascending.
Qed.

(** C10 on a repository kept under a directory called [tests]. *)
Lemma C10_repository_under_tests :
  is_test_path "/home/dev/tests/project" = true
  /\ find_untested_code under_tests_os "/home/dev/tests/project" = [].
Proof.
  split; [reflexivity|].
  apply (C10_find_untested_code under_tests_os "/home/dev/tests/project").
  reflexivity.
Defined.

(** ** analyze *)

(** *** The total *)

Lemma half_hours_count (n : nat) (k : Z) :
  (0 <= k)%Z ->
  half_hours (inject_Z (Z.of_nat n) * inject_Z k) (2 * (Z.of_nat n * k)).
Proof.
  intros Hk. split; [nia|].
  unfold Qeq, Qmult, Qdiv, inject_Z. cbn -[Z.mul Z.of_nat]. ring.
Qed.

Lemma half_hours_halves (n : nat) :
  half_hours (inject_Z (Z.of_nat n) * DOC_HOURS_PER_ITEM) (Z.of_nat n).
Proof.
  split; [lia|].
  unfold Qeq, Qmult, Qdiv, inject_Z, DOC_HOURS_PER_ITEM.
  cbn -[Z.mul Z.of_nat]. ring.
Qed.

Lemma half_hours_plus (a b : Q) (i j : Z) :
  half_hours a i -> half_hours b j -> half_hours (a + b) (i + j).
Proof.
  intros [Hi Ha] [Hj Hb]. split; [lia|].
  rewrite Ha, Hb, inject_Z_plus. unfold Qdiv. ring.
Qed.

Lemma half_hours_binary64 (q : Q) (k : Z) :
  half_hours q k -> (k < 2 ^ 53)%Z -> binary64 q.
Proof.
  intros [Hk Hq] Hlt. exists k, (-1)%Z. split; [lia|]. split; [lia|].
  rewrite Hq. reflexivity.
Qed.

Section CategoryHours.
Variable md5_hexdigest : string -> string.
Variable strftime_ymd : Z -> string.
Variable os : os_state.
Variable path : string.

Lemma complexity_hours :
  exists k, half_hours (estimated_hours (_analyze_complexity os path)) k.
Proof.
  eexists.
  exact (half_hours_count
           (List.length (find_complex_files os path COMPLEXITY_THRESHOLD)) 10
           ltac:(lia)).
Qed.

Lemma duplication_hours :
  exists k, half_hours (estimated_hours (_analyze_duplication md5_hexdigest os path)) k.
Proof.
  eexists.
  exact (half_hours_count
           (List.length (find_duplicate_blocks md5_hexdigest os path 5)) 3 ltac:(lia)).
Qed.

Lemma tests_hours :
  exists k, half_hours (estimated_hours (_analyze_tests os path)) k.
Proof.
  eexists.
  exact (half_hours_count (List.length (find_untested_code os path)) 4 ltac:(lia)).
Qed.

Lemma documentation_hours :
  exists k, half_hours (estimated_hours (_analyze_documentation os path)) k.
Proof.
  eexists.
  exact (half_hours_halves
           (fold_left Nat.add
              (map (fun item => List.length (snd item))
                   (find_undocumented_code os path)) 0)).
Qed.

Lemma stale_hours :
  exists k, half_hours (estimated_hours (_analyze_stale_code strftime_ymd os path)) k.
Proof.
  eexists.
  exact (half_hours_count
           (List.length (find_stale_files strftime_ymd os path STALE_MONTHS)) 6
           ltac:(lia)).
Qed.

Lemma dependencies_hours :
  exists k, half_hours (estimated_hours (_analyze_dependencies os path)) k.
Proof.
  unfold _analyze_dependencies.
  destruct (has_requirements (analyze_dependency_age os path)); cbn [negb estimated_hours].
  - exists 10%Z. split; [lia|reflexivity].
  - exists 16%Z. split; [lia|reflexivity].
Qed.
End CategoryHours.

(** The sum that [analyze] takes is the sum of the six hours, and as long
    as it stays under [2 ^ 52] no addition rounds. *)
Lemma six_hours_sum (h1 h2 h3 h4 h5 h6 : Q) (k1 k2 k3 k4 k5 k6 : Z) :
  half_hours h1 k1 -> half_hours h2 k2 -> half_hours h3 k3 ->
  half_hours h4 k4 -> half_hours h5 k5 -> half_hours h6 k6 ->
  let total := sum_hours [h1; h2; h3; h4; h5; h6] in
  (total == h1 + h2 + h3 + h4 + h5 + h6)%Q
  /\ ((total < inject_Z (2 ^ 52))%Q ->
      Forall binary64 [h1; h2; h3; h4; h5; h6]
      /\ Forall binary64
           [0 + h1; 0 + h1 + h2; 0 + h1 + h2 + h3; 0 + h1 + h2 + h3 + h4;
            0 + h1 + h2 + h3 + h4 + h5; 0 + h1 + h2 + h3 + h4 + h5 + h6]%Q
      /\ binary64 total).
Proof.
  intros H1 H2 H3 H4 H5 H6. cbv zeta.
  assert (H0 : half_hours 0 0) by (split; [lia|reflexivity]).
  pose proof (half_hours_plus _ _ _ _ H0 H1) as P1.
  pose proof (half_hours_plus _ _ _ _ P1 H2) as P2.
  pose proof (half_hours_plus _ _ _ _ P2 H3) as P3.
  pose proof (half_hours_plus _ _ _ _ P3 H4) as P4.
  pose proof (half_hours_plus _ _ _ _ P4 H5) as P5.
  pose proof (half_hours_plus _ _ _ _ P5 H6) as P6.
  change (sum_hours [h1; h2; h3; h4; h5; h6]) with (0 + h1 + h2 + h3 + h4 + h5 + h6)%Q.
  split; [ring|]. intros Hlt.
  assert (Hk : (0 + k1 + k2 + k3 + k4 + k5 + k6 < 2 ^ 53)%Z).
  { destruct P6 as [_ E]. rewrite E in Hlt.
    unfold Qlt, Qdiv, Qmult, Qinv, inject_Z in Hlt. cbn -[Z.mul Z.add Z.pow] in Hlt.
    change (2 ^ 53)%Z with (2 * 2 ^ 52)%Z. lia. }
  destruct H1 as [N1 E1], H2 as [N2 E2], H3 as [N3 E3], H4 as [N4 E4],
    H5 as [N5 E5], H6 as [N6 E6].
  split; [|split].
  - repeat apply Forall_cons; [| | | | | |apply Forall_nil].
    + apply (half_hours_binary64 h1 k1); [now split|lia].
    + apply (half_hours_binary64 h2 k2); [now split|lia].
    + apply (half_hours_binary64 h3 k3); [now split|lia].
    + apply (half_hours_binary64 h4 k4); [now split|lia].
    + apply (half_hours_binary64 h5 k5); [now split|lia].
    + apply (half_hours_binary64 h6 k6); [now split|lia].
  - repeat apply Forall_cons; [| | | | | |apply Forall_nil].
    + apply (half_hours_binary64 _ _ P1). lia.
    + apply (half_hours_binary64 _ _ P2). lia.
    + apply (half_hours_binary64 _ _ P3). lia.
    + apply (half_hours_binary64 _ _ P4). lia.
    + apply (half_hours_binary64 _ _ P5). lia.
    + apply (half_hours_binary64 _ _ P6). lia.
  - apply (half_hours_binary64 _ _ P6). lia.
Qed.

(** C1.  [analyze] returns a result with six categories whose
    [total_hours] is the sum [h1 + h2 + h3 + h4 + h5 + h6] of their
    [estimated_hours].  The equality is exact in floating point as well:
    every one of the six hours is a whole number of half hours, so that, as
    long as the total stays under [2 ^ 52] hours, the six hours, every
    partial sum that [sum] forms from [0] on and the total are numbers that
    binary64 holds exactly, and no addition has anything to round. *)
Theorem C1_total_hours (md5_hexdigest : string -> string) (strftime_ymd : Z -> string)
  (os : os_state) (path : string) :
  exists (result : DebtResult) (h1 h2 h3 h4 h5 h6 : Q),
    analyze md5_hexdigest strftime_ymd os path = Ok result
    /\ map (fun item => estimated_hours (snd item)) (categories result) =
       [h1; h2; h3; h4; h5; h6]
    /\ (total_hours result == h1 + h2 + h3 + h4 + h5 + h6)%Q
    /\ ((total_hours result < inject_Z (2 ^ 52))%Q ->
        Forall binary64 [h1; h2; h3; h4; h5; h6]
        /\ Forall binary64
             [0 + h1; 0 + h1 + h2; 0 + h1 + h2 + h3; 0 + h1 + h2 + h3 + h4;
              0 + h1 + h2 + h3 + h4 + h5; 0 + h1 + h2 + h3 + h4 + h5 + h6]%Q
        /\ binary64 (total_hours result)).
Proof.
  unfold analyze, ret.
  set (rp := os_abspath os path).
  destruct (complexity_hours os rp) as [k1 H1].
  destruct (duplication_hours md5_hexdigest os rp) as [k2 H2].
  destruct (tests_hours os rp) as [k3 H3].
  destruct (documentation_hours os rp) as [k4 H4].
  destruct (stale_hours strftime_ymd os rp) as [k5 H5].
  destruct (dependencies_hours os rp) as [k6 H6].
  pose proof (six_hours_sum _ _ _ _ _ _ _ _ _ _ _ _ H1 H2 H3 H4 H5 H6) as Hsum.
  cbv zeta in Hsum.
  eexists. exists (estimated_hours (_analyze_complexity os rp)),
    (estimated_hours (_analyze_duplication md5_hexdigest os rp)),
    (estimated_hours (_analyze_tests os rp)),
    (estimated_hours (_analyze_documentation os rp)),
    (estimated_hours (_analyze_stale_code strftime_ymd os rp)),
    (estimated_hours (_analyze_dependencies os rp)).
  split; [reflexivity|]. cbn [categories total_hours].
  split; [reflexivity|]. exact Hsum.
Qed.

(** *** Docstrings *)

Lemma prefix_cons (a b : ascii) (p s : string) :
  String.prefix (String a p) (String b s) =
  if ascii_dec a b then String.prefix p s else false.
Proof. reflexivity. Qed.

(** No line that starts with three quotes matches the docstring pattern:
    after the first quote the pattern asks for an opening brace. *)
Lemma docstring_pattern_triple_quote (line : string) :
  (String.prefix Str.DQ3 (Str.lstrip line) || String.prefix Str.SQ3 (Str.lstrip line))
  && docstring_pattern line = false.
Proof.
  unfold docstring_pattern.
  destruct (Str.lstrip line) as [|q [|r rest]].
  - reflexivity.
  - change (String.prefix DOC_TAIL_1 EmptyString) with false.
    change (String.prefix DOC_TAIL_2 EmptyString) with false.
    now rewrite !andb_false_r.
  - unfold DOC_TAIL_1, DOC_TAIL_2, Str.DQ3, Str.SQ3. rewrite !prefix_cons.
    destruct (ascii_dec "{" r) as [<-|N].
    + destruct (ascii_dec Str.dquote q) as [Ed|Nd];
        destruct (ascii_dec Str.squote q) as [Es|Ns].
      * rewrite <- Ed in Es. discriminate Es.
      * rewrite <- Ed. reflexivity.
      * rewrite <- Es. reflexivity.
      * reflexivity.
    + now rewrite !andb_false_r.
Qed.

(** C2, on the code.  A function whose next line is a docstring in triple
    quotes is reported as undocumented, like the function that has none:
    the docstring pattern matches no line that starts with three quotes. *)
Theorem C2_docstring_reported :
  find_undocumented_code docstring_os "/repo" =
    [("simple.py", ["hello"]); ("undocumented.py", ["function_without_docstring"])]
  /\ has_docstring [("    " ++ Str.DQ3 ++ "Say hello." ++ Str.DQ3 ++ Str.NL)%string] = false
  /\ forall line : string,
       (String.prefix Str.DQ3 (Str.lstrip line)
        || String.prefix Str.SQ3 (Str.lstrip line))
       && docstring_pattern line = false.
Proof.
  split; [vm_compute; reflexivity|].
  split; [vm_compute; reflexivity|].
  exact docstring_pattern_triple_quote.
Qed.

(** *** Paths that are not a readable directory *)

Section Unreadable.
Variable os : os_state.
Variable path : string.
Hypothesis unreadable : readable_directory os path = false.

Lemma os_walk_unreadable (excluded : list string) : os_walk os excluded path = [].
Proof.
  unfold os_walk. unfold readable_directory in unreadable.
  destruct (os_tree os path) as [[content mtime|[|] mtime entries]|];
    try reflexivity; discriminate.
Qed.

Lemma find_complex_files_unreadable (threshold : Z) :
  find_complex_files os path threshold = [].
Proof.
  unfold find_complex_files, complex_candidates.
  now rewrite os_walk_unreadable.
Qed.

Lemma find_duplicate_blocks_unreadable (md5_hexdigest : string -> string)
  (block_size : nat) :
  find_duplicate_blocks md5_hexdigest os path block_size = [].
Proof.
  unfold find_duplicate_blocks, scanned_blocks.
  now rewrite os_walk_unreadable.
Qed.

Lemma find_untested_code_unreadable : find_untested_code os path = [].
Proof. unfold find_untested_code. now rewrite os_walk_unreadable. Qed.

Lemma find_undocumented_code_unreadable : find_undocumented_code os path = [].
Proof. unfold find_undocumented_code. now rewrite os_walk_unreadable. Qed.

Lemma find_stale_files_unreadable (strftime_ymd : Z -> string) (months : Z) :
  find_stale_files strftime_ymd os path months = [].
Proof.
  unfold find_stale_files, stale_candidates.
  now rewrite os_walk_unreadable.
Qed.
End Unreadable.

Lemma stale_cutoff_call (os : os_state) (months : Z) :
  (delta <- timedelta_days (30 * months) ;; datetime_minus (os_now os) delta)%exc =
  if cutoff_in_range os months then Ok (cutoff_date os months) else Raise OverflowError.
Proof.
  unfold timedelta_days, datetime_minus, cutoff_in_range, cutoff_date,
    datetime_in_range, MICROS_PER_DAY.
  change (86400 * 1000000)%Z with 86400000000%Z.
  destruct (Z.abs (30 * months) <=? 999999999)%Z; cbn [bind andb]; [|reflexivity].
  destruct ((DATETIME_MIN <=? os_now os - 30 * months * 86400000000)%Z
            && (os_now os - 30 * months * 86400000000 <=? DATETIME_MAX)%Z);
    reflexivity.
Qed.

Lemma ordinary_clock_cutoff (os : os_state) :
  ordinary_clock os -> cutoff_in_range os STALE_MONTHS = true.
Proof.
  unfold ordinary_clock, cutoff_in_range, STALE_MONTHS, DATETIME_MIN, DATETIME_MAX,
    MICROS_PER_DAY.
  intros [Hlo Hhi]. rewrite !andb_true_iff, !Z.leb_le. lia.
Qed.


(** A path with a NUL character, for which [analyze] does raise. *)
Example analyze_call_refused :
  analyze_call text_digest day_number empty_os ("/repo" ++ NUL) = Raise ValueError.
Proof. reflexivity. Qed.



(** * Further properties *)

(** ** Strings *)

Lemma append_empty_r (s : string) : (s ++ "")%string = s.
Proof. induction s as [|c s IH]; simpl; [reflexivity|now rewrite IH]. Qed.

Lemma length_append (a b : string) :
  String.length (a ++ b) = String.length a + String.length b.
Proof. induction a as [|c a IH]; simpl; [reflexivity|now rewrite IH]. Qed.

Lemma substring_all (s : string) : String.substring 0 (String.length s) s = s.
Proof. induction s as [|c s IH]; simpl; [reflexivity|now rewrite IH]. Qed.

Lemma substring_skip_append (p t : string) (m : nat) :
  String.substring (String.length p) m (p ++ t) = String.substring 0 m t.
Proof. induction p as [|c p IH]; simpl; [reflexivity|exact IH]. Qed.

Lemma substring_split (s : string) (k : nat) :
  k <= String.length s ->
  s = (String.substring 0 k s ++ String.substring k (String.length s - k) s)%string.
Proof.
  revert k. induction s as [|c s IH]; intros [|k] Hk; simpl in *; try lia.
  - reflexivity.
  - now rewrite substring_all.
  - rewrite <- IH by lia. reflexivity.
Qed.

Lemma endswith_iff (s suffix : string) :
  Str.endswith s suffix = true <-> exists stem, s = (stem ++ suffix)%string.
Proof.
  unfold Str.endswith. rewrite andb_true_iff, Nat.leb_le, String.eqb_eq. split.
  - intros [Hle Hs].
    exists (String.substring 0 (String.length s - String.length suffix) s).
    pose proof (substring_split s (String.length s - String.length suffix)) as H.
    replace (String.length s - (String.length s - String.length suffix))
      with (String.length suffix) in H by lia.
    rewrite Hs in H. apply H. lia.
  - intros [stem ->]. rewrite length_append. split; [lia|].
    replace (String.length stem + String.length suffix - String.length suffix)
      with (String.length stem) by lia.
    rewrite substring_skip_append. apply substring_all.
Qed.

Lemma re_search_suffix_iff (suffix s : string) :
  re_search_suffix suffix s = true <-> has_extension s suffix.
Proof.
  unfold re_search_suffix, has_extension. rewrite orb_true_iff, !endswith_iff. split.
  - intros [[stem H]|[stem H]]; exists stem; [now left|now right].
  - intros [stem [H|H]]; [left|right]; now exists stem.
Qed.

(** ** is_code_file *)

(** X1.  [is_code_file] accepts a name exactly when it ends with one of the
    five extensions [.py], [.js], [.ts], [.jsx], [.tsx], or with one of them
    and one final newline (the [$] of the patterns also matches there). *)
Theorem is_code_file_iff (filepath : string) :
  is_code_file filepath = true <->
  exists extension, In extension CODE_EXTENSIONS /\ has_extension filepath extension.
Proof.
  unfold is_code_file, CODE_PATTERNS, PYTHON_PATTERN, JS_PATTERN, CODE_EXTENSIONS.
  cbn [existsb]. rewrite !orb_true_iff, !re_search_suffix_iff. split.
  - intros H. repeat destruct H as [H|H]; try discriminate;
      eexists; (split; [|exact H]); simpl; tauto.
  - intros (extension & Hin & H). simpl in Hin.
    destruct Hin as [<-|[<-|[<-|[<-|[<-|[]]]]]]; tauto.
Qed.

(** ** get_lines_of_code *)

Lemma counts_as_code_not_blank (inside : bool) (line : string) :
  counts_as_code inside line = true -> blank_line line = false.
Proof.
  unfold counts_as_code. rewrite !andb_true_iff, !negb_true_iff. tauto.
Qed.

Lemma loc_fold_bounds (lines : list string) (inside : bool) (n : Z) :
  (n <= snd (fold_left loc_step lines (inside, n))
   <= n + Z.of_nat (List.length (filter (fun l => negb (blank_line l)) lines)))%Z.
Proof.
  revert inside n. induction lines as [|line lines IH]; intros inside n.
  - simpl. lia.
  - cbn [fold_left]. rewrite loc_step_cases.
    specialize (IH (if delimiter_line line then negb inside else inside)
                   (n + (if counts_as_code inside line then 1 else 0))%Z).
    cbn [filter].
    destruct (counts_as_code inside line) eqn:E.
    + rewrite (counts_as_code_not_blank _ _ E). cbn [negb List.length]. lia.
    + destruct (negb (blank_line line)); cbn [List.length]; lia.
Qed.

(** X2.  The count of [get_lines_of_code] is never negative and never more
    than the number of lines of the file that are not blank; what is not a
    readable file (a directory, a file that cannot be opened) counts 0. *)
Theorem get_lines_of_code_bounds :
  (forall (text : string) (mtime : Z),
     (0 <= get_lines_of_code (File (Some text) mtime)
      <= Z.of_nat (List.length (filter (fun l => negb (blank_line l))
                                       (Str.readlines text))))%Z)
  /\ (forall (listable : bool) (mtime : Z) (entries : list (string * node)),
        get_lines_of_code (Dir listable mtime entries) = 0%Z)
  /\ (forall mtime : Z, get_lines_of_code (File None mtime) = 0%Z).
Proof.
  repeat split; try reflexivity;
    apply (loc_fold_bounds (Str.readlines text) false 0).
Qed.

(** ** sorted and filter *)

Section StableSortFilter.
Context {A : Type}.
Variable before : A -> A -> bool.
Hypothesis before_total : forall x y, before x y = true \/ before y x = true.
Hypothesis before_trans :
  forall x y z, before x y = true -> before y z = true -> before x z = true.

Lemma insert_stable_front (x : A) (l : list A) :
  Forall (fun z => before x z = true) l -> insert_stable before x l = x :: l.
Proof.
  intros H. destruct l as [|y l]; [reflexivity|].
  inversion H as [|? ? Hy _]; subst. simpl. now rewrite Hy.
Qed.

Lemma insert_stable_filter_comm (p : A -> bool) (x : A) (l : list A) :
  StronglySorted (fun a b => before a b = true) l ->
  filter p (insert_stable before x l) =
  if p x then insert_stable before x (filter p l) else filter p l.
Proof.
  induction 1 as [|y l Hs IH Hy]; simpl.
  - now destruct (p x).
  - destruct (before x y) eqn:Hxy.
    + simpl. destruct (p x); [|reflexivity].
      symmetry. apply insert_stable_front.
      assert (Hall : Forall (fun z => before x z = true) (y :: l)).
      { constructor; [exact Hxy|].
        eapply Forall_impl; [|exact Hy]. intros z Hz. eapply before_trans; eauto. }
      rewrite Forall_forall in *. intros z Hz.
      apply Hall. change (In z (filter p (y :: l))) in Hz.
      apply filter_In in Hz. tauto.
    + simpl. rewrite IH. destruct (p y), (p x); simpl; rewrite ?Hxy; reflexivity.
Qed.

Lemma stable_sort_filter_comm (p : A -> bool) (l : list A) :
  filter p (stable_sort before l) = stable_sort before (filter p l).
Proof.
  induction l as [|x l IH]; [reflexivity|].
  simpl stable_sort. rewrite insert_stable_filter_comm
    by (apply stable_sort_sorted; assumption).
  rewrite IH. simpl. now destruct (p x).
Qed.
End StableSortFilter.

Lemma filter_filter_weaker {A} (p q : A -> bool) (l : list A) :
  (forall x, p x = true -> q x = true) ->
  filter p (filter q l) = filter p l.
Proof.
  intros Hpq. induction l as [|x l IH]; simpl; [reflexivity|].
  destruct (q x) eqn:Hq; simpl; rewrite IH; [reflexivity|].
  destruct (p x) eqn:Hp; [|reflexivity]. rewrite (Hpq x Hp) in Hq. discriminate.
Qed.

(** ** find_complex_files, again *)

(** X3.  Raising the threshold filters the result: the files found above a
    greater threshold are the files found above the smaller one whose count
    exceeds the greater, in the same order. *)
Theorem find_complex_files_threshold (os : os_state) (repo_path : string)
  (low high : Z) :
  (low <= high)%Z ->
  find_complex_files os repo_path high =
  filter (fun x => (snd x >? high)%Z) (find_complex_files os repo_path low).
Proof.
  intros Hle. unfold find_complex_files, sorted_by_reverse.
  rewrite !complex_candidates_filter. rewrite stable_sort_filter_comm.
  - f_equal. symmetry. apply filter_filter_weaker.
    intros x Hx. apply Z.gtb_lt in Hx. apply Z.gtb_lt. lia.
  - intros x y. rewrite !Z.leb_le. lia.
  - intros x y z. rewrite !Z.leb_le. lia.
Qed.

(** X3 on two files of two lines: above 1 both are found, above 2 none. *)
Lemma find_complex_files_threshold_example :
  (1 <= 2)%Z
  /\ find_complex_files ties_os "/repo" 2 =
     filter (fun x => (snd x >? 2)%Z) (find_complex_files ties_os "/repo" 1).
Proof.
  split; [lia|].
  apply (find_complex_files_threshold ties_os "/repo" 1 2). lia.
Defined.

(** ** find_stale_files *)

Lemma stale_candidates_filter (strftime_ymd : Z -> string) (os : os_state)
  (repo_path : string) (months : Z) :
  stale_candidates strftime_ymd os repo_path months =
  flat_map (fun f =>
      match modified_of os f with
      | Some mtime => [(rel_path f, strftime_ymd mtime)]
      | None => []
      end)
    (filter (is_stale os months) (dated_files os repo_path)).
Proof.
  unfold stale_candidates, dated_files.
  induction (walked_files is_code_file (os_walk os EXCLUDED repo_path)) as [|f fs IH];
    [reflexivity|].
  cbn [flat_map filter]. rewrite IH.
  assert (Hs : is_stale os months f =
               match os_fromtimestamp os (node_mtime (file_node f)) with
               | Ok mtime => (mtime <? os_now os - 30 * months * MICROS_PER_DAY)%Z
               | Raise _ => false
               end).
  { unfold is_stale, modified_of, cutoff_date.
    now destruct (os_fromtimestamp os (node_mtime (file_node f))). }
  rewrite Hs.
  destruct (os_fromtimestamp os (node_mtime (file_node f))) as [mtime|e] eqn:Ef;
    cbn [bind try_except ret]; [|reflexivity].
  destruct (mtime <? os_now os - 30 * months * MICROS_PER_DAY)%Z eqn:E; [|reflexivity].
  cbn [flat_map].
  assert (Hm : modified_of os f = Some mtime) by (unfold modified_of; now rewrite Ef).
  now rewrite Hm.
Qed.


(** ** os.walk *)

Lemma walk_node_dir (excluded : list string) (root rel : string) (mtime : Z)
  (es : list (string * node)) :
  walk_node excluded root rel (Dir true mtime es) =
  {| w_root := root; w_rel := rel; w_files := nondirs es |} ::
  flat_map (fun e =>
      if is_dir (snd e) && negb (mem_str (fst e) excluded)
      then walk_node excluded (path_join root (fst e)) (path_join rel (fst e)) (snd e)
      else [])
    es.
Proof.
  simpl. f_equal. induction es as [|[name sub] es IH]; [reflexivity|].
  simpl. now rewrite IH.
Qed.

Lemma listing_is_dir (dirs : list string) (n : node) (es : list (string * node)) :
  listing dirs n es -> is_dir n = true.
Proof. destruct dirs, n as [|[|]]; simpl; tauto. Qed.

Lemma walk_node_sound (excluded : list string) (n : node) :
  forall (root rel : string) (w : walk_entry),
    In w (walk_node excluded root rel n) ->
    exists dirs es,
      listing dirs n es /\ not_excluded excluded dirs
      /\ w = {| w_root := join_all root dirs; w_rel := join_all rel dirs;
                w_files := nondirs es |}.
Proof.
  induction n as [content mtime|listable mtime entries IH] using node_nested_ind;
    intros root rel w Hw; [destruct Hw|].
  destruct listable; [|destruct Hw].
  rewrite walk_node_dir in Hw. destruct Hw as [<-|Hw].
  - exists [], entries. repeat split. constructor.
  - apply in_flat_map in Hw. destruct Hw as ([name sub] & Hin & Hw). simpl in Hw.
    destruct (is_dir sub && negb (mem_str name excluded)) eqn:E; [|destruct Hw].
    apply andb_true_iff in E. destruct E as [_ E]. apply negb_true_iff in E.
    rewrite Forall_forall in IH. specialize (IH _ Hin _ _ _ Hw).
    destruct IH as (dirs & es & Hl & Hx & ->).
    exists (name :: dirs), es. repeat split.
    + simpl. exists sub. now split.
    + now constructor.
Qed.

Lemma walk_node_complete (excluded : list string) (dirs : list string) :
  forall (n : node) (root rel : string) (es : list (string * node)),
    listing dirs n es -> not_excluded excluded dirs ->
    In {| w_root := join_all root dirs; w_rel := join_all rel dirs;
          w_files := nondirs es |}
       (walk_node excluded root rel n).
Proof.
  induction dirs as [|d ds IH]; intros n root rel es Hl Hx;
    destruct n as [|[|] mtime es0]; simpl in Hl; try destruct Hl.
  - rewrite walk_node_dir. now left.
  - destruct H as [Hin Hl]. inversion Hx as [|? ? Hd Hds]; subst.
    rewrite walk_node_dir. right. apply in_flat_map. exists (d, x). split; [exact Hin|].
    cbn [fst snd]. rewrite (listing_is_dir _ _ _ Hl), Hd. cbn [andb negb].
    now apply IH.
Qed.

Lemma walked_files_reach (os : os_state) (excluded : list string)
  (top : string) (sel : string -> bool) (f : walked) :
  In f (walked_files sel (os_walk os excluded top)) <->
  exists root dirs es name,
    os_tree os top = Some root
    /\ listing dirs root es
    /\ not_excluded excluded dirs
    /\ In (name, file_node f) es
    /\ is_dir (file_node f) = false
    /\ sel name = true
    /\ filepath f = path_join (join_all top dirs) name
    /\ rel_path f = path_join (join_all EmptyString dirs) name.
Proof.
  unfold walked_files, os_walk. rewrite in_flat_map. split.
  - intros (w & Hw & Hf).
    destruct (os_tree os top) as [root|]; [|destruct Hw].
    apply walk_node_sound in Hw. destruct Hw as (dirs & es & Hl & Hx & ->).
    cbn [w_files w_root w_rel] in Hf.
    apply in_map_iff in Hf. destruct Hf as ([name nd] & <- & He).
    apply filter_In in He. destruct He as [He Hsel]. unfold nondirs in He.
    apply filter_In in He. destruct He as [He Hd]. apply negb_true_iff in Hd.
    exists root, dirs, es, name. cbn in *. repeat split; trivial.
  - intros (root & dirs & es & name & Ht & Hl & Hx & Hin & Hd & Hsel & Hp & Hr).
    rewrite Ht.
    exists {| w_root := join_all top dirs; w_rel := join_all EmptyString dirs;
              w_files := nondirs es |}.
    split; [now apply walk_node_complete|].
    cbn [w_files w_root w_rel]. apply in_map_iff. exists (name, file_node f).
    split.
    + destruct f as [fp rp nd]. cbn in *. now subst.
    + apply filter_In. split; [|exact Hsel].
      unfold nondirs. apply filter_In. split; [exact Hin|].
      cbn. now rewrite Hd.
Qed.

(** X5.  A walk meets exactly the entries that are not directories, and
    whose name is selected, of the directories reached from the top through
    directories that can be listed and whose names are not excluded.  The
    path of such a file is the top followed by these names, its relative
    path the names alone. *)
Theorem walked_files_spec (os : os_state) (excluded : list string)
  (top : string) (sel : string -> bool) (f : walked) :
  In f (walked_files sel (os_walk os excluded top)) <->
  exists root dirs es name,
    os_tree os top = Some root
    /\ listing dirs root es
    /\ not_excluded excluded dirs
    /\ In (name, file_node f) es
    /\ is_dir (file_node f) = false
    /\ sel name = true
    /\ filepath f = path_join (join_all top dirs) name
    /\ rel_path f = path_join (join_all EmptyString dirs) name.
Proof.
  unfold walked_files, os_walk. rewrite in_flat_map. split.
  - intros (w & Hw & Hf).
    destruct (os_tree os top) as [root|]; [|destruct Hw].
    apply walk_node_sound in Hw. destruct Hw as (dirs & es & Hl & Hx & ->).
    cbn [w_files w_root w_rel] in Hf.
    apply in_map_iff in Hf. destruct Hf as ([name nd] & <- & He).
    apply filter_In in He. destruct He as [He Hsel]. unfold nondirs in He.
    apply filter_In in He. destruct He as [He Hd]. apply negb_true_iff in Hd.
    exists root, dirs, es, name. cbn in *. repeat split; trivial.
  - intros (root & dirs & es & name & Ht & Hl & Hx & Hin & Hd & Hsel & Hp & Hr).
    rewrite Ht.
    exists {| w_root := join_all top dirs; w_rel := join_all EmptyString dirs;
              w_files := nondirs es |}.
    split; [now apply walk_node_complete|].
    cbn [w_files w_root w_rel]. apply in_map_iff. exists (name, file_node f).
    split.
    + destruct f as [fp rp nd]. cbn in *. now subst.
    + apply filter_In. split; [|exact Hsel].
      unfold nondirs. apply filter_In. split; [exact Hin|].
      cbn. now rewrite Hd.
Qed.

(** ** find_complex_files, in full *)

(** X6.  What [find_complex_files] reports, in full: a pair is in the
    result exactly when it is the relative path and the count of code lines
    of a file that is not a directory, has a code extension, lies under the
    top through listable directories none of which is called [.git],
    [node_modules], [venv], [.venv], [__pycache__], [dist] or [build], and
    counts more code lines than the threshold. *)
Theorem find_complex_files_iff (os : os_state) (top : string) (threshold : Z)
  (rel : string) (loc : Z) :
  In (rel, loc) (find_complex_files os top threshold) <->
  exists root dirs es name file,
    os_tree os top = Some root
    /\ listing dirs root es
    /\ not_excluded COMPLEX_EXCLUDED dirs
    /\ In (name, file) es
    /\ is_dir file = false
    /\ is_code_file name = true
    /\ rel = path_join (join_all EmptyString dirs) name
    /\ loc = get_lines_of_code file
    /\ (loc > threshold)%Z.
Proof.
  unfold find_complex_files, sorted_by_reverse. rewrite stable_sort_In.
  rewrite complex_candidates_filter, filter_In. unfold measured_files.
  rewrite in_map_iff. cbn [snd]. rewrite Z.gtb_lt. split.
  - intros [(f & Hf & Hin) Hgt]. inversion Hf; subst.
    apply walked_files_reach in Hin.
    destruct Hin as (root & dirs & es & name & Ht & Hl & Hx & Hin & Hd & Hs & _ & Hr).
    exists root, dirs, es, name, (file_node f). repeat split; trivial. lia.
  - intros (root & dirs & es & name & file & Ht & Hl & Hx & Hin & Hd & Hs & -> & -> & Hgt).
    split; [|lia].
    exists {| filepath := path_join (join_all top dirs) name;
              rel_path := path_join (join_all EmptyString dirs) name;
              file_node := file |}.
    split; [reflexivity|]. apply walked_files_reach.
    exists root, dirs, es, name. repeat split; trivial.
Qed.

(** ** hash_line_block *)

Lemma lstrip_head (s : string) (c : ascii) (r : string) :
  Str.lstrip s = String c r -> Str.is_space c = false.
Proof.
  induction s as [|d s IH]; simpl; [discriminate|].
  destruct (Str.is_space d) eqn:E; [exact IH|]. intros H. inversion H; now subst.
Qed.

Lemma lstrip_fixed (s : string) :
  match s with String c _ => Str.is_space c = false | EmptyString => True end ->
  Str.lstrip s = s.
Proof. destruct s as [|c s]; simpl; [reflexivity|]. intros ->. reflexivity. Qed.

Lemma rstrip_head (c : ascii) (s : string) :
  Str.is_space c = false -> exists r, Str.rstrip (String c s) = String c r.
Proof.
  intros Hc. simpl. destruct (Str.rstrip s); rewrite ?Hc; eexists; reflexivity.
Qed.

Lemma rstrip_idempotent (s : string) : Str.rstrip (Str.rstrip s) = Str.rstrip s.
Proof.
  induction s as [|c s IH]; [reflexivity|]. simpl.
  destruct (Str.rstrip s) as [|d r] eqn:E.
  - destruct (Str.is_space c) eqn:Hc; [reflexivity|]. simpl. now rewrite Hc.
  - simpl. simpl in IH. now rewrite IH.
Qed.

Lemma strip_idempotent (s : string) : Str.strip (Str.strip s) = Str.strip s.
Proof.
  unfold Str.strip. destruct (Str.lstrip s) as [|c t] eqn:E; [reflexivity|].
  pose proof (lstrip_head s c t E) as Hc.
  destruct (rstrip_head c t Hc) as [r Hr]. rewrite Hr.
  rewrite lstrip_fixed by exact Hc. rewrite <- Hr. apply rstrip_idempotent.
Qed.

Lemma normal_lines_idempotent (lines : list string) :
  normal_lines (normal_lines lines) = normal_lines lines.
Proof.
  unfold normal_lines. induction lines as [|line lines IH]; [reflexivity|].
  simpl. destruct (blank_line line) eqn:E; simpl; [exact IH|].
  unfold blank_line in *. rewrite strip_idempotent, E. simpl.
  now rewrite strip_idempotent, IH.
Qed.

Lemma normal_lines_strip (lines : list string) :
  normal_lines (map Str.strip lines) = normal_lines lines.
Proof.
  unfold normal_lines, blank_line. induction lines as [|line lines IH]; [reflexivity|].
  simpl. rewrite strip_idempotent.
  destruct (Str.is_empty (Str.strip line)); simpl; [exact IH|].
  now rewrite strip_idempotent, IH.
Qed.

Lemma normal_lines_app (a b : list string) :
  normal_lines (a ++ b) = normal_lines a ++ normal_lines b.
Proof. unfold normal_lines. now rewrite filter_app, map_app. Qed.

Lemma normal_lines_blank (lines : list string) :
  forallb blank_line lines = true -> normal_lines lines = [].
Proof.
  unfold normal_lines. induction lines as [|line lines IH]; [reflexivity|].
  simpl. intros H. apply andb_true_iff in H. destruct H as [-> H]. now apply IH.
Qed.

Lemma hash_line_block_normal (md5_hexdigest : string -> string) (lines : list string) :
  hash_line_block md5_hexdigest lines =
  md5_hexdigest (Str.join Str.NL (normal_lines lines)).
Proof. reflexivity. Qed.

(** X7.  The fingerprint of a block does not see white space around the
    lines, nor blank lines: stripping every line, or putting blank lines
    anywhere in the block, leaves it unchanged. *)
Theorem hash_line_block_whitespace (md5_hexdigest : string -> string) :
  (forall lines : list string,
     hash_line_block md5_hexdigest (map Str.strip lines) =
     hash_line_block md5_hexdigest lines)
  /\ (forall before blanks after : list string,
        forallb blank_line blanks = true ->
        hash_line_block md5_hexdigest (before ++ blanks ++ after) =
        hash_line_block md5_hexdigest (before ++ after)).
Proof.
  split.
  - intros lines. now rewrite !hash_line_block_normal, normal_lines_strip.
  - intros before blanks after H.
    rewrite !hash_line_block_normal, !normal_lines_app, (normal_lines_blank blanks H).
    reflexivity.
Qed.

(** X7 on a block with an empty line and a line of spaces in its middle. *)
Lemma hash_line_block_whitespace_example :
  forallb blank_line [Str.NL; ("   " ++ Str.NL)%string] = true
  /\ hash_line_block text_digest
       (["x = 1"] ++ [Str.NL; ("   " ++ Str.NL)%string] ++ ["y = 2"]) =
     hash_line_block text_digest (["x = 1"] ++ ["y = 2"]).
Proof.
  split; [reflexivity|].
  apply (proj2 (hash_line_block_whitespace text_digest)). reflexivity.
Defined.

(** ** find_duplicate_blocks, the locations *)

Lemma occurrences_In {V} (h : string) (v : V) (blocks : list (string * V)) :
  In v (occurrences h blocks) <-> In (h, v) blocks.
Proof.
  unfold occurrences. rewrite in_map_iff. split.
  - intros ([k w] & <- & Hin). apply filter_In in Hin. destruct Hin as [Hin E].
    apply String.eqb_eq in E. cbn in *. now subst.
  - intros Hin. exists (h, v). split; [reflexivity|].
    apply filter_In. split; [exact Hin|apply String.eqb_refl].
Qed.

Lemma file_blocks_In (md5_hexdigest : string -> string) (block_size : nat)
  (rel : string) (lines : list string) (h rel' : string) (line_no : nat) :
  In (h, (rel', line_no)) (file_blocks md5_hexdigest block_size rel lines) <->
  rel' = rel /\ 1 <= line_no /\ line_no + block_size <= List.length lines + 1
  /\ h = hash_line_block md5_hexdigest (block_at block_size line_no lines).
Proof.
  unfold file_blocks, block_at. rewrite in_map_iff. split.
  - intros (i & E & Hi). apply in_seq in Hi. inversion E; subst.
    replace (i + 1 - 1) with i by lia. repeat split; lia.
  - intros (-> & H1 & H2 & ->). exists (line_no - 1). split.
    + now replace (line_no - 1 + 1) with line_no by lia.
    + apply in_seq. lia.
Qed.

(** X8.  Every location of every group that [find_duplicate_blocks]
    returns is a real window: a file met by the walk, that could be read,
    and a 1-based line of it from which [block_size] lines fit in the file;
    the fingerprint of the group is the fingerprint of that window. *)
Theorem find_duplicate_blocks_locations (md5_hexdigest : string -> string)
  (os : os_state) (top : string) (block_size : nat) (d : duplicate)
  (rel : string) (line_no : nat) :
  In d (find_duplicate_blocks md5_hexdigest os top block_size) ->
  In (rel, line_no) (dup_locations d) ->
  exists f lines,
    In f (walked_files is_code_file (os_walk os EXCLUDED top))
    /\ rel_path f = rel
    /\ open_readlines (file_node f) = Ok lines
    /\ 1 <= line_no
    /\ line_no + block_size <= List.length lines + 1
    /\ dup_hash d = hash_line_block md5_hexdigest (block_at block_size line_no lines).
Proof.
  intros Hd Hloc.
  destruct (find_duplicate_blocks_groups md5_hexdigest os top block_size d Hd)
    as (_ & _ & E).
  rewrite E in Hloc. apply (proj1 (occurrences_In _ _ _)) in Hloc.
  unfold scanned_blocks in Hloc. apply in_flat_map in Hloc.
  destruct Hloc as (f & Hf & Hin).
  destruct (open_readlines (file_node f)) as [lines|e] eqn:Ho; [|destruct Hin].
  cbn in Hin. apply file_blocks_In in Hin. destruct Hin as (-> & H1 & H2 & Hh).
  exists f, lines. repeat split; trivial.
Qed.

(** X8 on the file of three lines repeated five times. *)
Lemma find_duplicate_blocks_locations_example :
  exists d f lines,
    In d (find_duplicate_blocks text_digest repeated_os "/repo" 5)
    /\ In ("duplication.py", 4) (dup_locations d)
    /\ In f (walked_files is_code_file (os_walk repeated_os EXCLUDED "/repo"))
    /\ rel_path f = "duplication.py"
    /\ open_readlines (file_node f) = Ok lines
    /\ 1 <= 4
    /\ 4 + 5 <= List.length lines + 1
    /\ dup_hash d = hash_line_block text_digest (block_at 5 4 lines).
Proof.
  pose (d := hd {| dup_hash := ""; dup_count := 0; dup_locations := [] |}
                (find_duplicate_blocks text_digest repeated_os "/repo" 5)).
  assert (Hd : In d (find_duplicate_blocks text_digest repeated_os "/repo" 5))
    by (vm_compute; left; reflexivity).
  assert (Hl : In ("duplication.py", 4) (dup_locations d))
    by (vm_compute; right; left; reflexivity).
  destruct (find_duplicate_blocks_locations text_digest repeated_os "/repo" 5 d
              "duplication.py" 4 Hd Hl) as (f & lines & H).
  exists d, f, lines. tauto.
Defined.

(** ** find_duplicate_blocks, what it detects *)

Lemma scanned_blocks_In (md5_hexdigest : string -> string) (os : os_state)
  (top : string) (block_size : nat) (f : walked) (lines : list string)
  (line_no : nat) :
  In f (walked_files is_code_file (os_walk os EXCLUDED top)) ->
  open_readlines (file_node f) = Ok lines ->
  1 <= line_no -> line_no + block_size <= List.length lines + 1 ->
  In (hash_line_block md5_hexdigest (block_at block_size line_no lines),
      (rel_path f, line_no))
     (scanned_blocks md5_hexdigest os top block_size).
Proof.
  intros Hf Ho H1 H2. unfold scanned_blocks. apply in_flat_map. exists f.
  split; [exact Hf|]. rewrite Ho. cbn. apply file_blocks_In. repeat split; trivial.
Qed.

(** X9.  Two different windows, in one file or in two, whose lines are the
    same once stripped and rid of blank lines, make [find_duplicate_blocks]
    report at least one group.  In particular two windows of blank lines
    count as duplicates of each other. *)
Theorem find_duplicate_blocks_detects (md5_hexdigest : string -> string)
  (os : os_state) (top : string) (block_size : nat)
  (f1 f2 : walked) (lines1 lines2 : list string) (i1 i2 : nat) :
  In f1 (walked_files is_code_file (os_walk os EXCLUDED top)) ->
  In f2 (walked_files is_code_file (os_walk os EXCLUDED top)) ->
  open_readlines (file_node f1) = Ok lines1 ->
  open_readlines (file_node f2) = Ok lines2 ->
  1 <= i1 -> i1 + block_size <= List.length lines1 + 1 ->
  1 <= i2 -> i2 + block_size <= List.length lines2 + 1 ->
  (rel_path f1, i1) <> (rel_path f2, i2) ->
  normal_lines (block_at block_size i1 lines1) =
  normal_lines (block_at block_size i2 lines2) ->
  find_duplicate_blocks md5_hexdigest os top block_size <> [].
Proof.
  intros Hf1 Hf2 Ho1 Ho2 Ha1 Hb1 Ha2 Hb2 Hne Hsame.
  pose proof (scanned_blocks_In md5_hexdigest os top block_size f1 lines1 i1
                Hf1 Ho1 Ha1 Hb1) as H1.
  pose proof (scanned_blocks_In md5_hexdigest os top block_size f2 lines2 i2
                Hf2 Ho2 Ha2 Hb2) as H2.
  rewrite hash_line_block_normal in H1, H2. rewrite <- Hsame in H2.
  destruct (find_duplicate_blocks_some md5_hexdigest os top block_size _ _ _ H1 H2 Hne)
    as [d Hd].
  intros E. rewrite E in Hd. destruct Hd.
Qed.

(** X9 on a file of six blank lines: its two windows of five lines. *)
Lemma find_duplicate_blocks_detects_blank :
  find_duplicate_blocks text_digest blank_os "/repo" 5 <> [].
Proof.
  apply (find_duplicate_blocks_detects text_digest blank_os "/repo" 5
           {| filepath := "/repo/a.py"; rel_path := "a.py";
              file_node := File (Some (Str.repeat_str Str.NL 6)) 0 |}
           {| filepath := "/repo/a.py"; rel_path := "a.py";
              file_node := File (Some (Str.repeat_str Str.NL 6)) 0 |}
           (Str.readlines (Str.repeat_str Str.NL 6))
           (Str.readlines (Str.repeat_str Str.NL 6)) 1 2).
  - vm_compute. left. reflexivity.
  - vm_compute. left. reflexivity.
  - reflexivity.
  - reflexivity.
  - vm_compute. lia.
  - vm_compute. lia.
  - lia.
  - vm_compute. lia.
  - discriminate.
  - reflexivity.
Defined.

(** ** _analyze_duplication *)

Lemma sum_counts_from (l : list duplicate) (acc : nat) :
  Forall (fun d => 2 <= dup_count d) l ->
  acc + 2 * List.length l <= fold_left Nat.add (map dup_count l) acc.
Proof.
  revert acc. induction l as [|d l IH]; intros acc H; simpl; [lia|].
  inversion H as [|? ? Hd Hl]; subst. specialize (IH (acc + dup_count d) Hl). lia.
Qed.

(** X10.  The duplication category never counts more than 20 groups, since
    [find_duplicate_blocks] keeps 20 at most: its hours are three times the
    count and so at most 60, its severity is never CRITICAL (which asks for
    more than 30 groups), and the total of the occurrences is at least
    twice the count. *)
Theorem duplication_category_bounds (md5_hexdigest : string -> string)
  (os : os_state) (top : string) :
  let category := _analyze_duplication md5_hexdigest os top in
  exists groups occurrences_total : nat,
    details category = [("duplicate_blocks", PInt (Z.of_nat groups));
                        ("total_occurrences", PInt (Z.of_nat occurrences_total))]
    /\ groups <= 20
    /\ 2 * groups <= occurrences_total
    /\ (estimated_hours category == inject_Z (3 * Z.of_nat groups))%Q
    /\ (estimated_hours category <= 60)%Q
    /\ severity category <> CRITICAL.
Proof.
  cbv zeta. unfold _analyze_duplication.
  assert (Hlen : List.length (find_duplicate_blocks md5_hexdigest os top 5) <= 20)
    by apply firstn_le_length.
  assert (Hall : Forall (fun d => 2 <= dup_count d)
                   (find_duplicate_blocks md5_hexdigest os top 5)).
  { apply Forall_forall. intros d Hd.
    now apply (find_duplicate_blocks_groups md5_hexdigest os top 5). }
  generalize dependent (find_duplicate_blocks md5_hexdigest os top 5).
  intros duplicates Hlen Hall.
  exists (List.length duplicates),
         (fold_left Nat.add (map dup_count duplicates) 0).
  cbn [details estimated_hours severity].
  repeat split; trivial.
  - apply (sum_counts_from duplicates 0 Hall).
  - unfold len_Q, DUP_HOURS_PER_BLOCK, Qeq, Qmult, inject_Z.
    cbn -[Z.mul Z.of_nat]. ring.
  - unfold len_Q, DUP_HOURS_PER_BLOCK, Qle, Qmult, inject_Z.
    cbn -[Z.mul Z.of_nat]. lia.
  - unfold severity_of_count.
    destruct (Nat.ltb_spec 30 (List.length duplicates)); [lia|].
    destruct (15 <? List.length duplicates), (5 <? List.length duplicates); discriminate.
Qed.

(** ** _analyze_dependencies *)

(** X11.  The dependency category is CRITICAL, with 8 hours, exactly when
    none of [requirements.txt], [setup.py] and [pyproject.toml] exists
    directly under the repository, whatever lock files there are;
    otherwise it has 5 hours and a severity that is not CRITICAL. *)
Theorem dependency_category_critical (os : os_state) (top : string) :
  let category := _analyze_dependencies os top in
  (severity category = CRITICAL <-> existsb (exists_under os top) MANIFESTS = false)
  /\ (estimated_hours category ==
      if existsb (exists_under os top) MANIFESTS then 5 else 8)%Q.
Proof.
  cbv zeta. rewrite <- has_requirements_manifests. unfold _analyze_dependencies.
  destruct (has_requirements (analyze_dependency_age os top));
    cbn [negb severity estimated_hours].
  - split; [|reflexivity]. split; [|discriminate].
    destruct (truthy_gt _ 180); [discriminate|].
    destruct (truthy_gt _ 90); discriminate.
  - split; [|reflexivity]. split; reflexivity.
Qed.

(** ** The categories of an analysis *)

Lemma count_hours_nonneg (n : nat) (k : Z) :
  (0 <= k)%Z -> (0 <= inject_Z (Z.of_nat n) * inject_Z k)%Q.
Proof.
  intros Hk. unfold Qle, Qmult, inject_Z. cbn -[Z.mul Z.of_nat]. nia.
Qed.

Lemma sum_hours_from (l : list Q) (acc : Q) :
  Forall (fun h => (0 <= h)%Q) l -> (acc <= fold_left Qplus l acc)%Q.
Proof.
  revert acc. induction l as [|h l IH]; intros acc H; simpl; [apply Qle_refl|].
  inversion H as [|? ? Hh Hl]; subst.
  eapply Qle_trans; [|apply IH; exact Hl].
  rewrite <- (Qplus_0_r acc) at 1. apply Qplus_le_compat; [apply Qle_refl|exact Hh].
Qed.

Section CategoryShape.
Variable md5_hexdigest : string -> string.
Variable strftime_ymd : Z -> string.
Variable os : os_state.
Variable top : string.

Lemma complexity_well_formed :
  well_formed "Complexity Debt" (_analyze_complexity os top).
Proof.
  unfold well_formed, _analyze_complexity. cbn [name estimated_hours recommendations
    affected_files]. repeat split.
  - apply (count_hours_nonneg _ 10). lia.
  - rewrite length_map. apply firstn_le_length.
Qed.

Lemma duplication_well_formed :
  well_formed "Duplication Debt" (_analyze_duplication md5_hexdigest os top).
Proof.
  unfold well_formed, _analyze_duplication. cbn [name estimated_hours recommendations
    affected_files]. repeat split.
  - apply (count_hours_nonneg _ 3). lia.
  - etransitivity; [apply firstn_le_length|lia].
Qed.

Lemma tests_well_formed : well_formed "Test Coverage Debt" (_analyze_tests os top).
Proof.
  unfold well_formed, _analyze_tests. cbn [name estimated_hours recommendations
    affected_files]. repeat split.
  - apply (count_hours_nonneg _ 4). lia.
  - apply firstn_le_length.
Qed.

Lemma documentation_well_formed :
  well_formed "Documentation Debt" (_analyze_documentation os top).
Proof.
  unfold well_formed, _analyze_documentation. cbn [name estimated_hours recommendations
    affected_files]. repeat split.
  - unfold Qle, Qmult, inject_Z, DOC_HOURS_PER_ITEM. cbn -[Z.mul Z.of_nat]. lia.
  - rewrite length_map. etransitivity; [apply firstn_le_length|lia].
Qed.

Lemma stale_well_formed :
  well_formed "Stale Code Debt" (_analyze_stale_code strftime_ymd os top).
Proof.
  unfold well_formed, _analyze_stale_code. cbn [name estimated_hours recommendations
    affected_files]. repeat split.
  - apply (count_hours_nonneg _ 6). lia.
  - rewrite length_map. apply firstn_le_length.
Qed.

Lemma dependencies_well_formed :
  well_formed "Dependency Debt" (_analyze_dependencies os top)
  /\ (5 <= estimated_hours (_analyze_dependencies os top))%Q.
Proof.
  unfold well_formed, _analyze_dependencies.
  destruct (has_requirements (analyze_dependency_age os top)),
           (has_lock_file (analyze_dependency_age os top));
    cbn; repeat split; try discriminate; lia.
Qed.
End CategoryShape.

(** X12.  Every analysis returns the same six categories, in the same
    order, each filed under its own name, with hours that are not
    negative, four recommendations and ten affected files at most; the
    total is at least the 5 hours of the dependency category.  The result
    carries the absolute path and the timestamp of the run. *)
Theorem analyze_result_shape (md5_hexdigest : string -> string)
  (strftime_ymd : Z -> string) (os : os_state) (path : string) :
  exists result,
    analyze md5_hexdigest strftime_ymd os path = Ok result
    /\ repo_path result = os_abspath os path
    /\ analyzed_at result = os_timestamp os
    /\ map fst (categories result) = CATEGORY_NAMES
    /\ Forall (fun item => well_formed (fst item) (snd item)) (categories result)
    /\ (5 <= total_hours result)%Q.
Proof.
  unfold analyze, ret. eexists. split; [reflexivity|].
  cbn [repo_path analyzed_at categories total_hours map fst].
  set (top := os_abspath os path).
  pose proof (complexity_well_formed os top) as H1.
  pose proof (duplication_well_formed md5_hexdigest os top) as H2.
  pose proof (tests_well_formed os top) as H3.
  pose proof (documentation_well_formed os top) as H4.
  pose proof (stale_well_formed strftime_ymd os top) as H5.
  destruct (dependencies_well_formed os top) as [H6 H7].
  split; [reflexivity|]. split; [reflexivity|]. split; [reflexivity|]. split.
  - repeat apply Forall_cons; trivial.
  - unfold sum_hours, values. cbn [map snd fold_left].
    generalize dependent (_analyze_complexity os top).
    generalize dependent (_analyze_duplication md5_hexdigest os top).
    generalize dependent (_analyze_tests os top).
    generalize dependent (_analyze_documentation os top).
    generalize dependent (_analyze_stale_code strftime_ymd os top).
    generalize dependent (_analyze_dependencies os top).
    intros c6 _ H6 c5 (_ & H5 & _) c4 (_ & H4 & _) c3 (_ & H3 & _)
           c2 (_ & H2 & _) c1 (_ & H1 & _).
    rewrite <- (Qplus_0_l 5). apply Qplus_le_compat; [|exact H6].
    apply (sum_hours_from [estimated_hours c1; estimated_hours c2; estimated_hours c3;
                           estimated_hours c4; estimated_hours c5] 0).
    repeat constructor; assumption.
Qed.

(** X13.  A category that comes from a walk and has hours to spend names
    at least one affected file: its hours are zero or its list of affected
    files is not empty. *)
Theorem analyze_affected_files (md5_hexdigest : string -> string)
  (strftime_ymd : Z -> string) (os : os_state) (path : string) :
  exists result,
    analyze md5_hexdigest strftime_ymd os path = Ok result
    /\ Forall (fun item =>
         (estimated_hours (snd item) == 0)%Q \/ affected_files (snd item) <> [])
         (firstn 5 (categories result)).
Proof.
  unfold analyze, ret. eexists. split; [reflexivity|].
  cbn [categories firstn]. set (top := os_abspath os path).
  repeat apply Forall_cons; [| | | | |apply Forall_nil]; cbn [snd].
  - unfold _analyze_complexity. cbn [estimated_hours affected_files].
    destruct (find_complex_files os top COMPLEXITY_THRESHOLD);
      [left; reflexivity|right; discriminate].
  - unfold _analyze_duplication. cbn [estimated_hours affected_files].
    destruct (find_duplicate_blocks md5_hexdigest os top 5);
      [left; reflexivity|right; discriminate].
  - unfold _analyze_tests. cbn [estimated_hours affected_files].
    destruct (find_untested_code os top); [left; reflexivity|right; discriminate].
  - unfold _analyze_documentation. cbn [estimated_hours affected_files].
    destruct (find_undocumented_code os top); [left; reflexivity|right; discriminate].
  - unfold _analyze_stale_code. cbn [estimated_hours affected_files].
    destruct (find_stale_files strftime_ymd os top STALE_MONTHS);
      [left; reflexivity|right; discriminate].
Qed.

(** ** find_untested_code, in full *)

Lemma set_add_NoDup (x : string) (s : list string) : NoDup s -> NoDup (set_add x s).
Proof.
  intros H. unfold set_add. destruct (mem_str x s) eqn:E; [exact H|].
  apply NoDup_app; [exact H|repeat constructor; intros []|].
  intros y Hy [Exy|[]]. subst y. unfold mem_str in E.
  assert (existsb (String.eqb x) s = true); [|congruence].
  apply existsb_exists. exists x. split; [exact Hy|apply String.eqb_refl].
Qed.

Lemma partition_files_NoDup (fs : list walked) :
  NoDup (fst (partition_files fs)) /\ NoDup (snd (partition_files fs)).
Proof.
  unfold partition_files. induction fs as [|f fs IH] using rev_ind.
  - simpl. split; constructor.
  - rewrite fold_left_app. simpl.
    destruct (fold_left _ fs ([], [])) as [source_files test_files].
    simpl in IH. destruct IH as [Hs Ht].
    destruct (is_test_path (filepath f)); simpl; split; trivial;
      now apply set_add_NoDup.
Qed.

Lemma has_test_false (test_files : list string) (source_file : string) :
  has_test test_files source_file = false <->
  forall test_file, In test_file test_files ->
    Str.contains test_file (Str.replace source_file ".py" "") = false
    /\ Str.contains test_file (Str.replace source_file ".js" "") = false.
Proof.
  unfold has_test. split.
  - intros H t Ht. apply orb_false_iff.
    destruct (_ || _) eqn:E; [|reflexivity].
    assert (existsb (fun test_file =>
              Str.contains test_file (Str.replace source_file ".py" "")
              || Str.contains test_file (Str.replace source_file ".js" ""))
              test_files = true); [|congruence].
    apply existsb_exists. now exists t.
  - intros H. destruct (existsb _ test_files) eqn:E; [|reflexivity].
    apply existsb_exists in E. destruct E as (t & Ht & E).
    destruct (H t Ht) as [H1 H2]. rewrite H1, H2 in E. discriminate.
Qed.

(** X14.  What [find_untested_code] reports, in full, and each file once:
    a relative path is in the result exactly when it is the path of a
    scanned file that is not a test file and no scanned test file has a
    relative path that contains it with every [.py] removed, or with every
    [.js] removed. *)
Theorem find_untested_code_iff (os : os_state) (top : string) :
  NoDup (find_untested_code os top)
  /\ forall x : string,
       In x (find_untested_code os top) <->
       (exists f, In f (scanned_files os top) /\ rel_path f = x
                  /\ is_test_path (filepath f) = false)
       /\ (forall t, In t (scanned_files os top) ->
             is_test_path (filepath t) = true ->
             Str.contains (rel_path t) (Str.replace x ".py" "") = false
             /\ Str.contains (rel_path t) (Str.replace x ".js" "") = false).
Proof.
  unfold find_untested_code. fold (scanned_files os top).
  pose proof (partition_files_NoDup (scanned_files os top)) as [Hnd _].
  pose proof (partition_files_spec (scanned_files os top)) as Hspec.
  destruct (partition_files (scanned_files os top)) as [source_files test_files].
  cbn [fst snd] in *. split.
  - eapply Permutation_NoDup; [apply stable_sort_perm|]. now apply NoDup_filter.
  - intros x. unfold sorted_by. rewrite stable_sort_In, filter_In, negb_true_iff.
    rewrite has_test_false. rewrite (proj1 (Hspec x)). split.
    + intros [Hsrc Hno]. split; [exact Hsrc|].
      intros t Ht Htest. apply Hno. apply (proj2 (Hspec (rel_path t))).
      exists t. now repeat split.
    + intros [Hsrc Hno]. split; [exact Hsrc|].
      intros y Hy. apply (proj2 (Hspec y)) in Hy.
      destruct Hy as (t & Ht & <- & Htest). now apply Hno.
Qed.

(** ** find_undocumented_code, the mapping *)

Lemma record_all_app {V} (a b : list (string * V)) (d : list (string * list V)) :
  record_all (a ++ b) d = record_all b (record_all a d).
Proof. unfold record_all. apply fold_left_app. Qed.

Lemma record_all_keys {V} (blocks : list (string * V)) (d : list (string * list V))
  (k : string) :
  In k (map fst (record_all blocks d)) -> In k (map fst d) \/ In k (map fst blocks).
Proof.
  revert d. induction blocks as [|[h v] blocks IH]; intros d H; [now left|].
  change (In k (map fst (record_all blocks (dict_append h v d)))) in H.
  apply IH in H. destruct H as [H|H]; [|right; now right].
  apply dict_append_keys in H. destruct H as [->|H]; [right; now left|now left].
Qed.

Lemma record_names (rel : string) (names : list string) (d : list (string * list string)) :
  fold_left (fun d item_name => dict_append rel item_name d) names d =
  record_all (map (fun item_name => (rel, item_name)) names) d.
Proof.
  revert d. induction names as [|n names IH]; intros d; [reflexivity|].
  simpl. rewrite IH. reflexivity.
Qed.

Lemma find_undocumented_code_record (os : os_state) (top : string) :
  find_undocumented_code os top = record_all (reported os top) [].
Proof.
  unfold find_undocumented_code, reported. fold (python_files os top).
  generalize (@nil (string * list string)).
  induction (python_files os top) as [|f fs IH]; intros d; [reflexivity|].
  cbn [fold_left flat_map]. rewrite record_all_app, IH. f_equal.
  unfold reported_of. destruct (open_readlines (file_node f)); cbn; [|reflexivity].
  apply record_names.
Qed.

Lemma undocumented_mapping (os : os_state) (top : string) :
  NoDup (map fst (find_undocumented_code os top))
  /\ forall (path : string) (names : list string),
       In (path, names) (find_undocumented_code os top) <->
       names <> [] /\ names = occurrences path (reported os top).
Proof.
  rewrite find_undocumented_code_record.
  assert (Hnd : NoDup (map fst (record_all (reported os top)
                                  (@nil (string * list string)))))
    by (apply record_all_NoDup; constructor).
  split; [exact Hnd|]. intros path names.
  pose proof (record_all_get path (reported os top) (@nil (string * list string)))
    as Hget. cbn [dict_get app] in Hget.
  split.
  - intros Hin.
    assert (E : names = occurrences path (reported os top)).
    { rewrite <- Hget. symmetry. now apply dict_get_of_In. }
    split; [|exact E].
    assert (Hk : In path (map fst (record_all (reported os top)
                                      (@nil (string * list string)))))
      by (change path with (fst (path, names)); now apply in_map).
    apply record_all_keys in Hk. destruct Hk as [[]|Hk].
    apply in_map_iff in Hk. destruct Hk as ([k v] & Ek & Hv). cbn in Ek. subst k.
    apply (proj2 (occurrences_In _ _ _)) in Hv. rewrite <- E in Hv.
    intros ->. destruct Hv.
  - intros [Hne ->]. rewrite <- Hget. apply In_of_dict_get. now rewrite Hget.
Qed.

(** X15.  The mapping of [find_undocumented_code] has one key per file in
    which something is reported, and no other: each key appears once, and
    a path is mapped to a list exactly when that list is not empty and is
    the list of the declarations reported for that path, in the order of
    the scan.  A file that cannot be read, or in which nothing is
    reported, has no key. *)
Theorem find_undocumented_code_mapping (os : os_state) (top : string) :
  NoDup (map fst (find_undocumented_code os top))
  /\ forall (path : string) (names : list string),
       In (path, names) (find_undocumented_code os top) <->
       names <> [] /\ names = occurrences path (reported os top).
Proof.
  rewrite find_undocumented_code_record.
  assert (Hnd : NoDup (map fst (record_all (reported os top)
                                  (@nil (string * list string)))))
    by (apply record_all_NoDup; constructor).
  split; [exact Hnd|]. intros path names.
  pose proof (record_all_get path (reported os top) (@nil (string * list string)))
    as Hget. cbn [dict_get app] in Hget.
  split.
  - intros Hin.
    assert (E : names = occurrences path (reported os top)).
    { rewrite <- Hget. symmetry. now apply dict_get_of_In. }
    split; [|exact E].
    assert (Hk : In path (map fst (record_all (reported os top)
                                      (@nil (string * list string)))))
      by (change path with (fst (path, names)); now apply in_map).
    apply record_all_keys in Hk. destruct Hk as [[]|Hk].
    apply in_map_iff in Hk. destruct Hk as ([k v] & Ek & Hv). cbn in Ek. subst k.
    apply (proj2 (occurrences_In _ _ _)) in Hv. rewrite <- E in Hv.
    intros ->. destruct Hv.
  - intros [Hne ->]. rewrite <- Hget. apply In_of_dict_get. now rewrite Hget.
Qed.

(** ** The declarations *)

Lemma span_word_words (s : string) :
  Forall (fun c => Str.is_word c = true) (list_ascii_of_string (fst (span_word s))).
Proof.
  induction s as [|c s IH]; simpl; [constructor|].
  destruct (Str.is_word c) eqn:E; [|constructor].
  destruct (span_word s) as [w r]. simpl in *. now constructor.
Qed.

Lemma python_def_pattern_identifier (line name : string) :
  python_def_pattern line = Some name -> identifier name.
Proof.
  unfold python_def_pattern, identifier.
  destruct (keyword_rest (Str.lstrip line)) as [after_kw|]; [|discriminate].
  destruct after_kw as [|c after]; [discriminate|].
  destruct (Str.is_space c); [|discriminate].
  pose proof (span_word_words (Str.lstrip (String c after))) as Hw.
  destruct (span_word (Str.lstrip (String c after))) as [w r]. cbn [fst] in Hw.
  destruct w as [|a w]; [discriminate|]. cbn [Str.is_empty].
  destruct (Str.lstrip r) as [|d r']; [discriminate|].
  destruct (Ascii.eqb d "(" || Ascii.eqb d ":"); [|discriminate].
  intros H. inversion H; subst. split; [discriminate|exact Hw].
Qed.

Lemma undocumented_names_facts (lines : list string) :
  Forall identifier (undocumented_names lines)
  /\ List.length (undocumented_names lines) <= List.length (filter declares lines).
Proof.
  induction lines as [|line lines [IH1 IH2]]; [split; [constructor|apply le_n]|].
  cbn [undocumented_names filter]. unfold declares at 1.
  destruct (python_def_pattern line) as [item_name|] eqn:E; [|now split].
  destruct (has_docstring (firstn 4 lines)); cbn [List.length]; split;
    try lia; trivial.
  constructor; [|exact IH1]. now apply (python_def_pattern_identifier line).
Qed.

(** X16.  What is reported for a file is a list of identifiers, each a
    non-empty run of word characters, and never more of them than the file
    has declarations. *)
Theorem undocumented_names_identifiers (lines : list string) :
  Forall identifier (undocumented_names lines)
  /\ List.length (undocumented_names lines) <= List.length (filter declares lines).
Proof.
  induction lines as [|line lines [IH1 IH2]]; [split; [constructor|apply le_n]|].
  cbn [undocumented_names filter]. unfold declares at 1.
  destruct (python_def_pattern line) as [item_name|] eqn:E; [|now split].
  destruct (has_docstring (firstn 4 lines)); cbn [List.length]; split;
    try lia; trivial.
  constructor; [|exact IH1]. now apply (python_def_pattern_identifier line).
Qed.

(** ** analyze_dependency_age, again *)

(** X17.  [lock_file_age_days] is [None] exactly when none of the six
    checked files exists under the repository with a time stamp that can be
    converted to a [datetime].  When [yarn.lock] exists [has_lock_file] is
    true; and when [has_lock_file] is true one of [Pipfile.lock],
    [package-lock.json] and [yarn.lock] exists. *)
Theorem analyze_dependency_age_presence (os : os_state) (top : string) :
  let result := analyze_dependency_age os top in
  (lock_file_age_days result = None <->
   forall fname, In fname CHECK_ORDER -> modified_at os top fname = None)
  /\ (exists_under os top "yarn.lock" = true -> has_lock_file result = true)
  /\ (has_lock_file result = true ->
      existsb (exists_under os top) ["Pipfile.lock"; "package-lock.json"; "yarn.lock"]
      = true).
Proof.
  cbv zeta. unfold analyze_dependency_age.
  set (init := {| has_requirements := false; has_lock_file := false;
                  lock_file_age_days := None; deprecated_packages := [] |}).
  pose proof (dependency_fold os top DEPENDENCY_FILES init) as H.
  cbv zeta in H. destruct H as (_ & Hl & Ha).
  generalize dependent (fold_left (dependency_step os top) DEPENDENCY_FILES init).
  intros final Hl Ha. change (lock_file_age_days init) with (@None Z) in Ha.
  change (has_lock_file init) with false in Hl.
  split; [|split].
  - rewrite Ha. change DEPENDENCY_FILES with CHECK_ORDER.
    pose proof (merge_age_fold_minimum (ages_of os top CHECK_ORDER)) as Hm.
    destruct (fold_left merge_age (ages_of os top CHECK_ORDER) None) as [x|];
      unfold is_minimum in Hm.
    + split; [discriminate|]. intros Hnone. destruct Hm as [Hin _].
      apply ages_of_In in Hin. destruct Hin as (fname & mtime & Hf & E & _).
      rewrite (Hnone fname Hf) in E. discriminate.
    + split; [|reflexivity]. intros _ fname Hf.
      destruct (modified_at os top fname) as [mtime|] eqn:E; [|reflexivity].
      assert (Hin : In (age_in_days os mtime) (ages_of os top CHECK_ORDER))
        by (apply ages_of_In; now exists fname, mtime).
      rewrite Hm in Hin. destruct Hin.
  - rewrite Hl. unfold DEPENDENCY_FILES. cbn [filter]. intros ->.
    destruct (exists_under os top "requirements.txt"),
             (exists_under os top "setup.py"),
             (exists_under os top "pyproject.toml"),
             (exists_under os top "Pipfile.lock"),
             (exists_under os top "package-lock.json"); reflexivity.
  - rewrite Hl. unfold DEPENDENCY_FILES. cbn [filter existsb].
    destruct (exists_under os top "requirements.txt"),
             (exists_under os top "setup.py"),
             (exists_under os top "pyproject.toml"),
             (exists_under os top "Pipfile.lock"),
             (exists_under os top "package-lock.json"),
             (exists_under os top "yarn.lock"); cbn; congruence.
Qed.

(** X17 on a project with [package-lock.json] alone. *)
Lemma analyze_dependency_age_presence_example :
  has_lock_file (analyze_dependency_age lock_only_os "/repo") = true
  /\ existsb (exists_under lock_only_os "/repo")
       ["Pipfile.lock"; "package-lock.json"; "yarn.lock"] = true.
Proof.
  split; [reflexivity|].
  apply (analyze_dependency_age_presence lock_only_os "/repo"). reflexivity.
Defined.

(** ** An empty repository *)

Section EmptyDirectory.
Variable os : os_state.
Variable top : string.
Variable mtime : Z.
Hypothesis empty : os_tree os top = Some (Dir true mtime []).

Lemma walked_files_empty (sel : string -> bool) (excluded : list string) :
  walked_files sel (os_walk os excluded top) = [].
Proof. unfold os_walk. now rewrite empty. Qed.

Lemma find_complex_files_empty (threshold : Z) :
  find_complex_files os top threshold = [].
Proof.
  unfold find_complex_files, complex_candidates. now rewrite walked_files_empty.
Qed.

Lemma find_duplicate_blocks_empty (md5_hexdigest : string -> string) (block_size : nat) :
  find_duplicate_blocks md5_hexdigest os top block_size = [].
Proof.
  unfold find_duplicate_blocks, scanned_blocks. now rewrite walked_files_empty.
Qed.

Lemma find_untested_code_empty : find_untested_code os top = [].
Proof. unfold find_untested_code. now rewrite walked_files_empty. Qed.

Lemma find_undocumented_code_empty : find_undocumented_code os top = [].
Proof. unfold find_undocumented_code. now rewrite walked_files_empty. Qed.

Lemma find_stale_files_empty (strftime_ymd : Z -> string) (months : Z) :
  find_stale_files strftime_ymd os top months = [].
Proof.
  unfold find_stale_files, stale_candidates. now rewrite walked_files_empty.
Qed.

Lemma analyze_dependency_age_empty :
  analyze_dependency_age os top =
  {| has_requirements := false; has_lock_file := false;
     lock_file_age_days := None; deprecated_packages := [] |}.
Proof.
  assert (Hc : forall fname, child (os_tree os top) fname = None)
    by (intros fname; rewrite empty; reflexivity).
  unfold analyze_dependency_age.
  generalize {| has_requirements := false; has_lock_file := false;
                lock_file_age_days := None; deprecated_packages := [] |}.
  induction DEPENDENCY_FILES as [|fname fnames IH]; intros result; [reflexivity|].
  cbn [fold_left]. rewrite dependency_step_absent by apply Hc. apply IH.
Qed.
End EmptyDirectory.

(** X18.  On an empty directory every scanner finds nothing, and yet the
    analysis is not free of debt: the five categories that come from a
    walk are LOW with no hours, the dependency category is CRITICAL with 8
    hours because no manifest is there, and the summary says so. *)
Theorem analyze_empty_directory (md5_hexdigest : string -> string)
  (strftime_ymd : Z -> string) (os : os_state) (path : string) (mtime : Z) :
  os_tree os (os_abspath os path) = Some (Dir true mtime []) ->
  exists result,
    analyze md5_hexdigest strftime_ymd os path = Ok result
    /\ map (fun item => severity (snd item)) (categories result) =
       [LOW; LOW; LOW; LOW; LOW; CRITICAL]
    /\ map (fun item => Qred (estimated_hours (snd item))) (categories result) =
       [0; 0; 0; 0; 0; 8]%Q
    /\ (total_hours result == 8)%Q
    /\ summary result = "Total technical debt: 8.0 developer-hours (1 CRITICAL areas)".
Proof.
  intros H. unfold analyze, ret. eexists. split; [reflexivity|].
  cbn [categories total_hours summary].
  unfold _analyze_complexity, _analyze_duplication, _analyze_tests,
    _analyze_documentation, _analyze_stale_code, _analyze_dependencies.
  rewrite (find_complex_files_empty os _ mtime H),
    (find_duplicate_blocks_empty os _ mtime H),
    (find_untested_code_empty os _ mtime H),
    (find_undocumented_code_empty os _ mtime H),
    (find_stale_files_empty os _ mtime H),
    (analyze_dependency_age_empty os _ mtime H).
  repeat split; vm_compute; reflexivity.
Qed.

(** X18 on an empty repository. *)
Lemma analyze_empty_directory_example :
  exists result,
    analyze text_digest day_number empty_directory_os "/repo" = Ok result
    /\ map (fun item => severity (snd item)) (categories result) =
       [LOW; LOW; LOW; LOW; LOW; CRITICAL]
    /\ map (fun item => Qred (estimated_hours (snd item))) (categories result) =
       [0; 0; 0; 0; 0; 8]%Q
    /\ (total_hours result == 8)%Q
    /\ summary result = "Total technical debt: 8.0 developer-hours (1 CRITICAL areas)".
Proof.
  apply (analyze_empty_directory text_digest day_number empty_directory_os "/repo" 0).
  reflexivity.
Defined.

(** ** The first category of the ranking *)

(** X19.  The category that [sorted_categories] puts first has the highest
    severity of all, and among those of that severity the most hours. *)
Theorem sorted_categories_first (self : DebtResult) (item : string * DebtCategory) :
  In item (categories self) ->
  exists first rest,
    sorted_categories self = first :: rest
    /\ (first = item \/ ranks_before first item).
Proof.
  intros Hin.
  assert (Hin' : In item (sorted_categories self))
    by (apply stable_sort_In; exact Hin).
  assert (Hs : StronglySorted ranks_before (sorted_categories self)).
  { unfold sorted_categories, sorted_by_reverse.
    eapply StronglySorted_weaken; [|apply stable_sort_sorted].
    - intros x y H. simpl in H. unfold key_leb, category_key, ranks_before in *.
      simpl in H.
      destruct (Z.eqb_spec (severity_value (severity (snd y)))
                           (severity_value (severity (snd x)))) as [E|N].
      + right. split; [now symmetry|now apply Qle_bool_iff].
      + left. apply Z.ltb_lt in H. lia.
    - intros x y. apply key_leb_total.
    - intros x y z H1 H2. simpl in *. eapply key_leb_trans; eauto. }
  destruct (sorted_categories self) as [|first rest]; [destruct Hin'|].
  exists first, rest. split; [reflexivity|].
  destruct Hin' as [->|Hin']; [now left|right].
  inversion Hs as [|? ? _ Hall]; subst. rewrite Forall_forall in Hall. now apply Hall.
Qed.

(** X19 on two categories. *)
Lemma sorted_categories_first_example :
  exists first rest,
    sorted_categories (plain_result two_categories) = first :: rest
    /\ (first = ("Stale Code Debt", plain_category "Stale Code Debt" 12 LOW)
        \/ ranks_before first ("Stale Code Debt", plain_category "Stale Code Debt" 12 LOW)).
Proof.
  apply (sorted_categories_first (plain_result two_categories)).
  left. reflexivity.
Defined.

(** ** find_undocumented_code, the keys *)

Lemma path_join_suffix (a b : string) : exists t, path_join a b = (t ++ b)%string.
Proof.
  unfold path_join. destruct (Str.is_empty a); [now exists EmptyString|].
  destruct (Str.endswith a "/"); [now exists a|].
  exists (a ++ "/")%string. now rewrite append_assoc.
Qed.

Lemma endswith_path_join (a b suffix : string) :
  Str.endswith b suffix = true -> Str.endswith (path_join a b) suffix = true.
Proof.
  rewrite !endswith_iff. intros [stem ->].
  destruct (path_join_suffix a (stem ++ suffix)) as [t ->].
  exists (t ++ stem)%string. now rewrite append_assoc.
Qed.

Lemma reported_In (os : os_state) (top path item_name : string) :
  In (path, item_name) (reported os top) ->
  exists f lines,
    In f (python_files os top) /\ rel_path f = path
    /\ open_readlines (file_node f) = Ok lines
    /\ In item_name (undocumented_names lines).
Proof.
  unfold reported. rewrite in_flat_map. intros (f & Hf & Hin).
  unfold reported_of in Hin.
  destruct (open_readlines (file_node f)) as [lines|e] eqn:Ho; [|destruct Hin].
  cbn in Hin. apply in_map_iff in Hin. destruct Hin as (n & E & Hn).
  inversion E; subst. now exists f, lines.
Qed.

(** X20.  Only Python files get a key in the mapping of
    [find_undocumented_code]: a key ends with [.py], it is the relative
    path of a file of the walk that could be read, and what is listed
    under it are identifiers declared in such a file. *)
Theorem find_undocumented_code_keys (os : os_state) (top path : string)
  (names : list string) :
  In (path, names) (find_undocumented_code os top) ->
  Str.endswith path ".py" = true
  /\ Forall identifier names
  /\ forall item_name, In item_name names ->
       exists f lines,
         In f (python_files os top) /\ rel_path f = path
         /\ open_readlines (file_node f) = Ok lines
         /\ In item_name (undocumented_names lines).
Proof.
  intros Hin.
  apply (proj2 (undocumented_mapping os top)) in Hin.
  destruct Hin as [Hne ->].
  assert (Hall : forall item_name,
            In item_name (occurrences path (reported os top)) ->
            exists f lines,
              In f (python_files os top) /\ rel_path f = path
              /\ open_readlines (file_node f) = Ok lines
              /\ In item_name (undocumented_names lines)).
  { intros n Hn. apply (proj1 (occurrences_In _ _ _)) in Hn.
    now apply reported_In. }
  split; [|split; [|exact Hall]].
  - destruct (occurrences path (reported os top)) as [|n l]; [congruence|].
    destruct (Hall n (or_introl eq_refl)) as (f & lines & Hf & <- & _).
    apply walked_files_reach in Hf.
    destruct Hf as (root & dirs & es & fname & _ & _ & _ & _ & _ & Hsel & _ & ->).
    now apply endswith_path_join.
  - apply Forall_forall. intros n Hn.
    destruct (Hall n Hn) as (f & lines & _ & _ & _ & Hd).
    pose proof (proj1 (undocumented_names_facts lines)) as Hid.
    rewrite Forall_forall in Hid. now apply Hid.
Qed.

(** X20 on the two files of the docstring example. *)
Lemma find_undocumented_code_keys_example :
  Str.endswith "simple.py" ".py" = true
  /\ Forall identifier ["hello"]
  /\ forall item_name, In item_name ["hello"] ->
       exists f lines,
         In f (python_files docstring_os "/repo") /\ rel_path f = "simple.py"
         /\ open_readlines (file_node f) = Ok lines
         /\ In item_name (undocumented_names lines).
Proof.
  apply (find_undocumented_code_keys docstring_os "/repo" "simple.py" ["hello"]).
  vm_compute. left. reflexivity.
Defined.

(** ** The walks of the scanners *)

Lemma not_excluded_weaken (fewer more : list string) (dirs : list string) :
  (forall d, mem_str d fewer = true -> mem_str d more = true) ->
  not_excluded more dirs -> not_excluded fewer dirs.
Proof.
  intros Hsub. unfold not_excluded. apply Forall_impl. intros d Hd.
  destruct (mem_str d fewer) eqn:E; [|reflexivity].
  rewrite (Hsub d E) in Hd. discriminate.
Qed.

Lemma EXCLUDED_fewer (d : string) :
  mem_str d EXCLUDED = true -> mem_str d COMPLEX_EXCLUDED = true.
Proof.
  unfold mem_str, EXCLUDED, COMPLEX_EXCLUDED. cbn [existsb].
  destruct (String.eqb d ".git"), (String.eqb d "node_modules"),
           (String.eqb d "venv"), (String.eqb d ".venv"),
           (String.eqb d "__pycache__"); cbn; congruence.
Qed.

(** X21.  Excluding fewer directories, or selecting more names, never
    loses a file: what a walk meets with one list of excluded names and one
    selection of file names it also meets with any list that excludes no
    other name and any selection that takes these names.  So every file
    that [find_complex_files] measures is also met by
    [find_duplicate_blocks], [find_stale_files] and [find_untested_code],
    which select the same names and leave [dist] and [build] in; and every
    file that [find_undocumented_code] reads, which selects the names that
    end with [.py] only, is met by these three. *)
Theorem walked_files_fewer_exclusions (os : os_state) (top : string) :
  (forall (sel sel' : string -> bool) (fewer more : list string) (f : walked),
     (forall d, mem_str d fewer = true -> mem_str d more = true) ->
     (forall file, sel file = true -> sel' file = true) ->
     In f (walked_files sel (os_walk os more top)) ->
     In f (walked_files sel' (os_walk os fewer top)))
  /\ (forall f : walked,
        In f (walked_files is_code_file (os_walk os COMPLEX_EXCLUDED top)) ->
        In f (walked_files is_code_file (os_walk os EXCLUDED top)))
  /\ (forall f : walked,
        In f (python_files os top) ->
        In f (walked_files is_code_file (os_walk os EXCLUDED top))).
Proof.
  assert (Hgen : forall (sel sel' : string -> bool) (fewer more : list string)
                        (f : walked),
            (forall d, mem_str d fewer = true -> mem_str d more = true) ->
            (forall file, sel file = true -> sel' file = true) ->
            In f (walked_files sel (os_walk os more top)) ->
            In f (walked_files sel' (os_walk os fewer top))).
  { intros sel sel' fewer more f Hsub Hsel Hin.
    apply walked_files_reach in Hin. apply walked_files_reach.
    destruct Hin as (root & dirs & es & fname & Ht & Hl & Hx & Hin & Hd & Hs & Hrest).
    exists root, dirs, es, fname. repeat split; try tauto.
    - now apply (not_excluded_weaken fewer more).
    - now apply Hsel. }
  split; [exact Hgen|]. split; intros f Hin.
  - apply (Hgen is_code_file is_code_file EXCLUDED COMPLEX_EXCLUDED f EXCLUDED_fewer);
      trivial.
  - apply (Hgen (fun file => Str.endswith file ".py") is_code_file EXCLUDED EXCLUDED f);
      trivial.
    intros file Hpy. unfold is_code_file, CODE_PATTERNS, PYTHON_PATTERN, re_search_suffix.
    cbn [existsb]. now rewrite Hpy.
Qed.

(** X21 on the file [a.py] of two lines. *)
Lemma walked_files_fewer_exclusions_example :
  In {| filepath := "/repo/a.py"; rel_path := "a.py";
        file_node := File (Some two_lines) 0 |}
     (walked_files is_code_file (os_walk ties_os EXCLUDED "/repo")).
Proof.
  apply (walked_files_fewer_exclusions ties_os "/repo").
  vm_compute. left. reflexivity.
Defined.

(** * Two runs on one directory *)

(** ** Lists in another order *)

Lemma Permutation_filter {A} (p : A -> bool) (l1 l2 : list A) :
  Permutation l1 l2 -> Permutation (filter p l1) (filter p l2).
Proof.
  induction 1 as [|x l1 l2 H IH|x y l|l1 l2 l3 H1 IH1 H2 IH2]; simpl.
  - constructor.
  - destruct (p x); [now constructor|exact IH].
  - destruct (p x), (p y); try reflexivity. constructor.
  - now transitivity (filter p l2).
Qed.

Lemma flat_map_flat_map {A B C} (f : B -> list C) (g : A -> list B) (l : list A) :
  flat_map f (flat_map g l) = flat_map (fun x => flat_map f (g x)) l.
Proof.
  induction l as [|x l IH]; simpl; [reflexivity|]. now rewrite flat_map_app, IH.
Qed.

Lemma fold_left_add_sum (l : list nat) (acc : nat) :
  fold_left Nat.add l acc = acc + list_sum l.
Proof.
  revert acc. induction l as [|x l IH]; intros acc; simpl; [lia|]. rewrite IH. lia.
Qed.

Lemma NoDup_of_keys {A B} (l : list (A * B)) : NoDup (map fst l) -> NoDup l.
Proof. apply NoDup_map_inv. Qed.

(** ** The walk *)

(** What one entry of a directory adds to the files of a walk. *)
Lemma walked_files_dir (sel : string -> bool) (excluded : list string)
  (root rel : string) (mtime : Z) (es : list (string * node)) :
  walked_files sel (walk_node excluded root rel (Dir true mtime es)) =
  map (fun e => {| filepath := path_join root (fst e);
                   rel_path := path_join rel (fst e);
                   file_node := snd e |})
      (filter (fun e => sel (fst e)) (nondirs es))
  ++ flat_map (fun e =>
         if is_dir (snd e) && negb (mem_str (fst e) excluded)
         then walked_files sel
                (walk_node excluded (path_join root (fst e)) (path_join rel (fst e))
                   (snd e))
         else [])
       es.
Proof.
  rewrite walk_node_dir. unfold walked_files at 1. cbn [flat_map w_files w_root w_rel].
  f_equal. rewrite flat_map_flat_map. apply flat_map_ext. intros e.
  now destruct (is_dir (snd e) && negb (mem_str (fst e) excluded)).
Qed.

Lemma same_entries_is_dir (n1 n2 : node) :
  same_entries n1 n2 -> is_dir n1 = is_dir n2.
Proof. now destruct 1. Qed.

Lemma same_entries_file (n1 n2 : node) :
  same_entries n1 n2 -> is_dir n1 = false -> n1 = n2.
Proof. destruct 1; [reflexivity|discriminate]. Qed.

Lemma same_entries_mtime (n1 n2 : node) :
  same_entries n1 n2 -> node_mtime n1 = node_mtime n2.
Proof. now destruct 1. Qed.

Lemma walk_node_same (sel : string -> bool) (excluded : list string) (n1 n2 : node) :
  same_entries n1 n2 ->
  forall root rel : string,
    Permutation (walked_files sel (walk_node excluded root rel n1))
                (walked_files sel (walk_node excluded root rel n2)).
Proof.
  intros H. induction H as [content mtime|listable mtime es1 es es2 Hperm Hsame IH]
    using same_entries_nested_ind; intros root rel.
  - reflexivity.
  - destruct listable; [|reflexivity].
    rewrite !walked_files_dir.
    transitivity
      (map (fun e => {| filepath := path_join root (fst e);
                        rel_path := path_join rel (fst e);
                        file_node := snd e |})
           (filter (fun e => sel (fst e)) (nondirs es))
       ++ flat_map (fun e =>
              if is_dir (snd e) && negb (mem_str (fst e) excluded)
              then walked_files sel
                     (walk_node excluded (path_join root (fst e))
                        (path_join rel (fst e)) (snd e))
              else [])
            es).
    + apply Permutation_app.
      * apply Permutation_map. unfold nondirs. now do 2 apply Permutation_filter.
      * now apply Permutation_flat_map.
    + clear Hperm es1. apply Permutation_app.
      * assert (E : filter (fun e => sel (fst e)) (nondirs es) =
                    filter (fun e => sel (fst e)) (nondirs es2)).
        { clear IH. unfold nondirs.
          induction Hsame as [|e1 e2 l1 l2 [Hname Hs] Hrest IHrest]; [reflexivity|].
          cbn [filter]. rewrite <- (same_entries_is_dir _ _ Hs).
          destruct (is_dir (snd e1)) eqn:Hd; cbn [negb]; [exact IHrest|].
          assert (Ee : e1 = e2).
          { destruct e1, e2. cbn in *. subst. f_equal.
            now apply same_entries_file. }
          subst e2. cbn [filter]. now rewrite IHrest. }
        now rewrite E.
      * revert Hsame. induction IH as [|e1 e2 l1 l2 [Hname HP] Hrest IHrest];
          intros Hsame; [reflexivity|].
        inversion Hsame as [|a b la lb [_ Hs] Hsame']; subst.
        cbn [flat_map]. apply Permutation_app; [|exact (IHrest Hsame')].
        rewrite <- Hname, <- (same_entries_is_dir _ _ Hs).
        destruct (is_dir (snd e1) && negb (mem_str (fst e1) excluded)); [|reflexivity].
        apply HP.
Qed.

Lemma os_walk_same (sel : string -> bool) (excluded : list string)
  (os1 os2 : os_state) (top : string) :
  same_directory os1 os2 top ->
  Permutation (walked_files sel (os_walk os1 excluded top))
              (walked_files sel (os_walk os2 excluded top)).
Proof.
  unfold same_directory, os_walk.
  destruct (os_tree os1 top) as [n1|], (os_tree os2 top) as [n2|]; intros H.
  - now apply walk_node_same.
  - destruct H.
  - destruct H.
  - reflexivity.
Qed.

(** ** The five scanners *)

Section SameDirectory.
Variables os1 os2 : os_state.
Variable top : string.
Hypothesis same : same_directory os1 os2 top.
Hypothesis same_now : os_now os1 = os_now os2.
Hypothesis same_convert : forall t, os_fromtimestamp os1 t = os_fromtimestamp os2 t.

Lemma find_complex_files_count (threshold : Z) :
  List.length (find_complex_files os1 top threshold) =
  List.length (find_complex_files os2 top threshold).
Proof.
  unfold find_complex_files, sorted_by_reverse. rewrite !stable_sort_length.
  apply Permutation_length. unfold complex_candidates.
  apply Permutation_flat_map. now apply os_walk_same.
Qed.

Lemma find_stale_files_count (strftime_ymd : Z -> string) (months : Z) :
  List.length (find_stale_files strftime_ymd os1 top months) =
  List.length (find_stale_files strftime_ymd os2 top months).
Proof.
  unfold find_stale_files, sorted_by. rewrite !stable_sort_length.
  apply Permutation_length. unfold stale_candidates. rewrite same_now.
  rewrite (flat_map_ext _
             (fun f =>
                try_except
                  (mtime <- os_fromtimestamp os2 (node_mtime (file_node f)) ;;
                   ret (if (mtime <? os_now os2 - 30 * months * MICROS_PER_DAY)%Z
                        then [(rel_path f, strftime_ymd mtime)]
                        else []))%exc
                  [])).
  - apply Permutation_flat_map. now apply os_walk_same.
  - intros f. now rewrite same_convert.
Qed.

Lemma dict_append_total {V} (k : string) (v : V) (d : list (string * list V)) :
  list_sum (map (fun item => List.length (snd item)) (dict_append k v d)) =
  S (list_sum (map (fun item => List.length (snd item)) d)).
Proof.
  unfold list_sum. induction d as [|[k' vs] d IHd]; [reflexivity|].
  cbn [dict_append]. destruct (String.eqb k' k).
  - cbn [map fold_right snd]. rewrite length_app. simpl. lia.
  - cbn [map fold_right snd]. rewrite IHd. lia.
Qed.

Lemma record_all_total {V} (blocks : list (string * V)) (d : list (string * list V)) :
  list_sum (map (fun item => List.length (snd item)) (record_all blocks d)) =
  list_sum (map (fun item => List.length (snd item)) d) + List.length blocks.
Proof.
  revert d. induction blocks as [|b blocks IH]; intros d; [simpl; lia|].
  change (record_all (b :: blocks) d)
    with (record_all blocks (dict_append (fst b) (snd b) d)).
  rewrite IH, dict_append_total. simpl. lia.
Qed.

Lemma find_undocumented_code_total :
  fold_left Nat.add
    (map (fun item => List.length (snd item)) (find_undocumented_code os1 top)) 0 =
  fold_left Nat.add
    (map (fun item => List.length (snd item)) (find_undocumented_code os2 top)) 0.
Proof.
  rewrite !fold_left_add_sum, !find_undocumented_code_record, !record_all_total.
  cbn [map list_sum]. f_equal. apply Permutation_length. unfold reported.
  apply Permutation_flat_map. unfold python_files. now apply os_walk_same.
Qed.
End SameDirectory.

(** ** find_untested_code *)

Lemma has_test_same (tests1 tests2 : list string) (source_file : string) :
  (forall t, In t tests1 <-> In t tests2) ->
  has_test tests1 source_file = has_test tests2 source_file.
Proof.
  intros Hsame.
  destruct (has_test tests1 source_file) eqn:E1, (has_test tests2 source_file) eqn:E2;
    try reflexivity.
  - rewrite has_test_false in E2.
    assert (E : has_test tests1 source_file = false)
      by (apply has_test_false; intros t Ht; apply E2; now apply Hsame).
    congruence.
  - rewrite has_test_false in E1.
    assert (E : has_test tests2 source_file = false)
      by (apply has_test_false; intros t Ht; apply E1; now apply Hsame).
    congruence.
Qed.

Lemma find_untested_code_same (os1 os2 : os_state) (top : string) :
  same_directory os1 os2 top ->
  find_untested_code os1 top = find_untested_code os2 top.
Proof.
  intros Hsame. unfold find_untested_code.
  pose proof (os_walk_same is_code_file EXCLUDED os1 os2 top Hsame) as Hperm.
  set (fs1 := walked_files is_code_file (os_walk os1 EXCLUDED top)) in *.
  set (fs2 := walked_files is_code_file (os_walk os2 EXCLUDED top)) in *.
  pose proof (partition_files_spec fs1) as S1.
  pose proof (partition_files_spec fs2) as S2.
  pose proof (partition_files_NoDup fs1) as [N1 _].
  pose proof (partition_files_NoDup fs2) as [N2 _].
  destruct (partition_files fs1) as [sources1 tests1].
  destruct (partition_files fs2) as [sources2 tests2].
  cbn [fst snd] in *.
  assert (Hfiles : forall f, In f fs1 <-> In f fs2).
  { intros f. split; apply Permutation_in; [exact Hperm|now symmetry]. }
  assert (Hsources : forall x, In x sources1 <-> In x sources2).
  { intros x. rewrite (proj1 (S1 x)), (proj1 (S2 x)).
    split; intros (f & Hf & Hrest); exists f; split; trivial; now apply Hfiles. }
  assert (Htests : forall x, In x tests1 <-> In x tests2).
  { intros x. rewrite (proj2 (S1 x)), (proj2 (S2 x)).
    split; intros (f & Hf & Hrest); exists f; split; trivial; now apply Hfiles. }
  assert (Hp : Permutation
                 (filter (fun source_file => negb (has_test tests1 source_file)) sources1)
                 (filter (fun source_file => negb (has_test tests2 source_file)) sources2)).
  { rewrite (filter_ext _ (fun source_file => negb (has_test tests2 source_file))).
    - apply Permutation_filter. now apply NoDup_Permutation.
    - intros x. f_equal. now apply has_test_same. }
  unfold sorted_by.
  apply (sorted_perm_unique (fun a b => String.leb a b = true)).
  - intros x y _ _. apply String.leb_antisym.
  - apply stable_sort_sorted.
    + intros x y. apply String.leb_total.
    + intros x y z. apply string_leb_trans.
  - apply stable_sort_sorted.
    + intros x y. apply String.leb_total.
    + intros x y z. apply string_leb_trans.
  - rewrite <- !stable_sort_perm. exact Hp.
Qed.

(** ** find_duplicate_blocks *)

Lemma occurrences_count_same {V} (h : string) (blocks1 blocks2 : list (string * V)) :
  Permutation blocks1 blocks2 ->
  List.length (occurrences h blocks1) = List.length (occurrences h blocks2).
Proof.
  intros H. unfold occurrences. rewrite !length_map.
  apply Permutation_length. now apply Permutation_filter.
Qed.

Lemma index_blocks_NoDup (blocks : list (string * (string * nat))) :
  NoDup (map fst (index_blocks blocks)).
Proof. apply (record_all_NoDup blocks []). constructor. Qed.

Lemma duplicates_of_hashes (hashes : list (string * list (string * nat))) :
  NoDup (map fst hashes) -> NoDup (map dup_hash (duplicates_of hashes)).
Proof.
  induction hashes as [|[h occ] hashes IH]; intros Hnd; [constructor|].
  inversion Hnd as [|? ? Hnotin Hnd']; subst.
  unfold duplicates_of. cbn [flat_map]. fold (duplicates_of hashes).
  destruct (1 <? List.length occ); cbn [app map]; [|now apply IH].
  constructor; [|now apply IH].
  cbn [dup_hash]. intros Hin. apply Hnotin.
  apply in_map_iff in Hin. destruct Hin as (d & <- & Hd).
  apply duplicates_of_In in Hd. destruct Hd as (occ' & Hin & _).
  apply in_map_iff. now exists (dup_hash d, occ').
Qed.

(** The groups of a scan, as pairs of a fingerprint and a count. *)
Lemma duplicates_counts_In (blocks : list (string * (string * nat)))
  (h : string) (c : nat) :
  In (h, c) (map (fun d => (dup_hash d, dup_count d))
                 (duplicates_of (index_blocks blocks))) <->
  c = List.length (occurrences h blocks) /\ 2 <= c.
Proof.
  rewrite in_map_iff. split.
  - intros (d & E & Hd). injection E as <- <-.
    apply duplicates_of_In in Hd. destruct Hd as (occ & Hin & Hlen & Hc & _).
    apply index_blocks_item in Hin. subst occ. split; [exact Hc|lia].
  - intros [-> Hlen].
    exists {| dup_hash := h; dup_count := List.length (occurrences h blocks);
              dup_locations := occurrences h blocks |}.
    split; [reflexivity|]. apply duplicates_of_In.
    exists (occurrences h blocks). cbn [dup_hash dup_count dup_locations].
    repeat split; trivial. apply index_blocks_has.
    destruct (occurrences h blocks); [simpl in Hlen; lia|discriminate].
Qed.

Lemma duplicates_counts_same (blocks1 blocks2 : list (string * (string * nat))) :
  Permutation blocks1 blocks2 ->
  Permutation (map dup_count (duplicates_of (index_blocks blocks1)))
              (map dup_count (duplicates_of (index_blocks blocks2))).
Proof.
  intros Hperm.
  assert (Hp : Permutation
                 (map (fun d => (dup_hash d, dup_count d))
                      (duplicates_of (index_blocks blocks1)))
                 (map (fun d => (dup_hash d, dup_count d))
                      (duplicates_of (index_blocks blocks2)))).
  { apply NoDup_Permutation.
    - apply NoDup_of_keys. rewrite map_map. cbn [fst].
      apply duplicates_of_hashes, index_blocks_NoDup.
    - apply NoDup_of_keys. rewrite map_map. cbn [fst].
      apply duplicates_of_hashes, index_blocks_NoDup.
    - intros [h c]. rewrite !duplicates_counts_In.
      now rewrite (occurrences_count_same h blocks1 blocks2 Hperm). }
  apply (Permutation_map snd) in Hp. rewrite !map_map in Hp. exact Hp.
Qed.

Lemma sorted_counts_same (l1 l2 : list duplicate) :
  Permutation (map dup_count l1) (map dup_count l2) ->
  map dup_count (sorted_by_reverse Nat.leb dup_count l1) =
  map dup_count (sorted_by_reverse Nat.leb dup_count l2).
Proof.
  intros Hperm. unfold sorted_by_reverse.
  apply (sorted_perm_unique (fun a b => Nat.leb b a = true)).
  - intros x y _ _ H1 H2. apply Nat.leb_le in H1, H2. lia.
  - apply StronglySorted_map. apply stable_sort_sorted.
    + intros x y. destruct (Nat.leb_spec (dup_count y) (dup_count x)); [now left|].
      right. apply Nat.leb_le. lia.
    + intros x y z H1 H2. apply Nat.leb_le in H1, H2. apply Nat.leb_le. lia.
  - apply StronglySorted_map. apply stable_sort_sorted.
    + intros x y. destruct (Nat.leb_spec (dup_count y) (dup_count x)); [now left|].
      right. apply Nat.leb_le. lia.
    + intros x y z H1 H2. apply Nat.leb_le in H1, H2. apply Nat.leb_le. lia.
  - rewrite <- !stable_sort_perm. exact Hperm.
Qed.

Lemma find_duplicate_blocks_counts (md5_hexdigest : string -> string)
  (os1 os2 : os_state) (top : string) (block_size : nat) :
  same_directory os1 os2 top ->
  map dup_count (find_duplicate_blocks md5_hexdigest os1 top block_size) =
  map dup_count (find_duplicate_blocks md5_hexdigest os2 top block_size).
Proof.
  intros Hsame. unfold find_duplicate_blocks. rewrite <- !firstn_map. f_equal.
  apply sorted_counts_same, duplicates_counts_same.
  unfold scanned_blocks. apply Permutation_flat_map. now apply os_walk_same.
Qed.

(** ** analyze_dependency_age *)

Lemma lookup_entry_In (name : string) (n : node) (es : list (string * node)) :
  NoDup (map fst es) -> (lookup_entry name es = Some n <-> In (name, n) es).
Proof.
  induction es as [|[k m] es IH]; intros Hnd; [simpl; split; [discriminate|tauto]|].
  inversion Hnd as [|? ? Hnotin Hnd']; subst. cbn [lookup_entry In].
  destruct (String.eqb_spec k name) as [->|Hne].
  - split.
    + intros E. injection E as ->. now left.
    + intros [E|Hin]; [now injection E as ->|].
      exfalso. apply Hnotin. apply in_map_iff. now exists (name, n).
  - rewrite (IH Hnd'). split; [tauto|]. intros [E|Hin]; [|exact Hin].
    injection E as -> _. now destruct Hne.
Qed.

Lemma lookup_entry_perm (name : string) (es1 es : list (string * node)) :
  Permutation es1 es -> NoDup (map fst es1) ->
  lookup_entry name es1 = lookup_entry name es.
Proof.
  intros Hperm Hnd.
  assert (Hnd' : NoDup (map fst es))
    by (apply (Permutation_NoDup (Permutation_map fst Hperm) Hnd)).
  destruct (lookup_entry name es1) as [n|] eqn:E1.
  - apply (lookup_entry_In _ _ _ Hnd) in E1. symmetry.
    apply (lookup_entry_In _ _ _ Hnd'). now apply (Permutation_in _ Hperm).
  - destruct (lookup_entry name es) as [n|] eqn:E; [|reflexivity].
    apply (lookup_entry_In _ _ _ Hnd') in E.
    apply (Permutation_in _ (Permutation_sym Hperm)) in E.
    apply (lookup_entry_In _ _ _ Hnd) in E. congruence.
Qed.

Lemma lookup_entry_same (name : string) (es es2 : list (string * node)) :
  Forall2 (fun e1 e2 => fst e1 = fst e2 /\ same_entries (snd e1) (snd e2)) es es2 ->
  match lookup_entry name es, lookup_entry name es2 with
  | Some n1, Some n2 => same_entries n1 n2
  | None, None => True
  | _, _ => False
  end.
Proof.
  induction 1 as [|[k1 n1] [k2 n2] l1 l2 [Hname Hs] Hrest IH]; [exact I|].
  cbn in Hname, Hs. subst k2. cbn [lookup_entry].
  destruct (String.eqb k1 name); [exact Hs|exact IH].
Qed.

Section SameTop.
Variables os1 os2 : os_state.
Variable top : string.
Hypothesis same : same_directory os1 os2 top.
Hypothesis distinct : NoDup (listed_names os1 top).
Hypothesis same_now : os_now os1 = os_now os2.
Hypothesis same_convert : forall t, os_fromtimestamp os1 t = os_fromtimestamp os2 t.

Lemma child_same (fname : string) :
  match child (os_tree os1 top) fname, child (os_tree os2 top) fname with
  | Some n1, Some n2 => node_mtime n1 = node_mtime n2
  | None, None => True
  | _, _ => False
  end.
Proof.
  unfold same_directory in same. unfold listed_names in distinct. unfold child.
  destruct (os_tree os1 top) as [n1|], (os_tree os2 top) as [n2|];
    [|destruct same|destruct same|exact I].
  destruct same as [content mtime|listable mtime es1 es es2 Hperm Hall]; [exact I|].
  rewrite (lookup_entry_perm fname es1 es); trivial.
  pose proof (lookup_entry_same fname es es2 Hall) as Hl.
  destruct (lookup_entry fname es), (lookup_entry fname es2); trivial.
  now apply same_entries_mtime.
Qed.

Lemma dependency_step_same (result : dependency_age) (fname : string) :
  dependency_step os1 top result fname = dependency_step os2 top result fname.
Proof.
  pose proof (child_same fname) as Hc. unfold dependency_step, age_in_days.
  destruct (child (os_tree os1 top) fname) as [n1|],
           (child (os_tree os2 top) fname) as [n2|];
    [|destruct Hc|destruct Hc|reflexivity].
  now rewrite Hc, same_convert, same_now.
Qed.

Lemma analyze_dependency_age_same :
  analyze_dependency_age os1 top = analyze_dependency_age os2 top.
Proof.
  unfold analyze_dependency_age.
  generalize {| has_requirements := false; has_lock_file := false;
                lock_file_age_days := None; deprecated_packages := [] |}.
  induction DEPENDENCY_FILES as [|fname fnames IH]; intros result; [reflexivity|].
  cbn [fold_left]. rewrite dependency_step_same. apply IH.
Qed.
End SameTop.

(** ** The same listing *)

Section SameListing.
Variables os1 os2 : os_state.
Variable top : string.
Hypothesis same_tree : os_tree os1 top = os_tree os2 top.
Hypothesis same_now : os_now os1 = os_now os2.
Hypothesis same_convert : forall t, os_fromtimestamp os1 t = os_fromtimestamp os2 t.

Lemma os_walk_listing (excluded : list string) :
  os_walk os1 excluded top = os_walk os2 excluded top.
Proof. unfold os_walk. now rewrite same_tree. Qed.

Lemma find_complex_files_listing (threshold : Z) :
  find_complex_files os1 top threshold = find_complex_files os2 top threshold.
Proof. unfold find_complex_files, complex_candidates. now rewrite os_walk_listing. Qed.

Lemma find_duplicate_blocks_listing (md5_hexdigest : string -> string)
  (block_size : nat) :
  find_duplicate_blocks md5_hexdigest os1 top block_size =
  find_duplicate_blocks md5_hexdigest os2 top block_size.
Proof. unfold find_duplicate_blocks, scanned_blocks. now rewrite os_walk_listing. Qed.

Lemma find_undocumented_code_listing :
  find_undocumented_code os1 top = find_undocumented_code os2 top.
Proof. unfold find_undocumented_code. now rewrite os_walk_listing. Qed.

Lemma find_stale_files_listing (strftime_ymd : Z -> string) (months : Z) :
  find_stale_files strftime_ymd os1 top months =
  find_stale_files strftime_ymd os2 top months.
Proof.
  unfold find_stale_files, stale_candidates. rewrite os_walk_listing, same_now.
  f_equal. apply flat_map_ext. intros f. now rewrite same_convert.
Qed.
End SameListing.

(** ** The six categories *)

Section SameCategories.
Variable md5_hexdigest : string -> string.
Variable strftime_ymd : Z -> string.
Variables os1 os2 : os_state.
Variable top : string.
Hypothesis same : same_directory os1 os2 top.
Hypothesis distinct : NoDup (listed_names os1 top).
Hypothesis same_now : os_now os1 = os_now os2.
Hypothesis same_convert : forall t, os_fromtimestamp os1 t = os_fromtimestamp os2 t.

Lemma complexity_same :
  same_figures ("Complexity Debt", _analyze_complexity os1 top)
               ("Complexity Debt", _analyze_complexity os2 top).
Proof.
  unfold same_figures, _analyze_complexity, len_Q.
  cbn [fst snd name estimated_hours severity recommendations details].
  rewrite (find_complex_files_count os1 os2 top same). repeat split; reflexivity.
Qed.

Lemma duplication_same :
  same_figures ("Duplication Debt", _analyze_duplication md5_hexdigest os1 top)
               ("Duplication Debt", _analyze_duplication md5_hexdigest os2 top).
Proof.
  pose proof (find_duplicate_blocks_counts md5_hexdigest os1 os2 top 5 same) as Hc.
  assert (Hl : List.length (find_duplicate_blocks md5_hexdigest os1 top 5) =
               List.length (find_duplicate_blocks md5_hexdigest os2 top 5)).
  { apply (f_equal (@List.length nat)) in Hc. now rewrite !length_map in Hc. }
  unfold same_figures, _analyze_duplication, len_Q.
  cbn [fst snd name estimated_hours severity recommendations details].
  rewrite Hc, Hl. repeat split; reflexivity.
Qed.

Lemma tests_same :
  same_figures ("Test Coverage Debt", _analyze_tests os1 top)
               ("Test Coverage Debt", _analyze_tests os2 top).
Proof.
  unfold same_figures, _analyze_tests.
  rewrite (find_untested_code_same os1 os2 top same). repeat split; reflexivity.
Qed.

Lemma documentation_same :
  same_figures ("Documentation Debt", _analyze_documentation os1 top)
               ("Documentation Debt", _analyze_documentation os2 top).
Proof.
  unfold same_figures, _analyze_documentation.
  cbn [fst snd name estimated_hours severity recommendations details].
  rewrite (find_undocumented_code_total os1 os2 top same). repeat split; reflexivity.
Qed.

Lemma stale_same :
  same_figures ("Stale Code Debt", _analyze_stale_code strftime_ymd os1 top)
               ("Stale Code Debt", _analyze_stale_code strftime_ymd os2 top).
Proof.
  unfold same_figures, _analyze_stale_code, len_Q.
  cbn [fst snd name estimated_hours severity recommendations details].
  rewrite (find_stale_files_count os1 os2 top same same_now same_convert).
  repeat split; reflexivity.
Qed.

Lemma dependencies_same :
  _analyze_dependencies os1 top = _analyze_dependencies os2 top.
Proof.
  unfold _analyze_dependencies.
  now rewrite (analyze_dependency_age_same os1 os2 top same distinct same_now
                 same_convert).
Qed.
End SameCategories.

Lemma same_figures_hours (cats1 cats2 : list (string * DebtCategory)) :
  Forall2 same_figures cats1 cats2 ->
  map estimated_hours (values cats1) = map estimated_hours (values cats2).
Proof.
  unfold values.
  induction 1 as [|c1 c2 l1 l2 (_ & _ & Hh & _) Hrest IH]; [reflexivity|].
  cbn [map]. now rewrite Hh, IH.
Qed.

Lemma same_figures_severities (s : Severity) (cats1 cats2 : list (string * DebtCategory)) :
  Forall2 same_figures cats1 cats2 ->
  count_severity s cats1 = count_severity s cats2.
Proof.
  unfold count_severity, values.
  induction 1 as [|c1 c2 l1 l2 (_ & _ & _ & Hs & _) Hrest IH]; [reflexivity|].
  cbn [map filter]. rewrite Hs.
  destruct (severity_eqb (severity (snd c2)) s); cbn [List.length]; now rewrite IH.
Qed.

Lemma same_figures_summary (cats1 cats2 : list (string * DebtCategory)) (total : Q) :
  Forall2 same_figures cats1 cats2 ->
  _generate_summary cats1 total = _generate_summary cats2 total.
Proof.
  intros H. unfold _generate_summary.
  now rewrite (same_figures_severities CRITICAL cats1 cats2 H),
    (same_figures_severities HIGH cats1 cats2 H).
Qed.

Lemma analyze_call_cases (md5_hexdigest : string -> string)
  (strftime_ymd : Z -> string) (os : os_state) (path : string) :
  analyze_call md5_hexdigest strftime_ymd os path =
  if refused (os_abspath os path) then Raise ValueError
  else if cutoff_in_range os STALE_MONTHS
       then analyze md5_hexdigest strftime_ymd os path
       else Raise OverflowError.
Proof.
  unfold analyze_call, find_complex_files_call, find_duplicate_blocks_call,
    find_untested_code_call, find_undocumented_code_call, find_stale_files_call,
    os_walk_call.
  destruct (refused (os_abspath os path)); cbn [bind ret]; [reflexivity|].
  pose proof (stale_cutoff_call os STALE_MONTHS) as Hc.
  destruct (timedelta_days (30 * STALE_MONTHS)) as [delta|e]; cbn [bind] in *.
  - destruct (datetime_minus (os_now os) delta) as [cutoff|e]; cbn [bind ret];
      destruct (cutoff_in_range os STALE_MONTHS);
      try discriminate Hc; try reflexivity; congruence.
  - destruct (cutoff_in_range os STALE_MONTHS); [discriminate Hc|congruence].
Qed.

(** C9.  Take two runs of [analyze] on a path that resolves to the same
    directory: the same entries with the same contents and modification
    times, listed in whatever order, no name twice, read at the same
    current time.  Either both calls raise, and the same error, or both
    return, and the two results give, category by category, the same name,
    the same hours, the same severity, the same recommendations and the
    same details, with the same total and the same summary; when the
    listings come in the same order too the categories are the same
    throughout.  The timestamps and the rest of the file system are
    nothing to the figures. *)
Theorem C9_analyze_twice (md5_hexdigest : string -> string) (strftime_ymd : Z -> string)
  (os1 os2 : os_state) (path : string) :
  os_abspath os1 path = os_abspath os2 path ->
  same_directory os1 os2 (os_abspath os1 path) ->
  NoDup (listed_names os1 (os_abspath os1 path)) ->
  os_now os1 = os_now os2 ->
  (forall t, os_fromtimestamp os1 t = os_fromtimestamp os2 t) ->
  match analyze_call md5_hexdigest strftime_ymd os1 path,
        analyze_call md5_hexdigest strftime_ymd os2 path with
  | Ok r1, Ok r2 =>
      same_analysis r1 r2
      /\ (os_tree os1 (os_abspath os1 path) = os_tree os2 (os_abspath os1 path) ->
          categories r1 = categories r2)
  | Raise e1, Raise e2 => e1 = e2
  | _, _ => False
  end.
Proof.
  intros Habs Hsame Hdistinct Hnow Hconvert.
  rewrite !analyze_call_cases. rewrite <- Habs.
  assert (Hcut : cutoff_in_range os2 STALE_MONTHS = cutoff_in_range os1 STALE_MONTHS)
    by (unfold cutoff_in_range; now rewrite Hnow).
  rewrite Hcut.
  destruct (refused (os_abspath os1 path)); [reflexivity|].
  destruct (cutoff_in_range os1 STALE_MONTHS); [|reflexivity].
  unfold analyze, ret. rewrite <- Habs.
  set (rp := os_abspath os1 path) in *.
  assert (Hcats : Forall2 same_figures
    [("Complexity Debt", _analyze_complexity os1 rp);
     ("Duplication Debt", _analyze_duplication md5_hexdigest os1 rp);
     ("Test Coverage Debt", _analyze_tests os1 rp);
     ("Documentation Debt", _analyze_documentation os1 rp);
     ("Stale Code Debt", _analyze_stale_code strftime_ymd os1 rp);
     ("Dependency Debt", _analyze_dependencies os1 rp)]
    [("Complexity Debt", _analyze_complexity os2 rp);
     ("Duplication Debt", _analyze_duplication md5_hexdigest os2 rp);
     ("Test Coverage Debt", _analyze_tests os2 rp);
     ("Documentation Debt", _analyze_documentation os2 rp);
     ("Stale Code Debt", _analyze_stale_code strftime_ymd os2 rp);
     ("Dependency Debt", _analyze_dependencies os2 rp)]).
  { repeat apply Forall2_cons; [| | | | | |apply Forall2_nil].
    - now apply complexity_same.
    - now apply duplication_same.
    - now apply tests_same.
    - now apply documentation_same.
    - now apply stale_same.
    - rewrite (dependencies_same os1 os2 rp Hsame Hdistinct Hnow Hconvert).
      repeat split. }
  split.
  - unfold same_analysis. cbn [repo_path categories total_hours summary].
    split; [reflexivity|]. split; [exact Hcats|].
    rewrite (same_figures_hours _ _ Hcats). split; [reflexivity|].
    apply (same_figures_summary _ _ _ Hcats).
  - intros Htree. cbn [categories].
    unfold _analyze_complexity, _analyze_duplication, _analyze_tests,
      _analyze_documentation, _analyze_stale_code.
    rewrite (find_complex_files_listing os1 os2 rp Htree),
      (find_duplicate_blocks_listing os1 os2 rp Htree),
      (find_untested_code_same os1 os2 rp Hsame),
      (find_undocumented_code_listing os1 os2 rp Htree),
      (find_stale_files_listing os1 os2 rp Htree Hnow Hconvert),
      (dependencies_same os1 os2 rp Hsame Hdistinct Hnow Hconvert).
    reflexivity.
Qed.

(** C9 on two runs that meet the entries in another order and at another
    time of the day. *)
Lemma C9_two_runs :
  os_timestamp first_run_os <> os_timestamp second_run_os
  /\ os_tree first_run_os "/repo" <> os_tree second_run_os "/repo"
  /\ raises (analyze_call text_digest day_number first_run_os "/repo") = false
  /\ match analyze_call text_digest day_number first_run_os "/repo",
           analyze_call text_digest day_number second_run_os "/repo" with
     | Ok r1, Ok r2 =>
         same_analysis r1 r2
         /\ (os_tree first_run_os (os_abspath first_run_os "/repo") =
             os_tree second_run_os (os_abspath first_run_os "/repo") ->
             categories r1 = categories r2)
     | Raise e1, Raise e2 => e1 = e2
     | _, _ => False
     end.
Proof.
  split; [discriminate|]. split; [discriminate|]. split; [reflexivity|].
  apply (C9_analyze_twice text_digest day_number first_run_os second_run_os "/repo").
  - reflexivity.
  - apply (same_Dir true 0 _
             [("requirements.txt", File (Some "click>=8.0") 0);
              ("b.py", File (Some two_lines) 0);
              ("src", Dir true 0 [("c.py", File (Some two_lines) 0);
                                  ("d.js", File (Some two_lines) 0)]);
              ("a.py", File (Some two_lines) 0)]).
    + apply (Permutation_cons_app
               [("requirements.txt", File (Some "click>=8.0") 0);
                ("b.py", File (Some two_lines) 0);
                ("src", Dir true 0 [("c.py", File (Some two_lines) 0);
                                    ("d.js", File (Some two_lines) 0)])] []).
      apply (Permutation_cons_app
               [("requirements.txt", File (Some "click>=8.0") 0)]
               [("src", Dir true 0 [("c.py", File (Some two_lines) 0);
                                    ("d.js", File (Some two_lines) 0)])]).
      apply (Permutation_cons_app
               [("requirements.txt", File (Some "click>=8.0") 0)] []).
      apply Permutation_refl.
    + repeat apply Forall2_cons; try apply Forall2_nil;
        (split; [reflexivity|]); try apply same_File.
      apply (same_Dir true 0 _ [("d.js", File (Some two_lines) 0);
                                ("c.py", File (Some two_lines) 0)]).
      * apply perm_swap.
      * repeat apply Forall2_cons; try apply Forall2_nil;
          (split; [reflexivity|apply same_File]).
  - repeat constructor; simpl; intuition discriminate.
  - reflexivity.
  - reflexivity.
Defined.
